(** * AcquisitionSystem core: ring buffer, recording service, playback
    controller and processing pipeline.

    A shallow embedding of [src/core/*.py].  Python integers are [Z], the
    pixel payload of a frame ([numpy.ndarray]) is an abstract type, Python
    exceptions are explicit results, and the two worker threads of the
    pipeline are a labelled transition system whose steps are the statements
    of the loops. *)

From Stdlib Require Import ZArith List Sorted Bool String DecimalString DecimalN
  QArith Lia.
Import ListNotations.
Local Open Scope Z_scope.

Set Implicit Arguments.

(** ** Python runtime: exceptions and fallible calls *)

Inductive exn : Type :=
| ValueError
| ZeroDivisionError
| OSError
| cv2_error.

Inductive result (A : Type) : Type :=
| Ok (a : A)
| Raise (e : exn).
Arguments Ok {A} a.
Arguments Raise {A} e.

(** [len(x)] of a Python sequence. *)
Definition len {A : Type} (l : list A) : Z := Z.of_nat (List.length l).

(** [a / b] on Python ints: true division, [ZeroDivisionError] on [b = 0].
    The quotient is kept exact (a rational); binary64 rounding is not
    modelled. *)
Definition truediv (a b : Z) : result Q :=
  if b =? 0 then Raise ZeroDivisionError
  else Ok (inject_Z a / inject_Z b)%Q.

(** The last [n] elements of [l], in order. *)
Definition lastn {A : Type} (n : nat) (l : list A) : list A :=
  skipn (List.length l - n) l.

(** ** models.py *)

Module Models.

(** [@dataclass FrameData].  [timestamp] is a clock reading. *)
Record FrameData (ndarray : Type) : Type := mkFrameData {
  frame : ndarray;
  timestamp : Z;
  frame_number : Z;
  source_info : option string
}.

End Models.
Import Models.

(** ** ring_buffer.py *)

Module RingBuffer.
Section WithPayload.
Context {ndarray : Type}.

(** [collections.deque(maxlen=m)]: the items, oldest first. *)
Definition deque_append (maxlen : Z) (d : list (FrameData ndarray))
  (x : FrameData ndarray) : list (FrameData ndarray) :=
  let d' := d ++ [x] in
  if maxlen <? len d' then tl d' else d'.

Record FrameRingBuffer : Type := mkBuffer {
  capacity : Z;
  _buffer : list (FrameData ndarray)
}.

(** [FrameRingBuffer(capacity)]; [deque] refuses a negative [maxlen]. *)
Definition init (capacity : Z) : result FrameRingBuffer :=
  if capacity <? 0 then Raise ValueError
  else Ok (mkBuffer capacity []).

Definition add (self : FrameRingBuffer) (frame_data : FrameData ndarray)
  : FrameRingBuffer :=
  mkBuffer (capacity self)
    (deque_append (capacity self) (_buffer self) frame_data).

Definition get (self : FrameRingBuffer) (index : Z) : option (FrameData ndarray) :=
  if (0 <=? index) && (index <? len (_buffer self))
  then nth_error (_buffer self) (Z.to_nat index)
  else None.

Definition get_latest (self : FrameRingBuffer) : option (FrameData ndarray) :=
  if len (_buffer self) >? 0 then last (map Some (_buffer self)) None
  else None.

(** [for frame_data in reversed(self._buffer)]: newest first. *)
Definition get_by_frame_number (self : FrameRingBuffer) (n : Z)
  : option (FrameData ndarray) :=
  find (fun fd => frame_number fd =? n) (rev (_buffer self)).

Definition get_size (self : FrameRingBuffer) : Z := len (_buffer self).

Definition get_capacity (self : FrameRingBuffer) : Z := capacity self.

Definition get_fill_percentage (self : FrameRingBuffer) : result Q :=
  match truediv (get_size self) (capacity self) with
  | Ok q => Ok (q * 100)%Q
  | Raise e => Raise e
  end.

Definition clear (self : FrameRingBuffer) : FrameRingBuffer :=
  mkBuffer (capacity self) [].

Definition get_all_frame_numbers (self : FrameRingBuffer) : list Z :=
  map (@frame_number _) (_buffer self).

Definition get_frame_range (self : FrameRingBuffer) : option Z * option Z :=
  match _buffer self with
  | [] => (None, None)
  | first :: _ =>
      (Some (frame_number first),
       Some (frame_number (last (_buffer self) first)))
  end.

(** Successive [add] calls, in the order of the list. *)
Definition add_all (self : FrameRingBuffer) (frames : list (FrameData ndarray))
  : FrameRingBuffer :=
  fold_left add frames self.

End WithPayload.
Arguments FrameRingBuffer : clear implicits.
End RingBuffer.

(** ** recording_service.py *)

Module Recording.

(** [pathlib.Path] as the list of its components; a session name is one
    relative component. *)
Definition Path : Type := list string.

Definition path_div (p : Path) (name : string) : Path := p ++ [name].

Definition path_str (p : Path) : string := String.concat "/" p.

Definition path_eq_dec : forall p q : Path, {p = q} + {p <> q} :=
  list_eq_dec string_dec.

(** [str(self.current_recording_folder)]. *)
Definition str_folder (o : option Path) : string :=
  match o with
  | Some p => path_str p
  | None => "None"%string
  end.

Fixpoint zeros (n : nat) : string :=
  match n with
  | O => EmptyString
  | S k => ("0" ++ zeros k)%string
  end.

(** The format specification [:06d]. *)
Definition format_06d (n : Z) : string :=
  let digits := NilZero.string_of_uint (N.to_uint (Z.abs_N n)) in
  let sign := if n <? 0 then "-"%string else EmptyString in
  (sign ++ zeros (6 - String.length sign - String.length digits) ++ digits)%string.

Definition frame_filename (counter : Z) : string :=
  ("frame_" ++ format_06d counter ++ ".png")%string.

Section WithPayload.
Context {ndarray : Type}.

(** [cv2.cvtColor(frame, cv2.COLOR_RGB2BGR)]; [None] when OpenCV rejects the
    array (it raises [cv2.error]). *)
Variable cvtColor_RGB2BGR : ndarray -> option ndarray.

(** What the service leaves on disk: the directories made and the image
    files written, oldest first, one entry for each write.  A write to a
    path that was written before replaces the file, so of the entries of
    one path the last is what the disk holds; [file_at] reads the disk. *)
Record Disk : Type := mkDisk {
  directories : list Path;
  images : list (Path * ndarray)
}.

(** [folder.mkdir(parents=True, exist_ok=True)], when the system call
    succeeds. *)
Definition mkdir (disk : Disk) (folder : Path) : Disk :=
  if in_dec path_eq_dec folder (directories disk) then disk
  else mkDisk (directories disk ++ [folder]) (images disk).

(** [cv2.imwrite(str(filepath), img)], when it answers [True]: the file is
    created, or replaced when there is one at that path. *)
Definition imwrite (disk : Disk) (filepath : Path) (img : ndarray) : Disk :=
  mkDisk (directories disk) (images disk ++ [(filepath, img)]).

(** The content of the file at [filepath]: what was written there last. *)
Definition file_at (disk : Disk) (filepath : Path) : option ndarray :=
  match
    find (fun entry => if path_eq_dec (fst entry) filepath then true else false)
      (rev (images disk))
  with
  | Some entry => Some (snd entry)
  | None => None
  end.

Record RecordingService : Type := mkService {
  output_folder : Path;
  current_recording_folder : option Path;
  frame_counter : Z;
  is_recording : bool
}.

Definition init (output_folder : string) : RecordingService :=
  mkService [output_folder] None 0 false.

(** [start_recording(name)].  [clock_name] is the name built from
    [datetime.now()], [mkdir_ok] tells whether the directory can be made. *)
Definition start_recording (name : option string) (clock_name : string)
  (mkdir_ok : bool) (self : RecordingService) (disk : Disk)
  : result string * RecordingService * Disk :=
  if is_recording self then
    (Ok (str_folder (current_recording_folder self)), self, disk)
  else
    let name :=
      match name with
      | None => clock_name
      | Some n => n
      end in
    let folder := path_div (output_folder self) name in
    let self1 :=
      mkService (output_folder self) (Some folder) (frame_counter self)
        (is_recording self) in
    if mkdir_ok then
      (Ok (path_str folder),
       mkService (output_folder self) (Some folder) 0 true,
       mkdir disk folder)
    else (Raise OSError, self1, disk).

(** [record_frame(frame)].  [write_ok] is the answer of [cv2.imwrite]. *)
Definition record_frame (write_ok : bool) (self : RecordingService)
  (disk : Disk) (frame : ndarray) : result bool * RecordingService * Disk :=
  match is_recording self, current_recording_folder self with
  | true, Some folder =>
      let filename := frame_filename (frame_counter self) in
      let filepath := path_div folder filename in
      match cvtColor_RGB2BGR frame with
      | None => (Raise cv2_error, self, disk)
      | Some frame_bgr =>
          if write_ok then
            (Ok true,
             mkService (output_folder self) (current_recording_folder self)
               (frame_counter self + 1) (is_recording self),
             imwrite disk filepath frame_bgr)
          else (Ok false, self, disk)
      end
  | _, _ => (Ok false, self, disk)
  end.

Definition stop_recording (self : RecordingService)
  : (string * Z) * RecordingService :=
  if is_recording self then
    ((str_folder (current_recording_folder self), frame_counter self),
     mkService (output_folder self) None 0 false)
  else ((EmptyString, 0), self).

Definition is_recording_active (self : RecordingService) : bool :=
  is_recording self.

Definition get_frame_count (self : RecordingService) : Z :=
  if is_recording self then frame_counter self else 0.

(** A run of [record_frame] calls, one per frame, each with the answer of
    its write; the results are returned oldest first.  A call that raises
    ends the run, as it would end the caller. *)
Fixpoint record_all (calls : list (ndarray * bool)) (self : RecordingService)
  (disk : Disk) : result (list bool) * RecordingService * Disk :=
  match calls with
  | [] => (Ok [], self, disk)
  | (frame, write_ok) :: rest =>
      match record_frame write_ok self disk frame with
      | (Ok b, self', disk') =>
          match record_all rest self' disk' with
          | (Ok bs, self'', disk'') => (Ok (b :: bs), self'', disk'')
          | r => r
          end
      | (Raise e, self', disk') => (Raise e, self', disk')
      end
  end.

(** The same run for a caller that carries on after a call that raises, as
    the processing loop of the pipeline does; every answer is returned. *)
Fixpoint record_each (calls : list (ndarray * bool)) (self : RecordingService)
  (disk : Disk) : list (result bool) * RecordingService * Disk :=
  match calls with
  | [] => ([], self, disk)
  | (frame, write_ok) :: rest =>
      match record_frame write_ok self disk frame with
      | (r, self', disk') =>
          match record_each rest self' disk' with
          | (rs, self'', disk'') => (r :: rs, self'', disk'')
          end
      end
  end.

(** What a call with this frame and this answer of [cv2.imwrite] returns
    during a session. *)
Definition answer (call : ndarray * bool) : result bool :=
  match cvtColor_RGB2BGR (fst call) with
  | Some _ => Ok (snd call)
  | None => Raise cv2_error
  end.

(** The converted frames of the calls that succeed, in the order of the
    calls. *)
Definition stored (calls : list (ndarray * bool)) : list ndarray :=
  flat_map
    (fun call : ndarray * bool =>
       match cvtColor_RGB2BGR (fst call) with
       | Some frame_bgr => if snd call then [frame_bgr] else []
       | None => []
       end)
    calls.

End WithPayload.
Arguments Disk : clear implicits.
End Recording.

(** ** playback_controller.py *)

Module Playback.

Inductive PlaybackState : Type := STOPPED | PLAYING | PAUSED.

Definition PlaybackState_eqb (a b : PlaybackState) : bool :=
  match a, b with
  | STOPPED, STOPPED | PLAYING, PLAYING | PAUSED, PAUSED => true
  | _, _ => false
  end.

(** The controller object.  [_lock] tells whether the [threading.Lock] is
    held; [_play_thread] whether a drive-loop thread object exists;
    [_frame_callback] whether a callback is set.  The last two fields are
    what the controller does to the outside: the arguments of the callback
    calls, oldest first, and the number of drive loops launched. *)
Record PlaybackController : Type := mkController {
  _fps : Q;
  _state : PlaybackState;
  _current_frame : Z;
  _loop_enabled : bool;
  _total_frames : option Z;
  _lock : bool;
  _play_thread : bool;
  _stop_event : bool;
  _frame_callback : bool;
  callback_calls : list Z;
  threads_started : nat
}.

Definition init (fps : Q) : PlaybackController :=
  mkController fps STOPPED 0 false None false false false false [] 0.

(** A method call either returns, or never does: the calling thread waits
    on [_lock] for ever. *)
Inductive outcome (A : Type) : Type :=
| Returned (a : A) (self : PlaybackController)
| Blocked (self : PlaybackController).
Arguments Returned {A} a self.
Arguments Blocked {A} self.

Definition M (A : Type) : Type := PlaybackController -> outcome A.

Definition ret {A : Type} (a : A) : M A := fun self => Returned a self.

Definition bind {A B : Type} (m : M A) (k : A -> M B) : M B :=
  fun self =>
    match m self with
    | Returned a self' => k a self'
    | Blocked self' => Blocked self'
    end.

Notation "x <- m ;; k" := (bind m (fun x => k))
  (at level 61, m at next level, right associativity).
Notation "m ;; k" := (bind m (fun _ => k))
  (at level 61, right associativity).

Definition read {A : Type} (field : PlaybackController -> A) : M A :=
  fun self => Returned (field self) self.

Definition update (f : PlaybackController -> PlaybackController) : M unit :=
  fun self => Returned tt (f self).

Definition set_lock (b : bool) (c : PlaybackController) : PlaybackController :=
  mkController (_fps c) (_state c) (_current_frame c) (_loop_enabled c)
    (_total_frames c) b (_play_thread c) (_stop_event c) (_frame_callback c)
    (callback_calls c) (threads_started c).

Definition set_state (s : PlaybackState) (c : PlaybackController)
  : PlaybackController :=
  mkController (_fps c) s (_current_frame c) (_loop_enabled c)
    (_total_frames c) (_lock c) (_play_thread c) (_stop_event c)
    (_frame_callback c) (callback_calls c) (threads_started c).

Definition set_current_frame (n : Z) (c : PlaybackController)
  : PlaybackController :=
  mkController (_fps c) (_state c) n (_loop_enabled c)
    (_total_frames c) (_lock c) (_play_thread c) (_stop_event c)
    (_frame_callback c) (callback_calls c) (threads_started c).

Definition set_stop_event (b : bool) (c : PlaybackController)
  : PlaybackController :=
  mkController (_fps c) (_state c) (_current_frame c) (_loop_enabled c)
    (_total_frames c) (_lock c) (_play_thread c) b
    (_frame_callback c) (callback_calls c) (threads_started c).

Definition launch_thread (c : PlaybackController) : PlaybackController :=
  mkController (_fps c) (_state c) (_current_frame c) (_loop_enabled c)
    (_total_frames c) (_lock c) true (_stop_event c)
    (_frame_callback c) (callback_calls c) (S (threads_started c)).

Definition log_call (n : Z) (c : PlaybackController) : PlaybackController :=
  mkController (_fps c) (_state c) (_current_frame c) (_loop_enabled c)
    (_total_frames c) (_lock c) (_play_thread c) (_stop_event c)
    (_frame_callback c) (callback_calls c ++ [n]) (threads_started c).

(** [self._lock.acquire()] of a non-reentrant [threading.Lock]. *)
Definition acquire : M unit :=
  fun self => if _lock self then Blocked self else Returned tt (set_lock true self).

Definition release : M unit := update (set_lock false).

(** [with self._lock: body]. *)
Definition with_lock {A : Type} (body : M A) : M A :=
  acquire ;; r <- body ;; release ;; ret r.

(** [if self._frame_callback: self._frame_callback(n)]; the callback is
    taken to return without calling the controller. *)
Definition fire (n : Z) : M unit :=
  cb <- read _frame_callback ;;
  if cb then update (log_call n) else ret tt.

Definition set_frame_callback : M unit :=
  update (fun c =>
    mkController (_fps c) (_state c) (_current_frame c) (_loop_enabled c)
      (_total_frames c) (_lock c) (_play_thread c) (_stop_event c)
      true (callback_calls c) (threads_started c)).

(** [play()]; [alive] is the answer of [self._play_thread.is_alive()]. *)
Definition play (alive : bool) : M unit :=
  with_lock (
    st <- read _state ;;
    if PlaybackState_eqb st PLAYING then ret tt
    else
      update (set_state PLAYING) ;;
      update (set_stop_event false) ;;
      th <- read _play_thread ;;
      if negb th || negb alive then update launch_thread else ret tt).

Definition pause : M unit :=
  with_lock (
    st <- read _state ;;
    if PlaybackState_eqb st PLAYING then
      update (set_state PAUSED) ;;
      update (set_stop_event true)
    else ret tt).

Definition stop : M unit :=
  with_lock (
    update (set_state STOPPED) ;;
    update (set_stop_event true) ;;
    update (set_current_frame 0)).

Definition toggle_play_pause (alive : bool) : M unit :=
  with_lock (
    st <- read _state ;;
    if PlaybackState_eqb st PLAYING then pause else play alive).

Definition step_forward : M unit :=
  with_lock (
    total <- read _total_frames ;;
    cur <- read _current_frame ;;
    let go :=
      match total with
      | None => true
      | Some t => cur <? t - 1
      end in
    if go then
      update (set_current_frame (cur + 1)) ;;
      fire (cur + 1)
    else ret tt).

Definition step_backward : M unit :=
  with_lock (
    cur <- read _current_frame ;;
    if cur >? 0 then
      update (set_current_frame (cur - 1)) ;;
      fire (cur - 1)
    else ret tt).

Definition seek (frame_number : Z) : M unit :=
  with_lock (
    total <- read _total_frames ;;
    let frame_number :=
      match total with
      | Some t => Z.max 0 (Z.min frame_number (t - 1))
      | None => Z.max 0 frame_number
      end in
    update (set_current_frame frame_number) ;;
    fire frame_number).

Definition set_total_frames (total : option Z) : M unit :=
  with_lock (
    update (fun c =>
      mkController (_fps c) (_state c) (_current_frame c) (_loop_enabled c)
        total (_lock c) (_play_thread c) (_stop_event c)
        (_frame_callback c) (callback_calls c) (threads_started c))).

Definition set_loop (enabled : bool) : M unit :=
  with_lock (
    update (fun c =>
      mkController (_fps c) (_state c) (_current_frame c) enabled
        (_total_frames c) (_lock c) (_play_thread c) (_stop_event c)
        (_frame_callback c) (callback_calls c) (threads_started c))).

(** The value clamping of the spec: into [0, total-1] when the total is
    known, at 0 from below otherwise. *)
Definition clamp (total : option Z) (n : Z) : Z :=
  match total with
  | Some t => Z.max 0 (Z.min n (t - 1))
  | None => Z.max 0 n
  end.

End Playback.

(** ** processing_pipeline.py *)

Module Pipeline.
Import RingBuffer.

(** [IDetectionAlgorithm]: [process] answers [None] when it raises. *)
Record IDetectionAlgorithm (ndarray : Type) : Type := mkAlgorithm {
  process : ndarray -> option ndarray;
  get_name : string
}.

(** The calls an [IDataSource] handle receives. *)
Inductive source_call : Type :=
| src_open
| src_start
| src_read_frame
| src_get_info
| src_close.

Section WithPayload.
Context {ndarray : Type}.
Variable cvtColor_RGB2BGR : ndarray -> option ndarray.

(** Where the acquisition thread stands: the statement of
    [_acquisition_loop] it executes next. *)
Inductive acquisition_pc : Type :=
| acq_none                                   (* no thread object *)
| acq_at_test                                (* while self.is_running *)
| acq_at_read                                (* frame = read_frame(); FrameData(...) *)
| acq_at_add (frame_data : FrameData ndarray)  (* self.source_buffer.add *)
| acq_at_put (frame_data : FrameData ndarray)  (* self.processing_queue.put *)
| acq_at_count                               (* self.frames_acquired += 1 *)
| acq_exited.

(** Where the processing thread stands in [_processing_loop]. *)
Inductive processing_pc : Type :=
| proc_none
| proc_at_test                               (* while self.is_running *)
| proc_at_get                                (* self.processing_queue.get *)
| proc_at_process (frame_data : FrameData ndarray)
| proc_at_add (frame_data processed_data : FrameData ndarray)
| proc_at_record (frame_data processed_data : FrameData ndarray)
| proc_at_count (frame_data processed_data : FrameData ndarray)
| proc_at_callback (frame_data processed_data : FrameData ndarray)
| proc_exited.

(** What has happened so far, newest first.  No statement of the program
    reads it; properties are stated over it. *)
Inductive event : Type :=
| ev_session_start
| ev_acquired (frame_data : FrameData ndarray)
| ev_processed (frame_data processed_data : FrameData ndarray).

(** The pipeline object together with what it acts on.  The threads are
    given by their program points; [data_source] is the list of calls made
    to the source handle, [disk] what the recording service wrote,
    [delivered] the calls of [on_new_frame]; [stopping] holds while the
    caller of [stop()] waits in [join]. *)
Record ProcessingPipeline : Type := mkPipeline {
  algorithm : IDetectionAlgorithm ndarray;
  source_buffer : FrameRingBuffer ndarray;
  processed_buffer : FrameRingBuffer ndarray;
  processing_queue : list (FrameData ndarray);
  acquisition_thread : acquisition_pc;
  processing_thread : processing_pc;
  is_running : bool;
  on_new_frame : bool;
  recording_service : Recording.RecordingService;
  frames_acquired : Z;
  frames_processed : Z;
  stopping : bool;
  data_source : list source_call;
  disk : Recording.Disk ndarray;
  delivered : list (FrameData ndarray * FrameData ndarray);
  history : list event
}.

(** [Queue(maxsize=10)]. *)
Definition maxsize : Z := 10.

(** [ProcessingPipeline(data_source, algorithm, buffer_size)]. *)
Definition init (alg : IDetectionAlgorithm ndarray) (buffer_size : Z)
  : result ProcessingPipeline :=
  match RingBuffer.init buffer_size with
  | Ok b =>
      Ok (mkPipeline alg b b [] acq_none proc_none false false
            (Recording.init "recordings") 0 0 false []
            (Recording.mkDisk [] []) [] [])
  | Raise e => Raise e
  end.

Definition with_algorithm (x : IDetectionAlgorithm ndarray) (p : ProcessingPipeline) :=
  mkPipeline x (source_buffer p) (processed_buffer p) (processing_queue p)
    (acquisition_thread p) (processing_thread p) (is_running p)
    (on_new_frame p) (recording_service p) (frames_acquired p)
    (frames_processed p) (stopping p) (data_source p) (disk p) (delivered p)
    (history p).

Definition with_source_buffer (x : FrameRingBuffer ndarray) (p : ProcessingPipeline) :=
  mkPipeline (algorithm p) x (processed_buffer p) (processing_queue p)
    (acquisition_thread p) (processing_thread p) (is_running p)
    (on_new_frame p) (recording_service p) (frames_acquired p)
    (frames_processed p) (stopping p) (data_source p) (disk p) (delivered p)
    (history p).

Definition with_processed_buffer (x : FrameRingBuffer ndarray) (p : ProcessingPipeline) :=
  mkPipeline (algorithm p) (source_buffer p) x (processing_queue p)
    (acquisition_thread p) (processing_thread p) (is_running p)
    (on_new_frame p) (recording_service p) (frames_acquired p)
    (frames_processed p) (stopping p) (data_source p) (disk p) (delivered p)
    (history p).

Definition with_processing_queue (x : list (FrameData ndarray)) (p : ProcessingPipeline) :=
  mkPipeline (algorithm p) (source_buffer p) (processed_buffer p) x
    (acquisition_thread p) (processing_thread p) (is_running p)
    (on_new_frame p) (recording_service p) (frames_acquired p)
    (frames_processed p) (stopping p) (data_source p) (disk p) (delivered p)
    (history p).

Definition with_acquisition_thread (x : acquisition_pc) (p : ProcessingPipeline) :=
  mkPipeline (algorithm p) (source_buffer p) (processed_buffer p)
    (processing_queue p) x (processing_thread p) (is_running p)
    (on_new_frame p) (recording_service p) (frames_acquired p)
    (frames_processed p) (stopping p) (data_source p) (disk p) (delivered p)
    (history p).

Definition with_processing_thread (x : processing_pc) (p : ProcessingPipeline) :=
  mkPipeline (algorithm p) (source_buffer p) (processed_buffer p)
    (processing_queue p) (acquisition_thread p) x (is_running p)
    (on_new_frame p) (recording_service p) (frames_acquired p)
    (frames_processed p) (stopping p) (data_source p) (disk p) (delivered p)
    (history p).

Definition with_is_running (x : bool) (p : ProcessingPipeline) :=
  mkPipeline (algorithm p) (source_buffer p) (processed_buffer p)
    (processing_queue p) (acquisition_thread p) (processing_thread p) x
    (on_new_frame p) (recording_service p) (frames_acquired p)
    (frames_processed p) (stopping p) (data_source p) (disk p) (delivered p)
    (history p).

Definition with_on_new_frame (x : bool) (p : ProcessingPipeline) :=
  mkPipeline (algorithm p) (source_buffer p) (processed_buffer p)
    (processing_queue p) (acquisition_thread p) (processing_thread p)
    (is_running p) x (recording_service p) (frames_acquired p)
    (frames_processed p) (stopping p) (data_source p) (disk p) (delivered p)
    (history p).

Definition with_recording (x : Recording.RecordingService)
  (d : Recording.Disk ndarray) (p : ProcessingPipeline) :=
  mkPipeline (algorithm p) (source_buffer p) (processed_buffer p)
    (processing_queue p) (acquisition_thread p) (processing_thread p)
    (is_running p) (on_new_frame p) x (frames_acquired p)
    (frames_processed p) (stopping p) (data_source p) d (delivered p)
    (history p).

Definition with_frames_acquired (x : Z) (p : ProcessingPipeline) :=
  mkPipeline (algorithm p) (source_buffer p) (processed_buffer p)
    (processing_queue p) (acquisition_thread p) (processing_thread p)
    (is_running p) (on_new_frame p) (recording_service p) x
    (frames_processed p) (stopping p) (data_source p) (disk p) (delivered p)
    (history p).

Definition with_frames_processed (x : Z) (p : ProcessingPipeline) :=
  mkPipeline (algorithm p) (source_buffer p) (processed_buffer p)
    (processing_queue p) (acquisition_thread p) (processing_thread p)
    (is_running p) (on_new_frame p) (recording_service p) (frames_acquired p)
    x (stopping p) (data_source p) (disk p) (delivered p) (history p).

Definition with_stopping (x : bool) (p : ProcessingPipeline) :=
  mkPipeline (algorithm p) (source_buffer p) (processed_buffer p)
    (processing_queue p) (acquisition_thread p) (processing_thread p)
    (is_running p) (on_new_frame p) (recording_service p) (frames_acquired p)
    (frames_processed p) x (data_source p) (disk p) (delivered p) (history p).

(** One more call on the source handle. *)
Definition call_source (c : source_call) (p : ProcessingPipeline) :=
  mkPipeline (algorithm p) (source_buffer p) (processed_buffer p)
    (processing_queue p) (acquisition_thread p) (processing_thread p)
    (is_running p) (on_new_frame p) (recording_service p) (frames_acquired p)
    (frames_processed p) (stopping p) (data_source p ++ [c]) (disk p)
    (delivered p) (history p).

Definition deliver (fd pd : FrameData ndarray) (p : ProcessingPipeline) :=
  mkPipeline (algorithm p) (source_buffer p) (processed_buffer p)
    (processing_queue p) (acquisition_thread p) (processing_thread p)
    (is_running p) (on_new_frame p) (recording_service p) (frames_acquired p)
    (frames_processed p) (stopping p) (data_source p) (disk p)
    (delivered p ++ [(fd, pd)]) (history p).

Definition note (e : event) (p : ProcessingPipeline) :=
  mkPipeline (algorithm p) (source_buffer p) (processed_buffer p)
    (processing_queue p) (acquisition_thread p) (processing_thread p)
    (is_running p) (on_new_frame p) (recording_service p) (frames_acquired p)
    (frames_processed p) (stopping p) (data_source p) (disk p) (delivered p)
    (e :: history p).

(** *** The methods called by the owner of the pipeline *)

(** [start()]; [open_ok] and [start_ok] are the answers of the source's
    [open()] and [start()]. *)
Definition start (open_ok start_ok : bool) (self : ProcessingPipeline)
  : bool * ProcessingPipeline :=
  if is_running self then (true, self)
  else
    let self := call_source src_open self in
    if negb open_ok then (false, self)
    else
      let self := call_source src_start self in
      if negb start_ok then (false, call_source src_close self)
      else
        (true,
         note ev_session_start
           (with_processing_thread proc_at_test
              (with_acquisition_thread acq_at_test
                 (with_is_running true self)))).

(** [stop()], first part: the flag is cleared under the lock. *)
Definition stop_flag (self : ProcessingPipeline) : ProcessingPipeline :=
  if is_running self then with_stopping true (with_is_running false self)
  else self.

(** [stop()], second part, once both [join] calls have returned: the source
    is closed and an active recording stopped. *)
Definition stop_join (self : ProcessingPipeline) : ProcessingPipeline :=
  let self := call_source src_close self in
  let svc := recording_service self in
  let self :=
    if Recording.is_recording_active svc
    then with_recording (snd (Recording.stop_recording svc)) (disk self) self
    else self in
  with_stopping false self.

Definition set_algorithm (alg : IDetectionAlgorithm ndarray)
  (self : ProcessingPipeline) : ProcessingPipeline :=
  with_algorithm alg self.

(** *** One statement of [_acquisition_loop] *)

Definition acq_test (self : ProcessingPipeline) : option ProcessingPipeline :=
  match acquisition_thread self with
  | acq_at_test =>
      Some (with_acquisition_thread
              (if is_running self then acq_at_read else acq_exited) self)
  | _ => None
  end.

(** [frame] is the answer of [read_frame()], [now] of [datetime.now()],
    [name] of [get_info().get("name")]. *)
Definition acq_read (frame : option ndarray) (now : Z) (name : option string)
  (self : ProcessingPipeline) : option ProcessingPipeline :=
  match acquisition_thread self with
  | acq_at_read =>
      let self := call_source src_read_frame self in
      match frame with
      | Some frame =>
          let self := call_source src_get_info self in
          let source_info :=
            match name with
            | Some n => n
            | None => "Unknown"%string
            end in
          let frame_data :=
            mkFrameData frame now (frames_acquired self) (Some source_info) in
          Some (note (ev_acquired frame_data)
                  (with_acquisition_thread (acq_at_add frame_data) self))
      | None => Some (with_acquisition_thread acq_at_test self)
      end
  | _ => None
  end.

Definition acq_buffer_add (self : ProcessingPipeline) : option ProcessingPipeline :=
  match acquisition_thread self with
  | acq_at_add frame_data =>
      Some (with_acquisition_thread (acq_at_put frame_data)
              (with_source_buffer (add (source_buffer self) frame_data) self))
  | _ => None
  end.

(** [put(frame_data, block=False)]; [queue.Full] is swallowed. *)
Definition acq_put (self : ProcessingPipeline) : option ProcessingPipeline :=
  match acquisition_thread self with
  | acq_at_put frame_data =>
      let self :=
        if len (processing_queue self) <? maxsize
        then with_processing_queue (processing_queue self ++ [frame_data]) self
        else self in
      Some (with_acquisition_thread acq_at_count self)
  | _ => None
  end.

Definition acq_count (self : ProcessingPipeline) : option ProcessingPipeline :=
  match acquisition_thread self with
  | acq_at_count =>
      Some (with_acquisition_thread acq_at_test
              (with_frames_acquired (frames_acquired self + 1) self))
  | _ => None
  end.

(** *** One statement of [_processing_loop] *)

Definition proc_test (self : ProcessingPipeline) : option ProcessingPipeline :=
  match processing_thread self with
  | proc_at_test =>
      Some (with_processing_thread
              (if is_running self then proc_at_get else proc_exited) self)
  | _ => None
  end.

(** [get(timeout=0.1)]; on [queue.Empty] the loop continues. *)
Definition proc_get (self : ProcessingPipeline) : option ProcessingPipeline :=
  match processing_thread self with
  | proc_at_get =>
      match processing_queue self with
      | [] => Some (with_processing_thread proc_at_test self)
      | frame_data :: rest =>
          Some (with_processing_thread (proc_at_process frame_data)
                  (with_processing_queue rest self))
      end
  | _ => None
  end.

(** [self.algorithm.process(frame_data.frame)] and the [FrameData] built
    from its result; a fault is caught by the handler at the end of the loop
    body. *)
Definition proc_process (now : Z) (self : ProcessingPipeline)
  : option ProcessingPipeline :=
  match processing_thread self with
  | proc_at_process frame_data =>
      match process (algorithm self) (frame frame_data) with
      | Some processed_frame =>
          let processed_data :=
            mkFrameData processed_frame now (frame_number frame_data)
              (Some (get_name (algorithm self))) in
          Some (note (ev_processed frame_data processed_data)
                  (with_processing_thread
                     (proc_at_add frame_data processed_data) self))
      | None => Some (with_processing_thread proc_at_test self)
      end
  | _ => None
  end.

Definition proc_buffer_add (self : ProcessingPipeline) : option ProcessingPipeline :=
  match processing_thread self with
  | proc_at_add fd pd =>
      Some (with_processing_thread (proc_at_record fd pd)
              (with_processed_buffer (add (processed_buffer self) pd) self))
  | _ => None
  end.

(** The recording of the processed frame when a session is active; a fault
    of [record_frame] reaches the handler at the end of the loop body. *)
Definition proc_record (write_ok : bool) (self : ProcessingPipeline)
  : option ProcessingPipeline :=
  match processing_thread self with
  | proc_at_record fd pd =>
      if Recording.is_recording_active (recording_service self) then
        match Recording.record_frame cvtColor_RGB2BGR write_ok
                (recording_service self) (disk self) (frame pd) with
        | (Ok _, svc, d) =>
            Some (with_processing_thread (proc_at_count fd pd)
                    (with_recording svc d self))
        | (Raise _, svc, d) =>
            Some (with_processing_thread proc_at_test
                    (with_recording svc d self))
        end
      else Some (with_processing_thread (proc_at_count fd pd) self)
  | _ => None
  end.

Definition proc_count (self : ProcessingPipeline) : option ProcessingPipeline :=
  match processing_thread self with
  | proc_at_count fd pd =>
      Some (with_processing_thread (proc_at_callback fd pd)
              (with_frames_processed (frames_processed self + 1) self))
  | _ => None
  end.

(** [self.on_new_frame(frame_data, processed_data)] when a callback is set;
    whether it raises makes no difference, the fault is caught on the
    spot. *)
Definition proc_callback (raises : bool) (self : ProcessingPipeline)
  : option ProcessingPipeline :=
  match processing_thread self with
  | proc_at_callback fd pd =>
      let self := if on_new_frame self then deliver fd pd self else self in
      Some (with_processing_thread proc_at_test self)
  | _ => None
  end.

(** *** The interleavings *)

(** One move of the pipeline and the two threads its fields name: a call by
    the owner of the pipeline (one caller, so no call starts while [stop()]
    waits in [join]), or one statement of one of the two threads.  Here
    [stop()] returns once both loops have left; its return on the timeout
    of a [join], with a loop still alive, is a move of [PipelineSystem]
    below. *)
Inductive label : Type :=
| call_start (open_ok start_ok : bool)
| call_stop
| stop_returns
| call_set_algorithm (alg : IDetectionAlgorithm ndarray)
| call_set_on_new_frame (set : bool)
| call_start_recording (name : option string) (clock_name : string) (mkdir_ok : bool)
| call_stop_recording
| do_acq_test
| do_acq_read (frame : option ndarray) (now : Z) (name : option string)
| do_acq_buffer_add
| do_acq_put
| do_acq_count
| do_proc_test
| do_proc_get
| do_proc_process (now : Z)
| do_proc_buffer_add
| do_proc_record (write_ok : bool)
| do_proc_count
| do_proc_callback (raises : bool).

Definition thread_gone (self : ProcessingPipeline) : bool :=
  match acquisition_thread self, processing_thread self with
  | acq_exited, proc_exited => true
  | _, _ => false
  end.

Definition step (self : ProcessingPipeline) (l : label)
  : option ProcessingPipeline :=
  match l with
  | call_start open_ok start_ok =>
      if stopping self then None else Some (snd (start open_ok start_ok self))
  | call_stop =>
      if stopping self then None else Some (stop_flag self)
  | stop_returns =>
      if stopping self && thread_gone self then Some (stop_join self) else None
  | call_set_algorithm alg =>
      if stopping self then None else Some (set_algorithm alg self)
  | call_set_on_new_frame b =>
      if stopping self then None else Some (with_on_new_frame b self)
  | call_start_recording name clock_name mkdir_ok =>
      if stopping self then None
      else
        match Recording.start_recording name clock_name mkdir_ok
                (recording_service self) (disk self) with
        | (_, svc, d) => Some (with_recording svc d self)
        end
  | call_stop_recording =>
      if stopping self then None
      else
        Some (with_recording
                (snd (Recording.stop_recording (recording_service self)))
                (disk self) self)
  | do_acq_test => acq_test self
  | do_acq_read frame now name => acq_read frame now name self
  | do_acq_buffer_add => acq_buffer_add self
  | do_acq_put => acq_put self
  | do_acq_count => acq_count self
  | do_proc_test => proc_test self
  | do_proc_get => proc_get self
  | do_proc_process now => proc_process now self
  | do_proc_buffer_add => proc_buffer_add self
  | do_proc_record write_ok => proc_record write_ok self
  | do_proc_count => proc_count self
  | do_proc_callback raises => proc_callback raises self
  end.

Fixpoint run (self : ProcessingPipeline) (ls : list label)
  : option ProcessingPipeline :=
  match ls with
  | [] => Some self
  | l :: ls' =>
      match step self l with
      | Some self' => run self' ls'
      | None => None
      end
  end.

(** The states a pipeline built by [init] can be in. *)
Definition reachable (self : ProcessingPipeline) : Prop :=
  exists alg buffer_size p0 ls,
    init alg buffer_size = Ok p0 /\ run p0 ls = Some self.

(** *** Reading the history *)

(** Frame numbers given by the acquisition loop, newest first. *)
Fixpoint acquired_numbers (h : list event) : list Z :=
  match h with
  | [] => []
  | ev_acquired fd :: h' => frame_number fd :: acquired_numbers h'
  | _ :: h' => acquired_numbers h'
  end.

(** Frame numbers given since the last successful [start()], newest
    first. *)
Fixpoint session_numbers (h : list event) : list Z :=
  match h with
  | [] => []
  | ev_session_start :: _ => []
  | ev_acquired fd :: h' => frame_number fd :: session_numbers h'
  | _ :: h' => session_numbers h'
  end.

(** The history up to the last successful [start()]. *)
Fixpoint before_session (h : list event) : list event :=
  match h with
  | [] => []
  | ev_session_start :: h' => h'
  | _ :: h' => before_session h'
  end.

(** The number of successful [start()] calls. *)
Fixpoint sessions (h : list event) : nat :=
  match h with
  | [] => O
  | ev_session_start :: h' => S (sessions h')
  | _ :: h' => sessions h'
  end.

(** The number of frames whose transform returned. *)
Fixpoint transformed (h : list event) : Z :=
  match h with
  | [] => 0
  | ev_processed _ _ :: h' => 1 + transformed h'
  | _ :: h' => transformed h'
  end.

End WithPayload.
End Pipeline.

(** [k, k+1, ..., k+n-1]. *)
Definition zseq (k : Z) (n : nat) : list Z :=
  map (fun i => k + Z.of_nat i) (seq 0 n).

(** ** What the pipeline keeps true *)

Module PipelineInvariant.
Import RingBuffer Pipeline.
Section WithPayload.
Context {ndarray : Type}.
Implicit Types (p : ProcessingPipeline (ndarray := ndarray)).

(** 1 while the acquisition loop holds a stamped frame it has not yet
    counted. *)
Definition acq_created (pc : acquisition_pc (ndarray := ndarray)) : Z :=
  match pc with
  | acq_at_add _ | acq_at_put _ | acq_at_count => 1
  | _ => 0
  end.

(** 1 between the push onto the queue and the increment of the counter. *)
Definition acq_pushed (pc : acquisition_pc (ndarray := ndarray)) : Z :=
  match pc with
  | acq_at_count => 1
  | _ => 0
  end.

Definition acq_holds (pc : acquisition_pc (ndarray := ndarray))
  : list (FrameData ndarray) :=
  match pc with
  | acq_at_add fd | acq_at_put fd => [fd]
  | _ => []
  end.

(** 1 while the processing loop holds a dequeued item it has not counted. *)
Definition proc_in_flight (pc : processing_pc (ndarray := ndarray)) : Z :=
  match pc with
  | proc_at_process _ | proc_at_add _ _ | proc_at_record _ _
  | proc_at_count _ _ => 1
  | _ => 0
  end.

(** 1 while the processing loop holds a transformed frame it has not
    counted. *)
Definition proc_uncounted (pc : processing_pc (ndarray := ndarray)) : Z :=
  match pc with
  | proc_at_add _ _ | proc_at_record _ _ | proc_at_count _ _ => 1
  | _ => 0
  end.

(** The frames the processing loop holds: the dequeued one and its
    transform. *)
Definition proc_holds (pc : processing_pc (ndarray := ndarray))
  : list (FrameData ndarray) :=
  match pc with
  | proc_at_process fd => [fd]
  | proc_at_add fd pd | proc_at_record fd pd | proc_at_count fd pd
  | proc_at_callback fd pd => [fd; pd]
  | _ => []
  end.

Definition threads_idle p : bool :=
  match acquisition_thread p, processing_thread p with
  | (acq_none | acq_exited), (proc_none | proc_exited) => true
  | _, _ => false
  end.

(** No loop runs unless the pipeline is running or being stopped. *)
Definition threads_inv p : Prop :=
  is_running p = false -> stopping p = false -> threads_idle p = true.

(** Every item that left the queue or waits in it was pushed. *)
Definition count_inv p : Prop :=
  0 <= frames_processed p
  /\ frames_processed p + len (processing_queue p)
     + proc_in_flight (processing_thread p)
     <= frames_acquired p + acq_pushed (acquisition_thread p).

(** The numbers given so far are 0, 1, 2, ... in this order. *)
Definition numbers_inv p : Prop :=
  0 <= frames_acquired p
  /\ acquired_numbers (history p)
     = rev (zseq 0 (Z.to_nat (frames_acquired p + acq_created (acquisition_thread p))))
  /\ forall fd, In fd (acq_holds (acquisition_thread p)) ->
                frame_number fd = frames_acquired p.

(** Every frame in the system carries a number the acquisition loop
    gave. *)
Definition known_inv p : Prop :=
  forall fd,
    In fd (acq_holds (acquisition_thread p)
           ++ _buffer (source_buffer p)
           ++ processing_queue p
           ++ proc_holds (processing_thread p)
           ++ _buffer (processed_buffer p)) ->
    In (frame_number fd) (acquired_numbers (history p)).

(** Nothing is acquired before the first session, and the first session
    has all the numbers. *)
Definition first_session_inv p : Prop :=
  (sessions (history p) = O ->
   acquisition_thread p = acq_none /\ acquired_numbers (history p) = [])
  /\ (sessions (history p) = 1%nat ->
      session_numbers (history p) = acquired_numbers (history p)).

(** The processed count never runs ahead of the transforms that returned. *)
Definition transformed_inv p : Prop :=
  frames_processed p + proc_uncounted (processing_thread p)
  <= transformed (history p).

Definition inv p : Prop :=
  threads_inv p /\ count_inv p /\ numbers_inv p /\ known_inv p
  /\ first_session_inv p /\ transformed_inv p.

End WithPayload.
End PipelineInvariant.

(** * Sample data *)

Module Samples.
Import RingBuffer.

(** A frame with payload [n], taken at time [n], numbered [n]. *)
Definition numbered (n : Z) : FrameData Z := mkFrameData n n n None.

Definition empty3 : FrameRingBuffer Z := mkBuffer 3 [].

Definition five_frames : list (FrameData Z) := map numbered [0; 1; 2; 3; 4].

(** An OpenCV conversion that rejects negative payloads. *)
Definition sample_cvt (x : Z) : option Z :=
  if x <? 0 then None else Some x.

Definition empty_disk : Recording.Disk Z := Recording.mkDisk [] [].

Definition idle_service : Recording.RecordingService :=
  Recording.init "recordings".

Definition take1 : Recording.Path := ["recordings"; "take1"]%string.

Definition active_service : Recording.RecordingService :=
  Recording.mkService ["recordings"%string] (Some take1) 0 true.

(** Three frames, the second of which cannot be written. *)
Definition three_calls : list (Z * bool) := [(10, true); (11, false); (12, true)].

(** Four frames: OpenCV rejects the second, the third cannot be written. *)
Definition mixed_calls : list (Z * bool) :=
  [(10, true); (-1, true); (11, false); (12, true)].

(** A paused controller with a callback, on the last of three frames. *)
Definition at_last_frame : Playback.PlaybackController :=
  Playback.mkController 30 Playback.PAUSED 2 false (Some 3) false false false
    true [] 0.

(** A paused controller with a callback, on the first of three frames. *)
Definition at_first_frame : Playback.PlaybackController :=
  Playback.mkController 30 Playback.PAUSED 0 false (Some 3) false false false
    true [] 0.

(** A playing controller in the middle of ten frames. *)
Definition in_the_middle : Playback.PlaybackController :=
  Playback.mkController 30 Playback.PLAYING 4 false (Some 10) false true false
    true [] 1.

(** A transform that faults on the payload 7 and adds 100 otherwise. *)
Definition sample_algorithm : Pipeline.IDetectionAlgorithm Z :=
  Pipeline.mkAlgorithm (fun x => if x =? 7 then None else Some (x + 100))
    "sample".

(** The pipeline [ProcessingPipeline(source, sample_algorithm, 100)]. *)
Definition fresh : Pipeline.ProcessingPipeline :=
  Pipeline.mkPipeline sample_algorithm (mkBuffer 100 []) (mkBuffer 100 []) []
    Pipeline.acq_none Pipeline.proc_none false false
    (Recording.init "recordings") 0 0 false [] (Recording.mkDisk [] []) [] [].

Definition run_from (p : Pipeline.ProcessingPipeline (ndarray := Z))
  (ls : list Pipeline.label) : Pipeline.ProcessingPipeline :=
  match Pipeline.run sample_cvt p ls with
  | Some p' => p'
  | None => p
  end.

(** The acquisition loop reads one frame and pushes it; before it counts
    the frame, the processing loop takes it from the queue, transforms it
    and counts it. *)
Definition overtaking : list (Pipeline.label (ndarray := Z)) :=
  [Pipeline.call_start true true;
   Pipeline.do_acq_test;
   Pipeline.do_acq_read (Some 5) 1000 None;
   Pipeline.do_acq_buffer_add;
   Pipeline.do_acq_put;
   Pipeline.do_proc_test;
   Pipeline.do_proc_get;
   Pipeline.do_proc_process 1001;
   Pipeline.do_proc_buffer_add;
   Pipeline.do_proc_record true;
   Pipeline.do_proc_count].

(** One frame is acquired, the pipeline is stopped and started again, and
    a second frame is acquired. *)
Definition restarting : list (Pipeline.label (ndarray := Z)) :=
  [Pipeline.call_start true true;
   Pipeline.do_acq_test;
   Pipeline.do_acq_read (Some 5) 1000 None;
   Pipeline.do_acq_buffer_add;
   Pipeline.do_acq_put;
   Pipeline.do_acq_count;
   Pipeline.call_stop;
   Pipeline.do_acq_test;
   Pipeline.do_proc_test;
   Pipeline.stop_returns;
   Pipeline.call_start true true;
   Pipeline.do_acq_test;
   Pipeline.do_acq_read (Some 6) 2000 None].

(** What [sample_algorithm] makes of [numbered n]. *)
Definition transformed_frame (n : Z) : FrameData Z :=
  mkFrameData (n + 100) n n (Some "sample"%string).

(** The processing loop holds frame 7 and frame 8 waits in the queue. *)
Definition holding_seven : Pipeline.ProcessingPipeline :=
  Pipeline.mkPipeline sample_algorithm
    (mkBuffer 100 (map numbered [0; 1; 2; 3; 4; 5; 6; 7; 8]))
    (mkBuffer 100 (map transformed_frame [0; 1; 2; 3; 4; 5; 6]))
    [numbered 8]
    Pipeline.acq_at_test (Pipeline.proc_at_process (numbered 7)) true false
    (Recording.init "recordings") 9 7 false [] (Recording.mkDisk [] []) [] [].

End Samples.

(** * Further operations *)

(** ** Histories of calls on a ring buffer *)

Module RingBufferOps.
Import RingBuffer.
Section WithPayload.
Context {ndarray : Type}.

Inductive op : Type :=
| op_add (frame_data : FrameData ndarray)
| op_clear.

Definition apply_op (self : FrameRingBuffer ndarray) (o : op)
  : FrameRingBuffer ndarray :=
  match o with
  | op_add frame_data => add self frame_data
  | op_clear => clear self
  end.

(** The calls of the list, one after the other. *)
Definition apply_ops (self : FrameRingBuffer ndarray) (os : list op)
  : FrameRingBuffer ndarray :=
  fold_left apply_op os self.

End WithPayload.
End RingBufferOps.

(** ** The rest of recording_service.py, and histories of calls *)

Module RecordingOps.
Import Recording.

(** [get_recording_folder()]; a [Path] object is always true. *)
Definition get_recording_folder (self : RecordingService) : option string :=
  match current_recording_folder self with
  | Some folder => Some (path_str folder)
  | None => None
  end.

Section WithPayload.
Context {ndarray : Type}.
Variable cvtColor_RGB2BGR : ndarray -> option ndarray.

Inductive call : Type :=
| call_start_recording (name : option string) (clock_name : string) (mkdir_ok : bool)
| call_record_frame (frame : ndarray) (write_ok : bool)
| call_stop_recording.

(** The service and the disk after one call, whatever it answers or
    raises. *)
Definition after_call (st : RecordingService * Disk ndarray) (c : call)
  : RecordingService * Disk ndarray :=
  let (self, disk) := st in
  match c with
  | call_start_recording name clock_name mkdir_ok =>
      match start_recording name clock_name mkdir_ok self disk with
      | (_, self', disk') => (self', disk')
      end
  | call_record_frame frame write_ok =>
      match record_frame cvtColor_RGB2BGR write_ok self disk frame with
      | (_, self', disk') => (self', disk')
      end
  | call_stop_recording => (snd (stop_recording self), disk)
  end.

Definition after_calls (st : RecordingService * Disk ndarray) (cs : list call)
  : RecordingService * Disk ndarray :=
  fold_left after_call cs st.




End WithPayload.
End RecordingOps.

(** ** The rest of playback_controller.py, and its caller in the window *)

Module PlaybackOps.
Import Playback.

(** [max(a, b)] and [min(a, b)] on numbers: the second argument when it is
    strictly greater (smaller), the first otherwise. *)
Definition py_max (a b : Q) : Q := if Qle_bool b a then a else b.

Definition py_min (a b : Q) : Q := if Qle_bool a b then a else b.

(** [set_fps(fps)]. *)
Definition set_fps (fps : Q) : M unit :=
  with_lock (
    update (fun c =>
      mkController (py_max 1 (py_min fps 120)) (_state c) (_current_frame c)
        (_loop_enabled c) (_total_frames c) (_lock c) (_play_thread c)
        (_stop_event c) (_frame_callback c) (callback_calls c)
        (threads_started c))).

Definition get_fps : M Q := read _fps.

Definition get_current_frame : M Z := read _current_frame.

Definition get_state : M PlaybackState := read _state.

(** How one pass through the body of [_play_loop] ends: the loop is left,
    the thread dies of an exception, or the pass is complete and the loop
    has slept [frame_time] seconds before the next one. *)
Inductive iteration : Type :=
| it_break
| it_raise (e : exn)
| it_tick (frame_time : Q).

(** The part of the body of [_play_loop] under [with self._lock]; a complete
    pass hands the new frame number to the call of the callback. *)
Definition _play_loop_locked : M (iteration * Z) :=
  with_lock (
    st <- read _state ;;
    if negb (PlaybackState_eqb st PLAYING) then ret (it_break, 0)
    else
      fps <- read _fps ;;
      if Qeq_bool fps 0 then ret (it_raise ZeroDivisionError, 0)
      else
        total <- read _total_frames ;;
        cur <- read _current_frame ;;
        loop_enabled <- read _loop_enabled ;;
        let at_end :=
          match total with
          | Some t => cur >=? t - 1
          | None => false
          end in
        if at_end && negb loop_enabled then
          update (set_state PAUSED) ;;
          ret (it_break, 0)
        else
          (if at_end then update (set_current_frame 0) else ret tt) ;;
          cur <- read _current_frame ;;
          update (set_current_frame (cur + 1)) ;;
          ret (it_tick (1 / fps), cur + 1)).

(** [time.sleep(secs)]: a negative length is refused with [ValueError]. *)
Definition sleep (secs : Q) : iteration :=
  if Qle_bool 0 secs then it_tick secs else it_raise ValueError.

(** One pass of [while not self._stop_event.is_set(): ...]: the part under
    the lock, then the callback, then the sleep. *)
Definition _play_loop_iteration : M iteration :=
  stopped <- read _stop_event ;;
  if stopped then ret it_break
  else
    r <- _play_loop_locked ;;
    match fst r with
    | it_tick frame_time => fire (snd r) ;; ret (sleep frame_time)
    | other => ret other
    end.

(** [MainWindow.step_forward] and [MainWindow.step_backward]: the window
    does not call the controller's step methods, it seeks to the neighbour
    of the current frame.  [seekable] stands for the guard
    [self.pipeline and self.current_data_source and supports_seek()]. *)
Definition window_step_forward (seekable : bool) : M unit :=
  if seekable then
    current <- get_current_frame ;;
    seek (current + 1)
  else ret tt.

Definition window_step_backward (seekable : bool) : M unit :=
  if seekable then
    current <- get_current_frame ;;
    seek (current - 1)
  else ret tt.

(** [MainWindow.toggle_play_pause]: the window reads the state and calls
    [pause()], or [seek()] to the position of the source and then [play()];
    it does not call the controller's [toggle_play_pause].
    [source_position] is the answer of [get_current_position()]. *)
Definition window_toggle_play_pause (seekable : bool) (source_position : Z)
  (alive : bool) : M unit :=
  if negb seekable then ret tt
  else
    state <- get_state ;;
    if PlaybackState_eqb state PLAYING then pause
    else
      seek source_position ;;
      play alive.

(** The calls a controller receives, [toggle_play_pause] apart; [tick] is
    one pass of the drive loop. *)
Inductive call : Type :=
| call_play (alive : bool)
| call_pause
| call_stop
| call_step_forward
| call_step_backward
| call_seek (frame_number : Z)
| call_set_fps (fps : Q)
| call_set_loop (enabled : bool)
| call_set_total_frames (total : option Z)
| call_set_frame_callback
| tick.

Definition do_call (c : call) : M unit :=
  match c with
  | call_play alive => play alive
  | call_pause => pause
  | call_stop => stop
  | call_step_forward => step_forward
  | call_step_backward => step_backward
  | call_seek n => seek n
  | call_set_fps fps => set_fps fps
  | call_set_loop enabled => set_loop enabled
  | call_set_total_frames total => set_total_frames total
  | call_set_frame_callback => set_frame_callback
  | tick => _play_loop_iteration ;; ret tt
  end.



End PlaybackOps.

(** ** The rest of processing_pipeline.py *)

Module PipelineOps.
Import RingBuffer Pipeline PipelineInvariant.
Section WithPayload.
Context {ndarray : Type}.
Implicit Types (p self : ProcessingPipeline (ndarray := ndarray)).

(** [get_latest_frames()]. *)
Definition get_latest_frames self
  : option (FrameData ndarray) * option (FrameData ndarray) :=
  let source := get_latest (source_buffer self) in
  let processed := get_latest (processed_buffer self) in
  (source, processed).

(** [get_frame_by_number(frame_number)]. *)
Definition get_frame_by_number self (frame_number : Z)
  : option (FrameData ndarray) * option (FrameData ndarray) :=
  let source := get_by_frame_number (source_buffer self) frame_number in
  let processed := get_by_frame_number (processed_buffer self) frame_number in
  (source, processed).

(** The moves made by the two loops, as opposed to the calls of the
    owner. *)
Definition is_thread_label (l : label (ndarray := ndarray)) : bool :=
  match l with
  | do_acq_test | do_acq_read _ _ _ | do_acq_buffer_add | do_acq_put
  | do_acq_count | do_proc_test | do_proc_get | do_proc_process _
  | do_proc_buffer_add | do_proc_record _ | do_proc_count
  | do_proc_callback _ => true
  | _ => false
  end.

(** How many statements the acquisition loop can still execute once the
    running flag is down. *)
Definition acq_remaining (pc : acquisition_pc (ndarray := ndarray)) : nat :=
  match pc with
  | acq_at_read => 5
  | acq_at_add _ => 4
  | acq_at_put _ => 3
  | acq_at_count => 2
  | acq_at_test => 1
  | acq_none | acq_exited => 0
  end.

(** The same for the processing loop. *)
Definition proc_remaining (pc : processing_pc (ndarray := ndarray)) : nat :=
  match pc with
  | proc_at_get => 7
  | proc_at_process _ => 6
  | proc_at_add _ _ => 5
  | proc_at_record _ _ => 4
  | proc_at_count _ _ => 3
  | proc_at_callback _ _ => 2
  | proc_at_test => 1
  | proc_none | proc_exited => 0
  end.

Definition remaining p : nat :=
  (acq_remaining (acquisition_thread p) + proc_remaining (processing_thread p))%nat.

Definition numbers (l : list (FrameData ndarray)) : list Z :=
  map (@frame_number ndarray) l.

Definition is_set_algorithm (l : label (ndarray := ndarray)) : bool :=
  match l with
  | call_set_algorithm _ => true
  | _ => false
  end.

(** [NoProcessingAlgorithm] of processing/no_processing.py: [process]
    answers a copy of the frame. *)
Definition NoProcessingAlgorithm : IDetectionAlgorithm ndarray :=
  mkAlgorithm (fun frame => Some frame) "No Processing".

(** The queue and the two buffers stay within their sizes. *)
Definition bounded_inv p : Prop :=
  len (processing_queue p) <= maxsize
  /\ 0 <= capacity (source_buffer p)
  /\ len (_buffer (source_buffer p)) <= capacity (source_buffer p)
  /\ capacity (processed_buffer p) = capacity (source_buffer p)
  /\ len (_buffer (processed_buffer p)) <= capacity (processed_buffer p).

(** 1 once the frame in hand is in the source buffer. *)
Definition acq_buffered (pc : acquisition_pc (ndarray := ndarray)) : Z :=
  match pc with
  | acq_at_put _ | acq_at_count => 1
  | _ => 0
  end.

(** The number of the item the processing loop has dequeued and not yet put
    in the processed buffer. *)
Definition proc_pending (pc : processing_pc (ndarray := ndarray)) : list Z :=
  match pc with
  | proc_at_process fd => [frame_number fd]
  | proc_at_add _ pd => [frame_number pd]
  | _ => []
  end.

(** Frame numbers grow along the source buffer, and along the processing
    path: processed buffer, item in hand, queue. *)
Definition ordered_inv p : Prop :=
  StronglySorted Z.lt (numbers (_buffer (source_buffer p)))
  /\ (forall n, In n (numbers (_buffer (source_buffer p))) ->
                n < frames_acquired p + acq_buffered (acquisition_thread p))
  /\ StronglySorted Z.lt
       (numbers (_buffer (processed_buffer p))
        ++ proc_pending (processing_thread p)
        ++ numbers (processing_queue p))
  /\ (forall n,
         In n (numbers (_buffer (processed_buffer p))
               ++ proc_pending (processing_thread p)
               ++ numbers (processing_queue p)) ->
         n < frames_acquired p + acq_pushed (acquisition_thread p)).

(** The source frames the loops hold. *)
Definition held_sources p : list (FrameData ndarray) :=
  acq_holds (acquisition_thread p)
  ++ match processing_thread p with
     | proc_at_process fd | proc_at_add fd _ | proc_at_record fd _
     | proc_at_count fd _ | proc_at_callback fd _ => [fd]
     | _ => []
     end.

(** The pair of source frame and processed frame the processing loop
    holds. *)
Definition held_pair p : list (FrameData ndarray * FrameData ndarray) :=
  match processing_thread p with
  | proc_at_add fd pd | proc_at_record fd pd | proc_at_count fd pd
  | proc_at_callback fd pd => [(fd, pd)]
  | _ => []
  end.

(** Where every frame comes from: source frames were created by the
    acquisition loop, processed frames by a transform of a source frame
    with the same number, and the callback was given such pairs only. *)
Definition provenance_inv p : Prop :=
  (forall fd,
      In fd (held_sources p ++ _buffer (source_buffer p) ++ processing_queue p) ->
      In (ev_acquired fd) (history p))
  /\ (forall pd,
         In pd (_buffer (processed_buffer p)) ->
         exists fd, In (ev_processed fd pd) (history p))
  /\ (forall fd pd,
         In (fd, pd) (held_pair p ++ delivered p) ->
         In (ev_processed fd pd) (history p))
  /\ (forall fd pd,
         In (ev_processed fd pd) (history p) ->
         In (ev_acquired fd) (history p)
         /\ frame_number pd = frame_number fd)
  /\ len (delivered p)
     + match processing_thread p with
       | proc_at_callback _ _ => 1
       | _ => 0
       end
     <= frames_processed p.

(** Every processed frame on record is what [alg] makes of its source
    frame. *)
Definition transformed_by (alg : IDetectionAlgorithm ndarray) p : Prop :=
  algorithm p = alg
  /\ (forall fd pd,
         In (ev_processed fd pd) (history p)
         \/ In (fd, pd) (held_pair p) ->
         process alg (frame fd) = Some (frame pd)
         /\ frame_number pd = frame_number fd
         /\ source_info pd = Some (get_name alg)).

End WithPayload.
End PipelineOps.

(** ** Loops that outlive [stop()], and algorithms set up in place *)

Module PipelineSystem.
Import RingBuffer Pipeline.
Section WithPayload.
Context {ndarray : Type}.
Variable cvtColor_RGB2BGR : ndarray -> option ndarray.

(** The pipeline object together with the loops that none of its fields
    names any more.  [stop()] waits for each loop no longer than two
    seconds ([join(timeout=2.0)]) and then returns whether or not the loop
    has left; the next [start()] sets the running flag again and stores two
    new thread objects in the fields without looking at the old ones, so a
    loop that was still alive goes on beside the new one, on the same
    buffers, queue and counters.  A loop leaves through its [while] test
    only: [read_frame()] and [get_info()] are taken to return. *)
Record System : Type := mkSystem {
  pipeline : ProcessingPipeline (ndarray := ndarray);
  earlier_acquisition : list (acquisition_pc (ndarray := ndarray));
  earlier_processing : list (processing_pc (ndarray := ndarray))
}.

(** A pipeline just built: no loop of an earlier session. *)
Definition boot (p : ProcessingPipeline (ndarray := ndarray)) : System :=
  mkSystem p [] [].

(** The loop behind a thread object, unless it has left or never ran. *)
Definition live_acquisition (pc : acquisition_pc (ndarray := ndarray))
  : list (acquisition_pc (ndarray := ndarray)) :=
  match pc with
  | acq_none | acq_exited => []
  | _ => [pc]
  end.

Definition live_processing (pc : processing_pc (ndarray := ndarray))
  : list (processing_pc (ndarray := ndarray)) :=
  match pc with
  | proc_none | proc_exited => []
  | _ => [pc]
  end.

Definition is_acquisition_label (l : label (ndarray := ndarray)) : bool :=
  match l with
  | do_acq_test | do_acq_read _ _ _ | do_acq_buffer_add | do_acq_put
  | do_acq_count => true
  | _ => false
  end.

Definition is_processing_label (l : label (ndarray := ndarray)) : bool :=
  match l with
  | do_proc_test | do_proc_get | do_proc_process _ | do_proc_buffer_add
  | do_proc_record _ | do_proc_count | do_proc_callback _ => true
  | _ => false
  end.

Fixpoint set_nth {A : Type} (i : nat) (x : A) (l : list A) : list A :=
  match l, i with
  | [], _ => []
  | _ :: l', O => x :: l'
  | y :: l', S i' => y :: set_nth i' x l'
  end.

(** One move of the whole: a move of the pipeline and the threads its
    fields name; the return of [stop()] on a timeout of [join]; one
    statement of a loop of an earlier session; or
    [self.current_algorithm.configure(config)] by the window, which changes
    the behaviour of the algorithm object the pipeline holds without a call
    of [set_algorithm]. *)
Inductive move : Type :=
| on_pipeline (l : label (ndarray := ndarray))
| join_times_out
| earlier_acquisition_step (i : nat) (l : label (ndarray := ndarray))
| earlier_processing_step (i : nat) (l : label (ndarray := ndarray))
| configure (alg : IDetectionAlgorithm ndarray).

Definition step (s : System) (m : move) : option System :=
  let p := pipeline s in
  match m with
  | on_pipeline l =>
      match Pipeline.step cvtColor_RGB2BGR p l with
      | Some p' =>
          match l with
          | call_start _ _ =>
              if negb (is_running p) && is_running p' then
                (* new thread objects were stored in the fields *)
                Some (mkSystem p'
                        (earlier_acquisition s
                         ++ live_acquisition (acquisition_thread p))
                        (earlier_processing s
                         ++ live_processing (processing_thread p)))
              else Some (mkSystem p' (earlier_acquisition s) (earlier_processing s))
          | _ => Some (mkSystem p' (earlier_acquisition s) (earlier_processing s))
          end
      | None => None
      end
  | join_times_out =>
      if stopping p && negb (thread_gone p)
      then Some (mkSystem (stop_join p) (earlier_acquisition s) (earlier_processing s))
      else None
  | earlier_acquisition_step i l =>
      match nth_error (earlier_acquisition s) i with
      | Some pc =>
          if is_acquisition_label l then
            match Pipeline.step cvtColor_RGB2BGR (with_acquisition_thread pc p) l with
            | Some p' =>
                Some (mkSystem
                        (with_acquisition_thread (acquisition_thread p) p')
                        (set_nth i (acquisition_thread p') (earlier_acquisition s))
                        (earlier_processing s))
            | None => None
            end
          else None
      | None => None
      end
  | earlier_processing_step i l =>
      match nth_error (earlier_processing s) i with
      | Some pc =>
          if is_processing_label l then
            match Pipeline.step cvtColor_RGB2BGR (with_processing_thread pc p) l with
            | Some p' =>
                Some (mkSystem
                        (with_processing_thread (processing_thread p) p')
                        (earlier_acquisition s)
                        (set_nth i (processing_thread p') (earlier_processing s)))
            | None => None
            end
          else None
      | None => None
      end
  | configure alg =>
      if stopping p then None
      else Some (mkSystem (with_algorithm alg p) (earlier_acquisition s)
                   (earlier_processing s))
  end.

Fixpoint run (s : System) (ms : list move) : option System :=
  match ms with
  | [] => Some s
  | m :: ms' =>
      match step s m with
      | Some s' => run s' ms'
      | None => None
      end
  end.

(** No [stop()] has returned on a timeout. *)
Definition joined (m : move) : bool :=
  match m with
  | join_times_out => false
  | _ => true
  end.

(** The algorithm is neither replaced nor set up anew. *)
Definition keeps_algorithm (m : move) : bool :=
  match m with
  | on_pipeline (call_set_algorithm _) | configure _ => false
  | _ => true
  end.

(** What a move amounts to for the pipeline alone while no loop of an
    earlier session is alive. *)
Definition as_label (m : move) : label (ndarray := ndarray) :=
  match m with
  | on_pipeline l => l
  | configure alg => call_set_algorithm alg
  | _ => stop_returns
  end.

End WithPayload.
End PipelineSystem.

(** ** data_sources/image_sequence_source.py *)

Module ImageSequence.
Section WithPayload.
Context {ndarray : Type}.

(** [cv2.imread(path)]: [None] when the file cannot be read. *)
Variable imread : string -> option ndarray.

(** [cv2.cvtColor(frame, cv2.COLOR_BGR2RGB)]; [None] when OpenCV rejects the
    array. *)
Variable cvtColor_BGR2RGB : ndarray -> option ndarray.

(** What the file system shows of the folder: whether it exists and is a
    directory, and the sorted answers of the three [glob] calls. *)
Record Folder : Type := mkFolder {
  is_dir : bool;
  png : list string;
  jpg : list string;
  jpeg : list string
}.

Record ImageSequenceSource : Type := mkSource {
  folder_path : string;
  image_files : list string;
  current_position : Z;
  _is_opened : bool
}.

Definition init (folder_path : string) : ImageSequenceSource :=
  mkSource folder_path [] 0 false.

Definition open (folder : Folder) (self : ImageSequenceSource)
  : bool * ImageSequenceSource :=
  if negb (is_dir folder) then (false, self)
  else
    let files := png folder in
    let files := if len files =? 0 then jpg folder ++ jpeg folder else files in
    let opened := len files >? 0 in
    (opened, mkSource (folder_path self) files (current_position self) opened).

Definition start (self : ImageSequenceSource) : bool := _is_opened self.

(** [l[i]] on a Python list: a negative index counts from the end; [None]
    stands for [IndexError]. *)
Definition getitem {A : Type} (l : list A) (i : Z) : option A :=
  if i <? 0 then
    if len l + i <? 0 then None else nth_error l (Z.to_nat (len l + i))
  else nth_error l (Z.to_nat i).

(** How [read_frame()] ends: with a frame, with none, or with an exception
    of the indexing or of the conversion that reaches the caller. *)
Inductive read_result : Type :=
| frame_read (frame : ndarray)
| no_frame
| raises_IndexError
| raises_cv2_error.

Definition read_frame (self : ImageSequenceSource) : read_result :=
  if negb (_is_opened self) || (current_position self >=? len (image_files self))
  then no_frame
  else
    match getitem (image_files self) (current_position self) with
    | None => raises_IndexError
    | Some image_path =>
        match imread image_path with
        | Some frame =>
            match cvtColor_BGR2RGB frame with
            | Some rgb => frame_read rgb
            | None => raises_cv2_error
            end
        | None => no_frame
        end
    end.

Definition seek (position : Z) (self : ImageSequenceSource)
  : bool * ImageSequenceSource :=
  if negb (_is_opened self) then (false, self)
  else if (0 <=? position) && (position <? len (image_files self)) then
    (true,
     mkSource (folder_path self) (image_files self) position (_is_opened self))
  else (false, self).

Definition close (self : ImageSequenceSource) : ImageSequenceSource :=
  mkSource (folder_path self) (image_files self) 0 false.

Definition supports_seek (self : ImageSequenceSource) : bool := true.

Definition get_total_frames (self : ImageSequenceSource) : option Z :=
  if _is_opened self then Some (len (image_files self)) else None.

Definition get_current_position (self : ImageSequenceSource) : Z :=
  current_position self.

(** The calls a source receives while the folder stays as it is. *)
Inductive call : Type :=
| call_open
| call_seek (position : Z)
| call_close.

Definition after_call (folder : Folder) (self : ImageSequenceSource) (c : call)
  : ImageSequenceSource :=
  match c with
  | call_open => snd (open folder self)
  | call_seek position => snd (seek position self)
  | call_close => close self
  end.

Definition after_calls (folder : Folder) (self : ImageSequenceSource)
  (cs : list call) : ImageSequenceSource :=
  fold_left (after_call folder) cs self.

End WithPayload.
End ImageSequence.

(** ** More sample data *)

Module MoreSamples.
Import RingBuffer Samples.

(** A full buffer of capacity 3. *)
Definition full3 : FrameRingBuffer Z := mkBuffer 3 (map numbered [2; 3; 4]).

(** Two frames with the number 7, the later one with payload 21. *)
Definition seven_twice : FrameRingBuffer Z :=
  mkBuffer 5
    [numbered 1; mkFrameData 20 20 7 None; mkFrameData 21 21 7 None; numbered 9].

Definition some_ops : list (RingBufferOps.op (ndarray := Z)) :=
  [RingBufferOps.op_add (numbered 0); RingBufferOps.op_add (numbered 1);
   RingBufferOps.op_clear; RingBufferOps.op_add (numbered 2);
   RingBufferOps.op_add (numbered 3); RingBufferOps.op_add (numbered 4);
   RingBufferOps.op_add (numbered 5)].

(** A session named [take1] that records the frame [x] and is stopped. *)
Definition take (x : Z) : list (RecordingOps.call (ndarray := Z)) :=
  [RecordingOps.call_start_recording (Some "take1"%string) "clock" true;
   RecordingOps.call_record_frame x true;
   RecordingOps.call_stop_recording].

(** The service and the disk after such a session with the frame 10. *)
Definition after_first_take : Recording.RecordingService * Recording.Disk Z :=
  RecordingOps.after_calls sample_cvt (idle_service, empty_disk) (take 10).

Definition some_recording_calls : list (RecordingOps.call (ndarray := Z)) :=
  [RecordingOps.call_start_recording (Some "take1"%string) "clock" true;
   RecordingOps.call_record_frame 10 true;
   RecordingOps.call_record_frame (-1) true;
   RecordingOps.call_record_frame 12 false;
   RecordingOps.call_stop_recording;
   RecordingOps.call_record_frame 13 true].

(** A playing controller with a callback on the last of three frames,
    looping. *)
Definition looping_at_end : Playback.PlaybackController :=
  Playback.mkController 30 Playback.PLAYING 2 true (Some 3) false true false
    true [] 1.

(** [looping_at_end] after one pass of the drive loop. *)
Definition after_wrap : Playback.PlaybackController :=
  Playback.mkController 30 Playback.PLAYING 1 true (Some 3) false true false
    true [1] 1.


(** A controller built with a frame rate of 0, playing. *)
Definition zero_rate : Playback.PlaybackController :=
  Playback.mkController 0 Playback.PLAYING 0 false None false true false
    false [] 1.


(** The frame acquired in [overtaking] and what the transform made of
    it. *)
Definition acquired0 : FrameData Z := mkFrameData 5 1000 0 (Some "Unknown"%string).

Definition processed0 : FrameData Z := mkFrameData 105 1001 0 (Some "sample"%string).

(** The acquisition loop has stamped a frame while the queue holds ten. *)
Definition queue_is_full : Pipeline.ProcessingPipeline :=
  Pipeline.mkPipeline sample_algorithm
    (mkBuffer 100 (map numbered [0; 1; 2; 3; 4; 5; 6; 7; 8; 9]))
    (mkBuffer 100 [])
    (map numbered [0; 1; 2; 3; 4; 5; 6; 7; 8; 9])
    (Pipeline.acq_at_add (numbered 10)) Pipeline.proc_at_get true false
    (Recording.init "recordings") 10 0 false [] (Recording.mkDisk [] []) [] [].

(** [stop()] is called while the acquisition loop holds a frame. *)
Definition stopping_midway : list (Pipeline.label (ndarray := Z)) :=
  [Pipeline.call_start true true;
   Pipeline.do_acq_test;
   Pipeline.do_acq_read (Some 5) 1000 None;
   Pipeline.call_stop].

(** The moves by which both loops then leave. *)
Definition leaving : list (Pipeline.label (ndarray := Z)) :=
  [Pipeline.do_acq_buffer_add; Pipeline.do_proc_test; Pipeline.do_acq_put;
   Pipeline.do_acq_count; Pipeline.do_acq_test].

(** The moves of [overtaking] and of [restarting], as moves of the whole
    system. *)
Definition overtaking_moves : list (PipelineSystem.move (ndarray := Z)) :=
  map (@PipelineSystem.on_pipeline Z) overtaking.

Definition restarting_moves : list (PipelineSystem.move (ndarray := Z)) :=
  map (@PipelineSystem.on_pipeline Z) restarting.

Definition booted : PipelineSystem.System (ndarray := Z) :=
  PipelineSystem.boot fresh.

Definition moved_from (s : PipelineSystem.System (ndarray := Z))
  (ms : list PipelineSystem.move) : PipelineSystem.System :=
  match PipelineSystem.run sample_cvt s ms with
  | Some s' => s'
  | None => s
  end.

(** The acquisition loop has pushed its first frame and not yet counted it
    when [stop()] is called; [stop()] returns on a timeout with both loops
    alive, and [start()] is called again.  The new acquisition loop stamps
    its first frame with the count, which is still 0, and pushes it; the
    new processing loop transforms and counts both frames. *)
Definition outliving : list (PipelineSystem.move (ndarray := Z)) :=
  map (@PipelineSystem.on_pipeline Z)
    [Pipeline.call_start true true;
     Pipeline.do_acq_test;
     Pipeline.do_acq_read (Some 5) 1000 None;
     Pipeline.do_acq_buffer_add;
     Pipeline.do_acq_put;
     Pipeline.call_stop]
  ++ [PipelineSystem.join_times_out]
  ++ map (@PipelineSystem.on_pipeline Z)
       [Pipeline.call_start true true;
        Pipeline.do_acq_test;
        Pipeline.do_acq_read (Some 6) 2000 None;
        Pipeline.do_acq_buffer_add;
        Pipeline.do_acq_put;
        Pipeline.do_proc_test;
        Pipeline.do_proc_get;
        Pipeline.do_proc_process 1001;
        Pipeline.do_proc_buffer_add;
        Pipeline.do_proc_record true;
        Pipeline.do_proc_count;
        Pipeline.do_proc_callback false;
        Pipeline.do_proc_test;
        Pipeline.do_proc_get;
        Pipeline.do_proc_process 2001;
        Pipeline.do_proc_buffer_add;
        Pipeline.do_proc_record true;
        Pipeline.do_proc_count].

(** Then both acquisition loops count their frame, find the flag up, and
    read one more frame each before either counts again. *)
Definition outliving_on : list (PipelineSystem.move (ndarray := Z)) :=
  [PipelineSystem.earlier_acquisition_step 0 Pipeline.do_acq_count;
   PipelineSystem.on_pipeline Pipeline.do_acq_count;
   PipelineSystem.earlier_acquisition_step 0 Pipeline.do_acq_test;
   PipelineSystem.on_pipeline Pipeline.do_acq_test;
   PipelineSystem.earlier_acquisition_step 0 (Pipeline.do_acq_read (Some 7) 3000 None);
   PipelineSystem.on_pipeline (Pipeline.do_acq_read (Some 8) 3001 None)].

(** The algorithm adds 100 to the first frame and, set up anew by the
    window before the second frame is transformed, 200 to the second. *)
Definition reconfiguring : list (PipelineSystem.move (ndarray := Z)) :=
  map (@PipelineSystem.on_pipeline Z)
    [Pipeline.call_start true true;
     Pipeline.do_acq_test;
     Pipeline.do_acq_read (Some 5) 1000 None;
     Pipeline.do_acq_buffer_add;
     Pipeline.do_acq_put;
     Pipeline.do_acq_count;
     Pipeline.do_proc_test;
     Pipeline.do_proc_get;
     Pipeline.do_proc_process 1001;
     Pipeline.do_proc_buffer_add]
  ++ [PipelineSystem.configure
        (Pipeline.mkAlgorithm (fun x => Some (x + 200)) "sample")].

Definition three_pngs : ImageSequence.Folder :=
  ImageSequence.mkFolder true ["a.png"; "b.png"; "c.png"]%string [] [].

(** A decoder that reads every file but [b.png]. *)
Definition sample_imread (path : string) : option Z :=
  if String.eqb path "b.png" then None else Some (Z.of_nat (String.length path)).

Definition some_source_calls : list ImageSequence.call :=
  [ImageSequence.call_open; ImageSequence.call_seek 2;
   ImageSequence.call_seek 7; ImageSequence.call_open].

End MoreSamples.

(** * Properties *)

(** ** Ring buffer *)

Section RingBufferFacts.
Import RingBuffer.
Context {ndarray : Type}.
Implicit Types (b : FrameRingBuffer ndarray) (d frames : list (FrameData ndarray)).

Lemma len_app_one d (x : FrameData ndarray) : len (d ++ [x]) = len d + 1.
Proof. unfold len. rewrite length_app. simpl. lia. Qed.

Lemma lastn_all (m : nat) d : (List.length d <= m)%nat -> lastn m d = d.
Proof.
  intros Hle. unfold lastn.
  replace (List.length d - m)%nat with O by lia. reflexivity.
Qed.

Lemma lastn_length (m : nat) d :
  List.length (lastn m d) = Nat.min m (List.length d).
Proof. unfold lastn. rewrite length_skipn. lia. Qed.

Lemma lastn_app_r (m : nat) d frames :
  (m <= List.length frames)%nat -> lastn m (d ++ frames) = lastn m frames.
Proof.
  intros Hle. unfold lastn. rewrite length_app, skipn_app.
  rewrite skipn_all2 by lia. simpl. f_equal. lia.
Qed.

Lemma lastn_lastn_app (m : nat) d frames :
  lastn m (lastn m d ++ frames) = lastn m (d ++ frames).
Proof.
  destruct (Nat.le_gt_cases (List.length d) m) as [Hle | Hgt].
  - now rewrite (lastn_all d Hle).
  - unfold lastn at 1 3. rewrite !length_app, lastn_length.
    rewrite Nat.min_l by lia.
    replace (m + List.length frames - m)%nat with (List.length frames) by lia.
    replace (List.length d + List.length frames - m)%nat
      with (List.length frames + (List.length d - m))%nat by lia.
    rewrite <- skipn_skipn. f_equal.
    unfold lastn. rewrite skipn_app.
    replace (List.length d - m - List.length d)%nat with O by lia.
    reflexivity.
Qed.

(** [deque.append] keeps the newest [maxlen] items. *)
Lemma deque_append_lastn (C : Z) d (x : FrameData ndarray) :
  0 <= C -> len d <= C ->
  deque_append C d x = lastn (Z.to_nat C) (d ++ [x]).
Proof.
  intros HC Hlen. unfold deque_append. cbv zeta.
  rewrite len_app_one. unfold len in *.
  destruct (Z.ltb_spec C (Z.of_nat (List.length d) + 1)) as [Hfull | Hroom].
  - unfold lastn. rewrite length_app. simpl.
    replace (List.length d + 1 - Z.to_nat C)%nat with 1%nat by lia.
    reflexivity.
  - symmetry. apply lastn_all. rewrite length_app. simpl. lia.
Qed.

Lemma add_capacity b (x : FrameData ndarray) : capacity (add b x) = capacity b.
Proof. reflexivity. Qed.

Lemma add_all_capacity frames b : capacity (add_all b frames) = capacity b.
Proof.
  revert b. induction frames as [| x frames IH]; intros b.
  - reflexivity.
  - change (add_all b (x :: frames)) with (add_all (add b x) frames).
    rewrite IH. apply add_capacity.
Qed.

Lemma add_all_lastn frames b :
  0 <= capacity b -> len (_buffer b) <= capacity b ->
  _buffer (add_all b frames)
  = lastn (Z.to_nat (capacity b)) (_buffer b ++ frames).
Proof.
  revert b. induction frames as [| x frames IH]; intros b HC Hlen.
  - simpl. rewrite app_nil_r. symmetry. apply lastn_all.
    unfold len in Hlen. lia.
  - change (add_all b (x :: frames)) with (add_all (add b x) frames).
    rewrite IH; rewrite ?add_capacity; try assumption.
    + simpl. rewrite deque_append_lastn by assumption.
      rewrite lastn_lastn_app, <- app_assoc. reflexivity.
    + simpl. rewrite deque_append_lastn by assumption.
      unfold len. rewrite lastn_length. lia.
Qed.

(** C1: with a capacity [C > 0], after more than [C] frames have been
    added the buffer holds exactly the [C] frames added last, oldest first;
    a buffer of capacity 3 that receives frames numbered 0,1,2,3,4 holds
    those numbered 2,3,4, and [get_frame_range] answers (2,4). *)
Theorem add_keeps_most_recent :
  (forall (C : Z) b frames,
      0 < C -> capacity b = C -> len (_buffer b) <= C -> C < len frames ->
      _buffer (add_all b frames) = lastn (Z.to_nat C) frames
      /\ len (_buffer (add_all b frames)) = C)
  /\ (forall b f0 f1 f2 f3 f4,
         init 3 = Ok b ->
         map (@frame_number ndarray) [f0; f1; f2; f3; f4] = [0; 1; 2; 3; 4] ->
         _buffer (add_all b [f0; f1; f2; f3; f4]) = [f2; f3; f4]
         /\ get_all_frame_numbers (add_all b [f0; f1; f2; f3; f4]) = [2; 3; 4]
         /\ get_frame_range (add_all b [f0; f1; f2; f3; f4]) = (Some 2, Some 4)).
Proof.
  split.
  - intros C b frames HC Hcap Hlen HN. subst C.
    assert (Hbuf : _buffer (add_all b frames)
                   = lastn (Z.to_nat (capacity b)) frames).
    { rewrite add_all_lastn by lia. apply lastn_app_r. unfold len in HN. lia. }
    split; [exact Hbuf |].
    rewrite Hbuf. unfold len in *. rewrite lastn_length. lia.
  - intros b f0 f1 f2 f3 f4 Hinit Hnum.
    injection Hinit as <-. injection Hnum as H0 H1 H2 H3 H4.
    unfold get_all_frame_numbers, get_frame_range. cbn.
    rewrite H2, H3, H4. repeat split.
Qed.

Lemma add_all_zero_capacity frames b :
  capacity b = 0 -> _buffer b = [] -> _buffer (add_all b frames) = [].
Proof.
  revert b. induction frames as [| x frames IH]; intros b Hcap Hbuf.
  - exact Hbuf.
  - change (add_all b (x :: frames)) with (add_all (add b x) frames).
    apply IH; [exact Hcap |].
    simpl. rewrite Hcap, Hbuf. reflexivity.
Qed.

(** C10: the constructor accepts capacity 0; on such a buffer, whatever is
    added, [get], [get_latest], [get_by_frame_number] and [get_frame_range]
    answer none while [get_fill_percentage] raises [ZeroDivisionError]; with
    a capacity [C > 0], [get_fill_percentage] returns size / C * 100. *)
Theorem zero_capacity_fill_percentage :
  (exists b0 : FrameRingBuffer ndarray,
      init 0 = Ok b0
      /\ forall frames,
          (forall i, get (add_all b0 frames) i = None)
          /\ get_latest (add_all b0 frames) = None
          /\ (forall n, get_by_frame_number (add_all b0 frames) n = None)
          /\ get_frame_range (add_all b0 frames) = (None, None)
          /\ get_fill_percentage (add_all b0 frames) = Raise ZeroDivisionError)
  /\ (forall (C : Z) b,
         0 < C -> capacity b = C ->
         get_fill_percentage b
         = Ok (inject_Z (get_size b) / inject_Z C * 100)%Q).
Proof.
  split.
  - exists (mkBuffer 0 []). split; [reflexivity |].
    intros frames.
    pose proof (@add_all_zero_capacity frames (mkBuffer 0 []) eq_refl eq_refl) as Hbuf.
    pose proof (add_all_capacity frames (mkBuffer 0 [])) as Hcap. simpl in Hcap.
    unfold get, get_latest, get_by_frame_number, get_frame_range,
      get_fill_percentage, get_size.
    rewrite Hbuf, Hcap. repeat split.
    intros i. cbn.
    destruct ((0 <=? i) && (i <? 0)); [destruct (Z.to_nat i) |]; reflexivity.
  - intros C b HC Hcap. unfold get_fill_percentage, truediv.
    rewrite Hcap. destruct (Z.eqb_spec C 0) as [-> | _]; [lia | reflexivity].
Qed.

End RingBufferFacts.

Lemma add_keeps_most_recent_witness :
  RingBuffer._buffer (RingBuffer.add_all Samples.empty3 Samples.five_frames)
  = map Samples.numbered [2; 3; 4].
Proof.
  refine (proj1 (proj1 (@add_keeps_most_recent Z) 3 Samples.empty3
                   Samples.five_frames _ _ _ _));
    cbv; congruence.
Defined.

Lemma zero_capacity_fill_percentage_witness :
  RingBuffer.get_fill_percentage (RingBuffer.add_all Samples.empty3 Samples.five_frames)
  = Ok (inject_Z 3 / inject_Z 3 * 100)%Q.
Proof.
  exact (proj2 (@zero_capacity_fill_percentage Z) 3
           (RingBuffer.add_all Samples.empty3 Samples.five_frames)
           eq_refl eq_refl).
Defined.

(** ** Recording service *)

Section RecordingFacts.
Import Recording.
Context {ndarray : Type}.
Variable cvtColor_RGB2BGR : ndarray -> option ndarray.
Implicit Types (self : RecordingService) (disk : Disk ndarray).

Lemma mkdir_makes disk (folder : Path) : In folder (directories (mkdir disk folder)).
Proof.
  unfold mkdir. destruct (in_dec path_eq_dec folder (directories disk)) as [Hin | Hout].
  - exact Hin.
  - simpl. apply in_or_app. right. now left.
Qed.

Lemma zseq_cons (k : Z) (n : nat) : zseq k (S n) = k :: zseq (k + 1) n.
Proof.
  unfold zseq. simpl. rewrite Z.add_0_r. f_equal.
  rewrite <- seq_shift, map_map. apply map_ext. intros i. lia.
Qed.

Lemma file_at_mkdir disk (folder filepath : Path) :
  file_at (mkdir disk folder) filepath = file_at disk filepath.
Proof.
  unfold mkdir. now destruct (in_dec path_eq_dec folder (directories disk)).
Qed.


(** C7, as the code has it: while a session is active [start_recording]
    returns the path of that session and changes neither the service (its
    counter included) nor the disk.  When idle, and the directory can be
    made, the session folder is the base folder followed by the name (the
    given one, or the one built from the clock when none is given); the
    call answers its path, sets the counter to 0 and becomes active.  On
    the disk it adds that directory when there is none of that path, and
    changes nothing when there is one already ([exist_ok=True]): the
    directory is taken as it is, with the files in it.  A second call then
    answers the same path and changes nothing. *)
Theorem start_recording_idempotent :
  (forall name clock_name mkdir_ok self disk,
      is_recording self = true ->
      start_recording name clock_name mkdir_ok self disk
      = (Ok (str_folder (current_recording_folder self)), self, disk))
  /\ (forall name clock_name self disk,
         is_recording self = false ->
         let folder :=
           output_folder self
           ++ [match name with Some n => n | None => clock_name end] in
         let self' := mkService (output_folder self) (Some folder) 0 true in
         exists disk',
           start_recording name clock_name true self disk
           = (Ok (String.concat "/" folder), self', disk')
           /\ (In folder (directories disk) -> disk' = disk)
           /\ (~ In folder (directories disk) ->
               disk' = mkDisk (directories disk ++ [folder]) (images disk))
           /\ In folder (directories disk')
           /\ (forall filepath, file_at disk' filepath = file_at disk filepath)
           /\ start_recording name clock_name true self' disk'
              = (Ok (String.concat "/" folder), self', disk')).
Proof.
  split.
  - intros name clock_name mkdir_ok self disk Hrec.
    unfold start_recording. now rewrite Hrec.
  - intros name clock_name self disk Hidle folder self'.
    exists (mkdir disk folder).
    split; [unfold start_recording; rewrite Hidle; reflexivity |].
    split; [| split; [| split; [apply mkdir_makes | split]]].
    + intros Hin. unfold mkdir.
      now destruct (in_dec path_eq_dec folder (directories disk)).
    + intros Hout. unfold mkdir.
      now destruct (in_dec path_eq_dec folder (directories disk)).
    + intros filepath. apply file_at_mkdir.
    + reflexivity.
Qed.

(** One [record_frame] call during a session, on a frame OpenCV accepts. *)
Lemma record_frame_in_session write_ok self disk folder (frame bgr : ndarray) :
  is_recording self = true ->
  current_recording_folder self = Some folder ->
  cvtColor_RGB2BGR frame = Some bgr ->
  record_frame cvtColor_RGB2BGR write_ok self disk frame
  = if write_ok
    then (Ok true,
          mkService (output_folder self) (Some folder) (frame_counter self + 1) true,
          imwrite disk (path_div folder (frame_filename (frame_counter self))) bgr)
    else (Ok false, self, disk).
Proof.
  intros Hrec Hfolder Hcvt. unfold record_frame.
  rewrite Hrec, Hfolder, Hcvt. destruct write_ok; reflexivity.
Qed.

(** A run of calls in a session whose counter stands at [c]: the files
    written are numbered [c], [c+1], ... *)
Lemma record_all_numbering (calls : list (ndarray * bool)) :
  forall self disk folder,
    is_recording self = true ->
    current_recording_folder self = Some folder ->
    (forall f w, In (f, w) calls -> cvtColor_RGB2BGR f <> None) ->
    exists self' written,
      record_all cvtColor_RGB2BGR calls self disk
      = (Ok (map snd calls), self', mkDisk (directories disk) (images disk ++ written))
      /\ map fst written
         = map (fun k => path_div folder (frame_filename k))
             (zseq (frame_counter self) (List.length (filter snd calls)))
      /\ frame_counter self'
         = frame_counter self + len (filter snd calls)
      /\ is_recording self' = true
      /\ current_recording_folder self' = Some folder
      /\ output_folder self' = output_folder self.
Proof.
  induction calls as [| [frame write_ok] calls IH];
    intros self disk folder Hrec Hfolder Hcvt.
  - exists self, []. simpl. rewrite app_nil_r. destruct disk.
    unfold len. simpl. repeat split; auto. lia.
  - destruct (cvtColor_RGB2BGR frame) as [bgr |] eqn:Hbgr.
    2:{ exfalso. apply (Hcvt frame write_ok); [now left | exact Hbgr]. }
    assert (Hrest : forall f w, In (f, w) calls -> cvtColor_RGB2BGR f <> None).
    { intros f w Hin. apply (Hcvt f w). now right. }
    cbn [record_all].
    rewrite (@record_frame_in_session write_ok self disk folder frame bgr Hrec Hfolder Hbgr).
    destruct write_ok.
    + destruct (IH (mkService (output_folder self) (Some folder) (frame_counter self + 1) true)
                  (imwrite disk (path_div folder (frame_filename (frame_counter self))) bgr)
                  folder eq_refl eq_refl Hrest)
        as (self' & written & Hrun & Hnames & Hcount & Hactive & Hdir & Hout).
      exists self', ((path_div folder (frame_filename (frame_counter self)), bgr) :: written).
      rewrite Hrun. cbn [map snd filter List.length fst].
      rewrite zseq_cons. cbn [map]. rewrite Hnames. cbn [frame_counter].
      unfold imwrite. cbn [directories images]. rewrite <- app_assoc.
      repeat split; auto.
      rewrite Hcount. cbn [frame_counter]. unfold len. cbn [List.length]. lia.
    + destruct (IH self disk folder Hrec Hfolder Hrest)
        as (self' & written & Hrun & Hnames & Hcount & Hactive & Hdir & Hout).
      exists self', written. rewrite Hrun. cbn [map snd filter].
      repeat split; auto.
Qed.

(** The paths of the files numbered [c], [c+1], ..., [c+n-1] of a session
    folder. *)
Lemma record_each_numbering (calls : list (ndarray * bool)) :
  forall self disk folder,
    is_recording self = true ->
    current_recording_folder self = Some folder ->
    record_each cvtColor_RGB2BGR calls self disk
    = (map (answer cvtColor_RGB2BGR) calls,
       mkService (output_folder self) (Some folder)
         (frame_counter self
          + Z.of_nat (List.length (stored cvtColor_RGB2BGR calls)))
         true,
       mkDisk (directories disk)
         (images disk
          ++ combine
               (map (fun k => folder ++ [frame_filename k])
                  (zseq (frame_counter self)
                     (List.length (stored cvtColor_RGB2BGR calls))))
               (stored cvtColor_RGB2BGR calls))).
Proof.
  induction calls as [| [frame write_ok] calls IH];
    intros self disk folder Hrec Hfolder.
  - destruct self as [out cur c rec], disk as [dirs imgs].
    simpl in Hrec, Hfolder. subst rec cur. cbn.
    now rewrite Z.add_0_r, app_nil_r.
  - cbn [record_each map]. unfold answer at 1. unfold stored. cbn [flat_map fst snd].
    fold (stored cvtColor_RGB2BGR calls).
    unfold record_frame. rewrite Hrec, Hfolder.
    destruct (cvtColor_RGB2BGR frame) as [bgr |]; [destruct write_ok |].
    + rewrite (IH (mkService (output_folder self) (Some folder)
                     (frame_counter self + 1) true)
                 (imwrite disk (path_div folder (frame_filename (frame_counter self))) bgr)
                 folder eq_refl eq_refl).
      cbn [output_folder frame_counter imwrite directories images app List.length].
      rewrite zseq_cons. cbn [map combine]. unfold path_div.
      rewrite <- app_assoc. cbn [app].
      do 2 f_equal. f_equal. lia.
    + rewrite (IH _ _ folder Hrec Hfolder). reflexivity.
    + rewrite (IH _ _ folder Hrec Hfolder). reflexivity.
Qed.

Lemma string_length_append (s t : string) :
  String.length (s ++ t) = (String.length s + String.length t)%nat.
Proof. induction s as [| c s IH]; simpl; [reflexivity | now rewrite IH]. Qed.

Lemma string_append_cancel_r (t : string) :
  forall s s' : string, (s ++ t)%string = (s' ++ t)%string -> s = s'.
Proof.
  induction s as [| c s IH]; intros [| c' s'] Heq; simpl in Heq.
  - reflexivity.
  - apply (f_equal String.length) in Heq. simpl in Heq.
    rewrite string_length_append in Heq. lia.
  - apply (f_equal String.length) in Heq. simpl in Heq.
    rewrite string_length_append in Heq. lia.
  - injection Heq as <- Heq. f_equal. now apply IH.
Qed.

Lemma parse_zeros (k : nat) (s : string) :
  NilEmpty.uint_of_string (zeros k ++ s)
  = option_map (Nat.iter k Decimal.D0) (NilEmpty.uint_of_string s).
Proof.
  induction k as [| k IH].
  - simpl. now destruct (NilEmpty.uint_of_string s).
  - cbn [zeros append NilEmpty.uint_of_string]. rewrite IH.
    now destruct (NilEmpty.uint_of_string s).
Qed.

Lemma of_uint_leading_zeros (k : nat) (d : Decimal.uint) :
  N.of_uint (Nat.iter k Decimal.D0 d) = N.of_uint d.
Proof. induction k as [| k IH]; [reflexivity | exact IH]. Qed.

(** Reading the digits of [format_06d n] back gives [n]. *)
Lemma format_06d_parse (n : Z) :
  0 <= n ->
  option_map N.of_uint (NilEmpty.uint_of_string (format_06d n)) = Some (Z.to_N n).
Proof.
  intros Hn. unfold format_06d. cbv zeta.
  destruct (Z.ltb_spec n 0) as [Hneg | _]; [lia |].
  change (EmptyString ++ ?s)%string with s.
  rewrite parse_zeros.
  assert (Hdigits : exists d,
             NilEmpty.uint_of_string
               (NilZero.string_of_uint (N.to_uint (Z.abs_N n))) = Some d
             /\ N.of_uint d = Z.abs_N n).
  { destruct (N.to_uint (Z.abs_N n)) as [| d | d | d | d | d | d | d | d | d | d] eqn:Hd;
      try (eexists; split;
           [unfold NilZero.string_of_uint; apply NilEmpty.usu
           | rewrite <- Hd; apply DecimalN.Unsigned.of_to]).
    exists (Decimal.D0 Decimal.Nil). split; [reflexivity |].
    rewrite <- (DecimalN.Unsigned.of_to (Z.abs_N n)), Hd. reflexivity. }
  destruct Hdigits as (d & -> & Hd). cbn [option_map].
  rewrite of_uint_leading_zeros, Hd. f_equal. lia.
Qed.

Lemma of_uint_acc_lower (d : Decimal.uint) :
  forall acc : positive,
    Z.pos acc * 10 ^ Z.of_nat (Decimal.nb_digits d) <= Z.pos (Pos.of_uint_acc d acc).
Proof.
  induction d as [| d IH | d IH | d IH | d IH | d IH | d IH | d IH | d IH | d IH | d IH];
    intros acc; cbn [Pos.of_uint_acc Decimal.nb_digits].
  1: { rewrite Z.pow_0_r. lia. }
  all: rewrite Nat2Z.inj_succ, Z.pow_succ_r by lia.
  all: match goal with
       | |- _ <= Z.pos (Pos.of_uint_acc _ ?a) => specialize (IH a)
       end.
  all: assert (Hp : 0 < 10 ^ Z.of_nat (Decimal.nb_digits d))
         by (apply Z.pow_pos_nonneg; lia).
  all: nia.
Qed.

(** A number below [10^k] has at most [k] decimal digits. *)
Lemma to_uint_digits (n : N) (k : nat) :
  (1 <= k)%nat -> Z.of_N n < 10 ^ Z.of_nat k ->
  (1 <= Decimal.nb_digits (N.to_uint n) <= k)%nat.
Proof.
  intros Hk Hn.
  pose proof (DecimalN.Unsigned.of_to n) as Hval.
  pose proof (DecimalN.Unsigned.to_of (N.to_uint n)) as Hnorm.
  rewrite Hval in Hnorm.
  remember (N.to_uint n) as d eqn:Hd. clear Hd.
  destruct (Decimal.nzhead d) as [| u | u | u | u | u | u | u | u | u | u] eqn:Hhead.
  1: { unfold Decimal.unorm in Hnorm. rewrite Hhead in Hnorm. subst d. simpl. lia. }
  1: { exfalso. exact (DecimalFacts.nzhead_nonzero _ _ Hhead). }
  all: unfold Decimal.unorm in Hnorm; rewrite Hhead in Hnorm; subst d.
  all: cbn [Decimal.nb_digits]; split; [lia |].
  all: unfold N.of_uint in Hval; cbn [Pos.of_uint] in Hval; subst n.
  all: cbn [Z.of_N] in Hn.
  all: match goal with
       | H : Z.pos (Pos.of_uint_acc ?v ?a) < _ |- _ =>
           pose proof (of_uint_acc_lower v a) as Hlow;
           assert (Hlt : 10 ^ Z.of_nat (Decimal.nb_digits v) < 10 ^ Z.of_nat k)
             by (assert (0 < 10 ^ Z.of_nat (Decimal.nb_digits v))
                   by (apply Z.pow_pos_nonneg; lia); nia)
       end.
  all: apply Z.pow_lt_mono_r_iff in Hlt; lia.
Qed.

Lemma string_of_uint_length (d : Decimal.uint) :
  String.length (NilEmpty.string_of_uint d) = Decimal.nb_digits d.
Proof. induction d; simpl; congruence. Qed.

Lemma zeros_length (k : nat) : String.length (zeros k) = k.
Proof. induction k as [| k IH]; simpl; congruence. Qed.

(** [:06d] gives six characters or more, and six for a number below
    1000000. *)
Lemma format_06d_length (n : Z) :
  0 <= n ->
  (6 <= String.length (format_06d n))%nat
  /\ (n < 1000000 -> String.length (format_06d n) = 6%nat).
Proof.
  intros Hn. unfold format_06d. cbv zeta.
  destruct (Z.ltb_spec n 0) as [Hneg | _]; [lia |].
  change (EmptyString ++ ?s)%string with s.
  rewrite string_length_append, zeros_length.
  assert (Hlen : String.length (NilZero.string_of_uint (N.to_uint (Z.abs_N n)))
                 = Decimal.nb_digits (N.to_uint (Z.abs_N n))).
  { destruct (N.to_uint (Z.abs_N n)) eqn:Hd; simpl;
      try (now rewrite string_of_uint_length).
    exfalso. revert Hd. generalize (Z.abs_N n). intros [| p]; [discriminate |].
    apply DecimalPos.Unsigned.to_uint_nonnil. }
  rewrite Hlen. cbn [String.length]. split; [lia |].
  intros Hsmall.
  destruct (@to_uint_digits (Z.abs_N n) 6) as [Hlo Hhi]; [lia | | lia].
  rewrite N2Z.inj_abs_N. change (10 ^ Z.of_nat 6) with 1000000. lia.
Qed.

(** C8: when idle [record_frame] answers failure and changes nothing.  In a
    session, a frame OpenCV rejects makes the call raise with nothing
    changed; on a frame it converts, a successful write stores the converted
    frame in the session folder under the name made of the counter and adds
    one to the counter, and a failed write changes nothing.  So in any run
    of calls of a session, whatever the mix of successes, failed writes and
    rejected frames, the calls that succeed store their frames, in the
    order of the calls, under the numbers following on from the counter the
    run began with, and the counter ends higher by their number; in a
    session opened by [start_recording] these are the files numbered
    0, 1, ..., N-1.  The name of the file numbered [k] is [frame_], then
    the decimal digits of [k] with zeros put before them up to six
    characters (exactly six below 1000000, the digits alone from there on),
    then [.png]. *)
Theorem record_frame_numbering :
  (forall write_ok self disk frame,
      is_recording self = false ->
      record_frame cvtColor_RGB2BGR write_ok self disk frame = (Ok false, self, disk))
  /\ (forall write_ok self disk folder frame,
         is_recording self = true ->
         current_recording_folder self = Some folder ->
         record_frame cvtColor_RGB2BGR write_ok self disk frame
         = match cvtColor_RGB2BGR frame with
           | None => (Raise cv2_error, self, disk)
           | Some bgr =>
               if write_ok
               then (Ok true,
                     mkService (output_folder self) (Some folder)
                       (frame_counter self + 1) true,
                     mkDisk (directories disk)
                       (images disk
                        ++ [(folder ++ [frame_filename (frame_counter self)], bgr)]))
               else (Ok false, self, disk)
           end)
  /\ (forall calls self disk folder,
         is_recording self = true ->
         current_recording_folder self = Some folder ->
         let n := List.length (stored cvtColor_RGB2BGR calls) in
         record_each cvtColor_RGB2BGR calls self disk
         = (map (answer cvtColor_RGB2BGR) calls,
            mkService (output_folder self) (Some folder)
              (frame_counter self + Z.of_nat n) true,
            mkDisk (directories disk)
              (images disk
               ++ combine
                    (map (fun k => folder ++ [frame_filename k])
                       (zseq (frame_counter self) n))
                    (stored cvtColor_RGB2BGR calls))))
  /\ (forall name clock_name calls self disk,
         is_recording self = false ->
         let folder :=
           output_folder self
           ++ [match name with Some n => n | None => clock_name end] in
         let n := List.length (stored cvtColor_RGB2BGR calls) in
         exists self1 disk1,
           start_recording name clock_name true self disk
           = (Ok (String.concat "/" folder), self1, disk1)
           /\ record_each cvtColor_RGB2BGR calls self1 disk1
              = (map (answer cvtColor_RGB2BGR) calls,
                 mkService (output_folder self) (Some folder) (Z.of_nat n) true,
                 mkDisk (directories disk1)
                   (images disk
                    ++ combine
                         (map (fun k => folder ++ [frame_filename k]) (zseq 0 n))
                         (stored cvtColor_RGB2BGR calls))))
  /\ (forall k,
         0 <= k ->
         exists digits,
           frame_filename k = ("frame_" ++ digits ++ ".png")%string
           /\ (6 <= String.length digits)%nat
           /\ (k < 1000000 -> String.length digits = 6%nat)
           /\ option_map N.of_uint (NilEmpty.uint_of_string digits)
              = Some (Z.to_N k))
  /\ frame_filename 0 = "frame_000000.png"%string
  /\ frame_filename 41 = "frame_000041.png"%string
  /\ frame_filename 999999 = "frame_999999.png"%string
  /\ frame_filename 1000000 = "frame_1000000.png"%string.
Proof.
  split; [| split; [| split; [| split; [| split]]]].
  - intros write_ok self disk frame Hidle. unfold record_frame. now rewrite Hidle.
  - intros write_ok self disk folder frame Hrec Hfolder.
    unfold record_frame. rewrite Hrec, Hfolder.
    destruct (cvtColor_RGB2BGR frame); [destruct write_ok |]; reflexivity.
  - intros calls self disk folder Hrec Hfolder n.
    now apply record_each_numbering.
  - intros name clock_name calls self disk Hidle folder n.
    exists (mkService (output_folder self) (Some folder) 0 true), (mkdir disk folder).
    split; [unfold start_recording; rewrite Hidle; reflexivity |].
    rewrite (@record_each_numbering calls
               (mkService (output_folder self) (Some folder) 0 true)
               (mkdir disk folder) folder eq_refl eq_refl).
    cbn [output_folder frame_counter]. fold n.
    assert (Himg : images (mkdir disk folder) = images disk).
    { unfold mkdir. now destruct (in_dec path_eq_dec folder (directories disk)). }
    now rewrite Himg.
  - intros k Hk. exists (format_06d k).
    split; [reflexivity |].
    destruct (format_06d_length Hk) as [Hmin Hsix].
    split; [exact Hmin |]. split; [exact Hsix |].
    now apply format_06d_parse.
  - repeat split; reflexivity.
Qed.

End RecordingFacts.

(** ** Playback controller *)

Section PlaybackFacts.
Import Playback.
Implicit Types (self : PlaybackController).

Ltac run_method :=
  unfold step_forward, step_backward, toggle_play_pause, play, pause,
    with_lock, acquire, release, fire, bind, ret, read, update;
  cbn [_fps _state _current_frame _loop_enabled _total_frames _lock
       _play_thread _stop_event _frame_callback callback_calls threads_started
       set_lock set_state set_current_frame set_stop_event launch_thread log_call].

(** C5, as the code has it: in every state of the controller (playing,
    paused or stopped) [step_forward] adds one to the current frame and
    fires the callback when the total is unknown or the current frame is
    below total-1, and otherwise changes nothing and fires nothing;
    [step_backward] subtracts one and fires the callback when the current
    frame is above 0, and otherwise changes nothing and fires nothing.  From
    a current frame inside the range the new one is the clamped value. *)
Theorem step_moves_inside_range :
  forall self,
    _lock self = false ->
    let cur := _current_frame self in
    (exists self',
        step_forward self = Returned tt self'
        /\ _state self' = _state self
        /\ _lock self' = false
        /\ (match _total_frames self with
            | None => True
            | Some t => cur < t - 1
            end ->
            _current_frame self' = cur + 1
            /\ callback_calls self'
               = callback_calls self ++ (if _frame_callback self then [cur + 1] else []))
        /\ (match _total_frames self with
            | None => False
            | Some t => t - 1 <= cur
            end -> self' = self)
        /\ (0 <= cur ->
            match _total_frames self with
            | None => True
            | Some t => cur <= t - 1
            end ->
            _current_frame self' = clamp (_total_frames self) (cur + 1)))
    /\ (exists self',
           step_backward self = Returned tt self'
           /\ _state self' = _state self
           /\ _lock self' = false
           /\ (0 < cur ->
               _current_frame self' = cur - 1
               /\ callback_calls self'
                  = callback_calls self ++ (if _frame_callback self then [cur - 1] else []))
           /\ (cur <= 0 -> self' = self)
           /\ (0 <= cur -> _current_frame self' = clamp None (cur - 1))).
Proof.
  intros [fps st cur lp total lk th ev cb calls n] Hlock; simpl in Hlock; subst lk.
  cbv zeta. cbn [_current_frame _total_frames _state _frame_callback callback_calls].
  split.
  - run_method. destruct total as [t |].
    + destruct (Z.ltb_spec cur (t - 1)) as [Hin | Hout].
      * destruct cb; cbn; eexists; (split; [reflexivity |]); cbn;
          repeat split; intros; try rewrite app_nil_r; try reflexivity; lia.
      * cbn. eexists. split; [reflexivity |]. cbn.
        repeat split; intros; try reflexivity; lia.
    + destruct cb; cbn; eexists; (split; [reflexivity |]); cbn;
        repeat split; intros; try rewrite app_nil_r; try reflexivity;
        try contradiction; lia.
  - run_method. destruct (Z.gtb_spec cur 0) as [Hin | Hout].
    + destruct cb; cbn; eexists; (split; [reflexivity |]); cbn;
        repeat split; intros; try rewrite app_nil_r; try reflexivity; lia.
    + cbn. eexists. split; [reflexivity |]. cbn.
      repeat split; intros; try reflexivity; lia.
Qed.

(** C6, what the code does: [toggle_play_pause] takes the lock and then
    calls [pause()] or [play()], which wait for the same lock; the call
    never returns and the state stays as it was, although [pause()] and
    [play()] called directly do return. *)
Theorem toggle_play_pause_blocks :
  forall alive self,
    _lock self = false ->
    toggle_play_pause alive self = Blocked (set_lock true self)
    /\ (exists self', pause self = Returned tt self'
                      /\ _state self'
                         = match _state self with
                           | PLAYING => PAUSED
                           | s => s
                           end)
    /\ (exists self', play alive self = Returned tt self'
                      /\ _state self' = PLAYING).
Proof.
  intros alive [fps st cur lp total lk th ev cb calls n] Hlock;
    simpl in Hlock; subst lk.
  split; [| split].
  - run_method. destruct st; reflexivity.
  - run_method. destruct st; cbn; eexists; split; reflexivity.
  - run_method. destruct st; cbn; try (eexists; split; reflexivity);
      destruct (negb th || negb alive); cbn; eexists; split; reflexivity.
Qed.

End PlaybackFacts.

(** ** Processing pipeline *)

Section PipelineFacts.
Import RingBuffer Pipeline PipelineInvariant.
Context {ndarray : Type}.
Variable cvtColor_RGB2BGR : ndarray -> option ndarray.
Implicit Types (p self : ProcessingPipeline (ndarray := ndarray)).

Ltac projections :=
  cbv beta iota zeta delta
    [algorithm source_buffer processed_buffer processing_queue
     acquisition_thread processing_thread is_running on_new_frame
     recording_service frames_acquired frames_processed stopping data_source
     disk delivered history
     with_algorithm with_source_buffer with_processed_buffer
     with_processing_queue with_acquisition_thread with_processing_thread
     with_is_running with_on_new_frame with_recording with_frames_acquired
     with_frames_processed with_stopping call_source deliver note
     step start stop_flag stop_join set_algorithm acq_test acq_read
     acq_buffer_add acq_put acq_count proc_test proc_get proc_process
     proc_buffer_add proc_record proc_count proc_callback thread_gone
     snd fst negb andb] in *.

Ltac split_step Hs :=
  repeat (match type of Hs with
          | context [if ?b then _ else _] => is_var b; destruct b eqn:?
          | context [match ?x with _ => _ end] => is_var x; destruct x eqn:?
          | context [if ?b then _ else _] => destruct b eqn:?
          | context [match ?x with _ => _ end] => destruct x eqn:?
          end; try discriminate Hs);
  injection Hs as <-.


Lemma zseq_snoc (k : Z) (n : nat) : zseq k (S n) = zseq k n ++ [k + Z.of_nat n].
Proof. unfold zseq. rewrite seq_S, map_app. reflexivity. Qed.

Lemma rev_zseq_next (a : Z) :
  0 <= a -> rev (zseq 0 (Z.to_nat (a + 1))) = a :: rev (zseq 0 (Z.to_nat a)).
Proof.
  intros Ha. replace (Z.to_nat (a + 1)) with (S (Z.to_nat a)) by lia.
  rewrite zseq_snoc, rev_app_distr. simpl. f_equal. lia.
Qed.

Lemma in_add (b : FrameRingBuffer ndarray) (x y : FrameData ndarray) :
  In y (_buffer (add b x)) -> y = x \/ In y (_buffer b).
Proof.
  unfold add, deque_append. cbn [_buffer]. cbv zeta.
  destruct (capacity b <? len (_buffer b ++ [x])); intros Hin.
  - destruct (_buffer b) as [| z d]; simpl in Hin; [contradiction |].
    apply in_app_or in Hin. destruct Hin as [Hin | [<- | []]]; auto.
    right. now right.
  - apply in_app_or in Hin. destruct Hin as [Hin | [<- | []]]; auto.
Qed.

Ltac unfold_inv :=
  unfold inv, threads_inv, count_inv, numbers_inv, known_inv,
    first_session_inv, transformed_inv in *;
  cbn [algorithm source_buffer processed_buffer processing_queue
       acquisition_thread processing_thread is_running on_new_frame
       recording_service frames_acquired frames_processed stopping data_source
       disk delivered history acq_created acq_pushed acq_holds proc_in_flight
       proc_uncounted proc_holds threads_idle acquired_numbers session_numbers
       sessions transformed frame_number app] in *.

Ltac idle_threads Ht acq proc :=
  try (specialize (Ht eq_refl eq_refl); destruct acq; try discriminate Ht;
       destruct proc; try discriminate Ht).

Ltac in_list :=
  solve [ assumption
        | left; reflexivity
        | apply in_or_app; left; in_list
        | apply in_or_app; right; in_list
        | right; in_list ].

Ltac solve_known Hk :=
  let fd := fresh "fd" in
  let Hin := fresh "Hin" in
  intros fd Hin;
  repeat match goal with
         | H : In _ (_ ++ _) |- _ => apply in_app_or in H
         | H : In _ (_ :: _) |- _ => destruct H as [H | H]
         | H : In _ [] |- _ => destruct H
         | H : _ \/ _ |- _ => destruct H as [H | H]
         | H : In _ (_buffer (add _ _)) |- _ => apply in_add in H
         end;
  subst; cbn [frame_number];
  first [ left; reflexivity
        | apply Hk; in_list
        | right; apply Hk; in_list ].

(** Every move of the system keeps the invariant. *)
Lemma inv_step p l p' : inv p -> step cvtColor_RGB2BGR p l = Some p' -> inv p'.
Proof.
  intros HI Hs.
  destruct p as [alg sb pb q acq proc rn cb svc fa fp stp ds dk dl h].
  destruct l; projections; split_step Hs.
  all: unfold_inv.
  all: destruct HI as (Ht & (Hc0 & Hc) & (Hn0 & Hn & Hnh) & Hk & (Hf0 & Hf1) & Hx).
  all: idle_threads Ht acq proc.
  all: unfold_inv.
  all: rewrite ?Z.add_0_r in *.
  all: repeat match goal with |- _ /\ _ => split end.
  all: try assumption.
  all: try (unfold len in *; rewrite ?length_app in *; cbn [List.length] in *; lia).
  all: try (intros; discriminate).
  all: try (intros ? []; fail).
  all: try (intros ? [<- | []]; reflexivity).
  all: try (intros Hr Hst; specialize (Ht Hr Hst); unfold_inv;
            repeat match goal with
                   | a : acquisition_pc |- _ => destruct a
                   | a : processing_pc |- _ => destruct a
                   end;
            (discriminate Ht || reflexivity)).
  all: try (intros H0; destruct (Hf0 H0) as [E _]; discriminate E).
  all: try (intros H1; f_equal; auto; fail).
  all: try (intros H1; injection H1 as H1; destruct (Hf0 H1) as [_ E]; now rewrite E).
  all: try (rewrite rev_zseq_next by assumption; now rewrite Hn).
  all: solve_known Hk.
Qed.

Lemma inv_init (alg : IDetectionAlgorithm ndarray) (buffer_size : Z) p :
  Pipeline.init alg buffer_size = Ok p -> inv p.
Proof.
  unfold Pipeline.init, RingBuffer.init.
  destruct (buffer_size <? 0); [discriminate |].
  intros Hp. injection Hp as <-. unfold_inv.
  repeat split; try reflexivity; try lia; try discriminate;
    try (intros fd []; fail).
Qed.

Lemma inv_run ls : forall p p', inv p -> run cvtColor_RGB2BGR p ls = Some p' -> inv p'.
Proof.
  induction ls as [| l ls IH]; intros p p' HI Hrun; simpl in Hrun.
  - now injection Hrun as <-.
  - destruct (step cvtColor_RGB2BGR p l) as [p1 |] eqn:Hstep; [| discriminate].
    apply (IH p1); [| exact Hrun]. eapply inv_step; eassumption.
Qed.

Lemma reachable_inv p : reachable cvtColor_RGB2BGR p -> inv p.
Proof.
  intros (alg & n & p0 & ls & Hinit & Hrun).
  eapply inv_run; [| exact Hrun]. eapply inv_init; exact Hinit.
Qed.

(** While no [stop()] has returned on a timeout no loop of an earlier
    session is alive, and a move of the whole is a move of the pipeline and
    its two threads. *)
Lemma joined_step (s s' : PipelineSystem.System (ndarray := ndarray))
  (m : PipelineSystem.move) :
  inv (PipelineSystem.pipeline s) ->
  PipelineSystem.earlier_acquisition s = [] ->
  PipelineSystem.earlier_processing s = [] ->
  PipelineSystem.joined m = true ->
  PipelineSystem.step cvtColor_RGB2BGR s m = Some s' ->
  step cvtColor_RGB2BGR (PipelineSystem.pipeline s) (PipelineSystem.as_label m)
  = Some (PipelineSystem.pipeline s')
  /\ PipelineSystem.earlier_acquisition s' = []
  /\ PipelineSystem.earlier_processing s' = [].
Proof.
  destruct s as [p ea ep]. cbn [PipelineSystem.pipeline
    PipelineSystem.earlier_acquisition PipelineSystem.earlier_processing].
  intros HI -> -> Hm Hs.
  destruct m as [l | | i l | i l | alg]; try discriminate Hm;
    unfold PipelineSystem.step in Hs;
    cbn [PipelineSystem.pipeline PipelineSystem.earlier_acquisition
         PipelineSystem.earlier_processing PipelineSystem.as_label] in *.
  - destruct (step cvtColor_RGB2BGR p l) as [p' |] eqn:Hstep; [| discriminate].
    assert (Hplain : Some (PipelineSystem.mkSystem p' [] []) = Some s' ->
                     Some p' = Some (PipelineSystem.pipeline s')
                     /\ PipelineSystem.earlier_acquisition s' = []
                     /\ PipelineSystem.earlier_processing s' = []).
    { intros Heq. injection Heq as <-. repeat split. }
    destruct l; try (exact (Hplain Hs)).
    destruct (negb (is_running p) && is_running p') eqn:Hlaunch;
      [| exact (Hplain Hs)].
    apply andb_prop in Hlaunch. destruct Hlaunch as [Hstopped _].
    apply negb_true_iff in Hstopped.
    cbn [step] in Hstep.
    destruct (stopping p) eqn:Hstopping; [discriminate |].
    destruct HI as (Ht & _). specialize (Ht Hstopped Hstopping).
    unfold threads_idle in Ht.
    destruct (acquisition_thread p); try discriminate Ht;
      destruct (processing_thread p); try discriminate Ht;
      exact (Hplain Hs).
  - destruct i; discriminate Hs.
  - destruct i; discriminate Hs.
  - cbn [step]. destruct (stopping p); [discriminate |].
    injection Hs as <-. repeat split.
Qed.

Lemma joined_run (ms : list PipelineSystem.move) :
  forall s s' : PipelineSystem.System (ndarray := ndarray),
    inv (PipelineSystem.pipeline s) ->
    PipelineSystem.earlier_acquisition s = [] ->
    PipelineSystem.earlier_processing s = [] ->
    forallb (@PipelineSystem.joined ndarray) ms = true ->
    PipelineSystem.run cvtColor_RGB2BGR s ms = Some s' ->
    run cvtColor_RGB2BGR (PipelineSystem.pipeline s)
      (map (@PipelineSystem.as_label ndarray) ms)
    = Some (PipelineSystem.pipeline s')
    /\ PipelineSystem.earlier_acquisition s' = []
    /\ PipelineSystem.earlier_processing s' = [].
Proof.
  induction ms as [| m ms IH]; intros s s' HI Ha Hp Hms Hrun.
  - injection Hrun as <-. auto.
  - cbn [forallb] in Hms. apply andb_prop in Hms. destruct Hms as [Hm Hms].
    cbn [PipelineSystem.run] in Hrun.
    destruct (PipelineSystem.step cvtColor_RGB2BGR s m) as [s1 |] eqn:Hstep;
      [| discriminate].
    destruct (@joined_step s s1 m HI Ha Hp Hm Hstep) as (Hstep1 & Ha1 & Hp1).
    cbn [map run]. rewrite Hstep1.
    apply IH; try assumption. eapply inv_step; eassumption.
Qed.

(** From a pipeline just built. *)
Lemma joined_from_init (alg : IDetectionAlgorithm ndarray) (buffer_size : Z)
  p0 ms (s : PipelineSystem.System (ndarray := ndarray)) :
  Pipeline.init alg buffer_size = Ok p0 ->
  PipelineSystem.run cvtColor_RGB2BGR (PipelineSystem.boot p0) ms = Some s ->
  forallb (@PipelineSystem.joined ndarray) ms = true ->
  run cvtColor_RGB2BGR p0 (map (@PipelineSystem.as_label ndarray) ms)
  = Some (PipelineSystem.pipeline s).
Proof.
  intros Hinit Hrun Hms.
  refine (proj1 (@joined_run ms (PipelineSystem.boot p0) s _ eq_refl eq_refl Hms Hrun)).
  eapply inv_init. exact Hinit.
Qed.

Lemma acquired_numbers_in (h : list (event (ndarray := ndarray))) (n : Z) :
  In n (acquired_numbers h) ->
  exists fd, In (ev_acquired fd) h /\ frame_number fd = n.
Proof.
  induction h as [| e h IH]; simpl; [contradiction |].
  destruct e as [| fd | fd pd]; simpl; intros Hin.
  - destruct (IH Hin) as (fd' & Hfd & Hn). exists fd'. auto.
  - destruct Hin as [<- | Hin].
    + exists fd. auto.
    + destruct (IH Hin) as (fd' & Hfd & Hn). exists fd'. auto.
  - destruct (IH Hin) as (fd' & Hfd & Hn). exists fd'. auto.
Qed.

Lemma acquired_numbers_split (h : list (event (ndarray := ndarray))) :
  acquired_numbers h = session_numbers h ++ acquired_numbers (before_session h).
Proof.
  induction h as [| e h IH]; simpl; [reflexivity |].
  destruct e; simpl; [reflexivity | now rewrite IH | exact IH].
Qed.

Lemma app_same_length (A : Type) (l1 l1' l2 l2' : list A) :
  List.length l1 = List.length l1' -> l1 ++ l2 = l1' ++ l2' -> l2 = l2'.
Proof.
  revert l1'. induction l1 as [| x l1 IH]; intros [| y l1'] Hlen Heq;
    simpl in *; try discriminate.
  - exact Heq.
  - injection Heq as _ Heq. injection Hlen as Hlen. eauto.
Qed.

Lemma zseq_length (k : Z) (n : nat) : List.length (zseq k n) = n.
Proof. unfold zseq. now rewrite length_map, length_seq. Qed.

Lemma zseq_app (a b : nat) :
  forall k, zseq k (a + b) = zseq k a ++ zseq (k + Z.of_nat a) b.
Proof.
  induction a as [| a IH]; intros k.
  - simpl. now rewrite Z.add_0_r.
  - change (S a + b)%nat with (S (a + b)). rewrite !zseq_cons, IH.
    simpl. do 3 f_equal. lia.
Qed.

Lemma zseq_lower (n : nat) : forall k x, In x (zseq k n) -> k <= x.
Proof.
  unfold zseq. intros k x Hin. apply in_map_iff in Hin.
  destruct Hin as (i & <- & _). lia.
Qed.

Lemma zseq_sorted (n : nat) : forall k, StronglySorted Z.lt (zseq k n).
Proof.
  induction n as [| n IH]; intros k.
  - constructor.
  - rewrite zseq_cons. constructor; [apply IH |].
    apply Forall_forall. intros x Hin. apply zseq_lower in Hin. lia.
Qed.

(** C9: when the source fails to open, [start()] answers failure after the
    one [open()] call, with no loop started and the running flag false; when
    the source opens but fails to start, it is closed again and the answer
    is failure, again with no loop and the flag false; when the pipeline is
    already running [start()] answers success and changes nothing: no call
    reaches the source and no loop is launched. *)
Theorem start_failure_starts_nothing :
  (forall start_ok self,
      is_running self = false ->
      start false start_ok self = (false, call_source src_open self)
      /\ is_running (call_source src_open self) = false
      /\ acquisition_thread (call_source src_open self) = acquisition_thread self
      /\ processing_thread (call_source src_open self) = processing_thread self)
  /\ (forall self,
         is_running self = false ->
         let self' :=
           call_source src_close
             (call_source src_start (call_source src_open self)) in
         start true false self = (false, self')
         /\ data_source self' = data_source self ++ [src_open; src_start; src_close]
         /\ is_running self' = false
         /\ acquisition_thread self' = acquisition_thread self
         /\ processing_thread self' = processing_thread self)
  /\ (forall open_ok start_ok self,
         is_running self = true ->
         start open_ok start_ok self = (true, self)).
Proof.
  split; [| split].
  - intros start_ok self Hstopped. unfold start. rewrite Hstopped.
    repeat split; assumption.
  - intros self Hstopped self'. unfold start. rewrite Hstopped.
    subst self'. cbn. rewrite <- !app_assoc. repeat split; assumption.
  - intros open_ok start_ok self Hrunning. unfold start. now rewrite Hrunning.
Qed.

(** C2, as the code has it: as long as the calls on the pipeline come from
    one thread, [read_frame()] and [get_info()] return, and no [stop()] has
    returned on a timeout of [join], so that one acquisition loop and one
    processing loop at most are alive, the processed count is at most the
    acquired count plus one, and at most the acquired count unless the
    acquisition loop stands between its push onto the queue and the
    increment of its counter; every frame in the processed buffer carries
    the frame number of a frame the acquisition loop created before. *)
Theorem processed_within_acquired :
  forall (alg : IDetectionAlgorithm ndarray) (buffer_size : Z) p0 ms
         (s : PipelineSystem.System (ndarray := ndarray)),
    Pipeline.init alg buffer_size = Ok p0 ->
    PipelineSystem.run cvtColor_RGB2BGR (PipelineSystem.boot p0) ms = Some s ->
    forallb (@PipelineSystem.joined ndarray) ms = true ->
    let p := PipelineSystem.pipeline s in
    frames_processed p <= frames_acquired p + 1
    /\ (acquisition_thread p <> acq_at_count ->
        frames_processed p <= frames_acquired p)
    /\ (forall pd,
           In pd (_buffer (processed_buffer p)) ->
           exists fd,
             In (ev_acquired fd) (history p)
             /\ frame_number fd = frame_number pd).
Proof.
  intros alg buffer_size p0 ms s Hinit Hrun Hms p.
  assert (Hreach : inv p).
  { eapply inv_run; [eapply inv_init; exact Hinit |].
    eapply joined_from_init; eassumption. }
  destruct Hreach as (_ & (Hc0 & Hc) & _ & Hk & _ & _).
  assert (Hq : 0 <= len (processing_queue p)) by (unfold len; lia).
  assert (Hin : 0 <= proc_in_flight (processing_thread p))
    by (destruct (processing_thread p); simpl; lia).
  split; [| split].
  - destruct (acquisition_thread p); simpl in Hc; lia.
  - intros Hpc. destruct (acquisition_thread p); simpl in Hc;
      try lia; now elim Hpc.
  - intros pd Hpd. apply acquired_numbers_in. apply Hk.
    repeat (apply in_or_app; right). exact Hpd.
Qed.

Lemma zseq_head (k : Z) (n : nat) (x : Z) : hd_error (zseq k n) = Some x -> x = k.
Proof.
  destruct n as [| n]; [discriminate |]. unfold zseq. cbn [seq map hd_error].
  intros Heq. injection Heq as <-. lia.
Qed.

(** C3, as the code has it: as long as the calls on the pipeline come from
    one thread, [read_frame()] and [get_info()] return, and no [stop()] has
    returned on a timeout of [join], the frame numbers given since the
    pipeline was built are 0, 1, 2, ... in this order; those of the current
    session are consecutive and strictly increasing, and the first of them
    is the number of frames acquired before the session started: 0 in the
    first session, and in a later session the count the earlier ones
    reached. *)
Theorem frame_numbers_consecutive :
  forall (alg : IDetectionAlgorithm ndarray) (buffer_size : Z) p0 ms
         (s : PipelineSystem.System (ndarray := ndarray)),
    Pipeline.init alg buffer_size = Ok p0 ->
    PipelineSystem.run cvtColor_RGB2BGR (PipelineSystem.boot p0) ms = Some s ->
    forallb (@PipelineSystem.joined ndarray) ms = true ->
    let h := history (PipelineSystem.pipeline s) in
    rev (acquired_numbers h) = zseq 0 (List.length (acquired_numbers h))
    /\ rev (session_numbers h)
       = zseq (len (acquired_numbers (before_session h)))
           (List.length (session_numbers h))
    /\ StronglySorted Z.lt (rev (session_numbers h))
    /\ (forall first,
           hd_error (rev (session_numbers h)) = Some first ->
           first = len (acquired_numbers (before_session h)))
    /\ (sessions h = 1%nat ->
        rev (session_numbers h) = zseq 0 (List.length (session_numbers h))).
Proof.
  intros alg buffer_size p0 ms s Hinit Hrun Hms h.
  assert (Hreach : inv (PipelineSystem.pipeline s)).
  { eapply inv_run; [eapply inv_init; exact Hinit |].
    eapply joined_from_init; eassumption. }
  destruct Hreach as (_ & _ & (_ & Hn & _) & _ & (_ & Hf1) & _).
  fold h in Hn, Hf1.
  assert (Hall : rev (acquired_numbers h)
                 = zseq 0 (List.length (acquired_numbers h))).
  { rewrite Hn at 1. rewrite rev_involutive. f_equal.
    now rewrite Hn, length_rev, zseq_length. }
  assert (Hses : rev (session_numbers h)
                 = zseq (len (acquired_numbers (before_session h)))
                     (List.length (session_numbers h))).
  { pose proof Hall as Hcut.
    rewrite (acquired_numbers_split h) in Hcut.
    rewrite rev_app_distr, length_app, Nat.add_comm, zseq_app in Hcut.
    apply app_same_length in Hcut; [exact Hcut |].
    now rewrite length_rev, zseq_length. }
  split; [exact Hall |]. split; [exact Hses |]. split; [| split].
  - rewrite Hses. apply zseq_sorted.
  - intros first Hfirst. rewrite Hses in Hfirst. now apply zseq_head in Hfirst.
  - intros Hfirst. rewrite (Hf1 Hfirst). exact Hall.
Qed.

(** C4: a fault of the transform on the dequeued item sends the processing
    loop back to its head with nothing else changed: the item is dropped,
    the processed buffer and the processed count stay as they were; when the
    next item of the queue is transformed without fault it reaches the
    processed buffer under its own frame number and the count grows by one;
    and in every reachable state the processed count is at most the number
    of transforms that returned. *)
Theorem transform_fault_is_contained :
  (forall now p fd,
      processing_thread p = proc_at_process fd ->
      process (algorithm p) (frame fd) = None ->
      step cvtColor_RGB2BGR p (do_proc_process now)
      = Some (with_processing_thread proc_at_test p))
  /\ (forall now1 now2 write_ok raises p fd7 fd8 rest out,
         processing_thread p = proc_at_process fd7 ->
         processing_queue p = fd8 :: rest ->
         is_running p = true ->
         process (algorithm p) (frame fd7) = None ->
         process (algorithm p) (frame fd8) = Some out ->
         Recording.is_recording (recording_service p) = false
         \/ cvtColor_RGB2BGR out <> None ->
         exists p',
           run cvtColor_RGB2BGR p
             [do_proc_process now1; do_proc_test; do_proc_get;
              do_proc_process now2; do_proc_buffer_add;
              do_proc_record write_ok; do_proc_count;
              do_proc_callback raises]
           = Some p'
           /\ processed_buffer p'
              = add (processed_buffer p)
                  (mkFrameData out now2 (frame_number fd8)
                     (Some (get_name (algorithm p))))
           /\ frames_processed p' = frames_processed p + 1
           /\ processing_queue p' = rest
           /\ processing_thread p' = proc_at_test
           /\ is_running p' = true)
  /\ (forall p,
         reachable cvtColor_RGB2BGR p ->
         frames_processed p <= transformed (history p)).
Proof.
  split; [| split].
  - intros now p fd Hpc Hfault. simpl. unfold proc_process.
    now rewrite Hpc, Hfault.
  - intros now1 now2 write_ok raises
      [alg sb pb q acq proc rn cb svc fa fp stp ds dk dl h]
      fd7 fd8 rest out Hpc Hq Hrun Hfault Hout Hrec.
    simpl in Hpc, Hq, Hrun, Hfault, Hout, Hrec. subst proc q rn.
    cbn [run step]. unfold proc_process at 1. projections.
    rewrite Hfault. projections. rewrite Hout. projections.
    unfold Recording.is_recording_active, Recording.record_frame.
    cbn [frame].
    destruct (Recording.is_recording svc) eqn:Hactive.
    + destruct Hrec as [Hrec | Hcvt]; [discriminate |].
      destruct (Recording.current_recording_folder svc) as [folder |];
        [destruct (cvtColor_RGB2BGR out) as [bgr |];
         [destruct write_ok | now elim Hcvt] |];
        destruct cb; eexists; (split; [reflexivity |]);
        projections; repeat split.
    + destruct cb; eexists; (split; [reflexivity |]);
        projections; repeat split.
  - intros p Hreach. apply reachable_inv in Hreach.
    destruct Hreach as (_ & _ & _ & _ & _ & Hx). unfold transformed_inv in Hx.
    destruct (processing_thread p); simpl in Hx; lia.
Qed.

End PipelineFacts.

(** ** The properties at the sample data *)

Lemma start_recording_idempotent_witness :
  Recording.start_recording (Some "take2"%string) "recording_20260101_000000"
    true Samples.active_service Samples.empty_disk
  = (Ok "recordings/take1"%string, Samples.active_service, Samples.empty_disk)
  /\ exists disk',
       Recording.start_recording (Some "take1"%string) "clock" true
         Samples.idle_service Samples.empty_disk
       = (Ok "recordings/take1"%string, Samples.active_service, disk')
       /\ disk' = Recording.mkDisk [Samples.take1] [].
Proof.
  split.
  - exact (proj1 (@start_recording_idempotent Z) (Some "take2"%string)
             "recording_20260101_000000"%string true Samples.active_service
             Samples.empty_disk eq_refl).
  - destruct (proj2 (@start_recording_idempotent Z) (Some "take1"%string)
                "clock"%string Samples.idle_service Samples.empty_disk eq_refl)
      as (disk' & Hcall & _ & Hnew & _).
    exists disk'. split; [exact Hcall |]. apply Hnew. intros [].
Defined.

Lemma record_frame_numbering_witness :
  Recording.record_each Samples.sample_cvt Samples.mixed_calls
    Samples.active_service Samples.empty_disk
  = ([Ok true; Raise cv2_error; Ok false; Ok true],
     Recording.mkService ["recordings"%string] (Some Samples.take1) 2 true,
     Recording.mkDisk []
       [(["recordings"; "take1"; "frame_000000.png"]%string, 10);
        (["recordings"; "take1"; "frame_000001.png"]%string, 12)]).
Proof.
  exact (proj1 (proj2 (proj2 (record_frame_numbering Samples.sample_cvt)))
           Samples.mixed_calls Samples.active_service Samples.empty_disk
           Samples.take1 eq_refl eq_refl).
Defined.

Lemma step_moves_inside_range_witness :
  exists self',
    Playback.step_forward Samples.in_the_middle = Playback.Returned tt self'
    /\ Playback._current_frame self' = 5
    /\ Playback.callback_calls self' = [5].
Proof.
  destruct (proj1 (step_moves_inside_range Samples.in_the_middle eq_refl))
    as (self' & Hcall & _ & _ & Hmove & _).
  exists self'. split; [exact Hcall |]. apply Hmove. reflexivity.
Defined.

Lemma toggle_play_pause_blocks_witness :
  Playback.toggle_play_pause true Samples.in_the_middle
  = Playback.Blocked (Playback.set_lock true Samples.in_the_middle).
Proof.
  exact (proj1 (toggle_play_pause_blocks true Samples.in_the_middle eq_refl)).
Defined.

Lemma start_failure_starts_nothing_witness :
  Pipeline.start false true Samples.fresh
  = (false, Pipeline.call_source Pipeline.src_open Samples.fresh).
Proof.
  exact (proj1 (proj1 (@start_failure_starts_nothing Z) true Samples.fresh
                  eq_refl)).
Defined.

Lemma fresh_is_initial :
  Pipeline.init Samples.sample_algorithm 100 = Ok Samples.fresh.
Proof. reflexivity. Qed.

Lemma overtaking_reachable :
  Pipeline.reachable Samples.sample_cvt
    (Samples.run_from Samples.fresh Samples.overtaking).
Proof.
  exists Samples.sample_algorithm, 100, Samples.fresh, Samples.overtaking.
  split; vm_compute; reflexivity.
Defined.

Lemma restarting_reachable :
  Pipeline.reachable Samples.sample_cvt
    (Samples.run_from Samples.fresh Samples.restarting).
Proof.
  exists Samples.sample_algorithm, 100, Samples.fresh, Samples.restarting.
  split; vm_compute; reflexivity.
Defined.

Lemma overtaking_moves_run :
  PipelineSystem.run Samples.sample_cvt MoreSamples.booted
    MoreSamples.overtaking_moves
  = Some (MoreSamples.moved_from MoreSamples.booted MoreSamples.overtaking_moves).
Proof. vm_compute. reflexivity. Defined.

Lemma restarting_moves_run :
  PipelineSystem.run Samples.sample_cvt MoreSamples.booted
    MoreSamples.restarting_moves
  = Some (MoreSamples.moved_from MoreSamples.booted MoreSamples.restarting_moves).
Proof. vm_compute. reflexivity. Defined.

Lemma processed_within_acquired_witness :
  Pipeline.frames_processed
    (PipelineSystem.pipeline
       (MoreSamples.moved_from MoreSamples.booted MoreSamples.overtaking_moves))
  <= Pipeline.frames_acquired
       (PipelineSystem.pipeline
          (MoreSamples.moved_from MoreSamples.booted MoreSamples.overtaking_moves))
     + 1.
Proof.
  exact (proj1 (@processed_within_acquired Z Samples.sample_cvt _ _ _ _ _
                  fresh_is_initial overtaking_moves_run eq_refl)).
Defined.

Lemma frame_numbers_consecutive_witness :
  rev (Pipeline.session_numbers
         (Pipeline.history
            (PipelineSystem.pipeline
               (MoreSamples.moved_from MoreSamples.booted
                  MoreSamples.restarting_moves))))
  = zseq
      (len (Pipeline.acquired_numbers
              (Pipeline.before_session
                 (Pipeline.history
                    (PipelineSystem.pipeline
                       (MoreSamples.moved_from MoreSamples.booted
                          MoreSamples.restarting_moves))))))
      (List.length
         (Pipeline.session_numbers
            (Pipeline.history
               (PipelineSystem.pipeline
                  (MoreSamples.moved_from MoreSamples.booted
                     MoreSamples.restarting_moves))))).
Proof.
  exact (proj1 (proj2
           (@frame_numbers_consecutive Z Samples.sample_cvt _ _ _ _ _
              fresh_is_initial restarting_moves_run eq_refl))).
Defined.

Lemma transform_fault_is_contained_witness :
  exists p',
    Pipeline.run Samples.sample_cvt Samples.holding_seven
      [Pipeline.do_proc_process 50; Pipeline.do_proc_test; Pipeline.do_proc_get;
       Pipeline.do_proc_process 51; Pipeline.do_proc_buffer_add;
       Pipeline.do_proc_record true; Pipeline.do_proc_count;
       Pipeline.do_proc_callback false]
    = Some p'
    /\ Pipeline.processed_buffer p'
       = RingBuffer.add (Pipeline.processed_buffer Samples.holding_seven)
           (mkFrameData 108 51 8 (Some "sample"%string))
    /\ Pipeline.frames_processed p' = 7 + 1
    /\ Pipeline.processing_queue p' = []
    /\ Pipeline.processing_thread p' = Pipeline.proc_at_test
    /\ Pipeline.is_running p' = true.
Proof.
  exact (proj1 (proj2 (transform_fault_is_contained Samples.sample_cvt))
           50 51 true false Samples.holding_seven (Samples.numbered 7)
           (Samples.numbered 8) [] 108
           eq_refl eq_refl eq_refl eq_refl eq_refl (or_introl eq_refl)).
Defined.

(** ** Where the code departs from the claims *)

(** C5, as stated, fails: on the last of three frames [step_forward]
    returns with the controller unchanged and the callback not called, and
    so does [step_backward] on the first frame. *)
Lemma step_at_boundary_fires_nothing :
  Playback.step_forward Samples.at_last_frame
  = Playback.Returned tt Samples.at_last_frame
  /\ Playback.step_backward Samples.at_first_frame
     = Playback.Returned tt Samples.at_first_frame
  /\ ~ (exists self',
           Playback.step_forward Samples.at_last_frame = Playback.Returned tt self'
           /\ Playback.callback_calls self'
              = Playback.callback_calls Samples.at_last_frame
                ++ [Playback._current_frame self']).
Proof.
  split; [reflexivity |]. split; [reflexivity |].
  intros (self' & Hcall & Hfired).
  injection Hcall as <-. discriminate Hfired.
Qed.

(** C7, as stated, fails: after a session named [take1] that recorded the
    frame 10 the service is idle and the directory [recordings/take1] holds
    [frame_000000.png]; [start_recording("take1")] then succeeds and leaves
    the disk as it is, so the session directory is not a fresh one, and the
    next frame recorded replaces the file of the earlier session. *)
Lemma session_directory_is_reused :
  let service := fst MoreSamples.after_first_take in
  let disk := snd MoreSamples.after_first_take in
  let frame0 := ["recordings"; "take1"; "frame_000000.png"]%string in
  Recording.is_recording service = false
  /\ In Samples.take1 (Recording.directories disk)
  /\ Recording.file_at disk frame0 = Some 10
  /\ Recording.start_recording (Some "take1"%string) "clock" true service disk
     = (Ok "recordings/take1"%string, Samples.active_service, disk)
  /\ Recording.file_at
       (snd (Recording.record_frame Samples.sample_cvt true
               Samples.active_service disk 20))
       frame0
     = Some 20
  /\ ~ (forall name clock_name self (disk : Recording.Disk Z) r self' disk',
          Recording.is_recording self = false ->
          Recording.start_recording name clock_name true self disk
          = (r, self', disk') ->
          exists folder,
            Recording.current_recording_folder self' = Some folder
            /\ ~ In folder (Recording.directories disk)).
Proof.
  cbv zeta.
  split; [reflexivity |]. split; [left; reflexivity |].
  split; [reflexivity |]. split; [reflexivity |]. split; [reflexivity |].
  intros Hclaim.
  destruct (Hclaim (Some "take1"%string) "clock"%string
              (fst MoreSamples.after_first_take)
              (snd MoreSamples.after_first_take) _ _ _ eq_refl eq_refl)
    as (folder & Hfolder & Hfresh).
  injection Hfolder as <-. apply Hfresh. left. reflexivity.
Qed.

(** C2, as stated, fails: after the moves of [Samples.overtaking] the
    pipeline is running, one frame is processed and none is counted as
    acquired. *)
Lemma processed_count_overtakes :
  Pipeline.init Samples.sample_algorithm 100 = Ok Samples.fresh
  /\ option_map
       (fun p => (Pipeline.is_running p, Pipeline.frames_processed p,
                  Pipeline.frames_acquired p))
       (Pipeline.run Samples.sample_cvt Samples.fresh Samples.overtaking)
     = Some (true, 1, 0)
  /\ ~ (forall p,
           Pipeline.reachable Samples.sample_cvt p ->
           Pipeline.frames_processed p <= Pipeline.frames_acquired p).
Proof.
  split; [reflexivity |]. split; [reflexivity |].
  intros Hclaim.
  specialize (Hclaim _ overtaking_reachable). vm_compute in Hclaim.
  now apply Hclaim.
Qed.

(** C3, as stated, fails: after the moves of [Samples.restarting] the
    pipeline is in its second session, and the first frame of that session
    has the number 1. *)
Lemma second_session_starts_at_one :
  Pipeline.init Samples.sample_algorithm 100 = Ok Samples.fresh
  /\ option_map
       (fun p => (Pipeline.sessions (Pipeline.history p),
                  rev (Pipeline.session_numbers (Pipeline.history p))))
       (Pipeline.run Samples.sample_cvt Samples.fresh Samples.restarting)
     = Some (2%nat, [1])
  /\ ~ (forall p,
           Pipeline.reachable Samples.sample_cvt p ->
           forall n,
             hd_error (rev (Pipeline.session_numbers (Pipeline.history p)))
             = Some n ->
             n = 0).
Proof.
  split; [reflexivity |]. split; [reflexivity |].
  intros Hclaim.
  specialize (Hclaim _ restarting_reachable 1 eq_refl). discriminate Hclaim.
Qed.

(** ** More on the ring buffer *)

Section RingBufferMore.
Import RingBuffer RingBufferOps.
Context {ndarray : Type}.
Implicit Types (b : FrameRingBuffer ndarray) (d : list (FrameData ndarray))
  (x : FrameData ndarray).

Lemma deque_append_len (C : Z) d x :
  0 <= C -> len d <= C -> len (deque_append C d x) <= C.
Proof.
  intros HC Hlen. rewrite deque_append_lastn by assumption.
  unfold len in *. rewrite lastn_length. lia.
Qed.

Lemma apply_ops_bounded (os : list (op (ndarray := ndarray))) :
  forall b,
    0 <= capacity b -> len (_buffer b) <= capacity b ->
    capacity (apply_ops b os) = capacity b
    /\ len (_buffer (apply_ops b os)) <= capacity b.
Proof.
  induction os as [| o os IH]; intros b HC Hlen.
  - split; [reflexivity | exact Hlen].
  - change (apply_ops b (o :: os)) with (apply_ops (apply_op b o) os).
    destruct o as [fd |]; cbn [apply_op].
    + destruct (IH (add b fd)) as [Hcap Hsize]; cbn [add capacity _buffer];
        [assumption | now apply deque_append_len |].
      split; [exact Hcap | exact Hsize].
    + destruct (IH (clear b)) as [Hcap Hsize]; cbn [clear capacity _buffer];
        [assumption | unfold len; simpl; lia |].
      split; [exact Hcap | exact Hsize].
Qed.

(** X1: a buffer built with capacity [C] keeps that capacity and never holds
    more than [C] frames, whatever [add] and [clear] calls it receives. *)
Theorem buffer_never_exceeds_capacity :
  forall (C : Z) b0 (os : list (op (ndarray := ndarray))),
    init C = Ok b0 ->
    get_capacity (apply_ops b0 os) = C
    /\ 0 <= get_size (apply_ops b0 os) <= C.
Proof.
  intros C b0 os Hinit. unfold init in Hinit.
  destruct (Z.ltb_spec C 0) as [Hneg | Hpos]; [discriminate |].
  injection Hinit as <-.
  assert (Hempty : len (_buffer (mkBuffer C (@nil (FrameData ndarray)))) <= C)
    by (unfold len; simpl; lia).
  destruct (@apply_ops_bounded os (mkBuffer C []) Hpos Hempty) as [Hcap Hsize].
  unfold get_capacity, get_size. split; [exact Hcap |].
  split; [unfold len; lia | exact Hsize].
Qed.

Lemma find_rev_none (f : FrameData ndarray -> bool) d :
  find f (rev d) = None <-> forall y, In y d -> f y = false.
Proof.
  split.
  - intros Hnone y Hin. apply (find_none _ _ Hnone). now apply in_rev in Hin.
  - intros Hall. destruct (find f (rev d)) as [y |] eqn:Hfind; [| reflexivity].
    apply find_some in Hfind. destruct Hfind as [Hin Hy].
    apply in_rev in Hin. rewrite (Hall y Hin) in Hy. discriminate.
Qed.

(** X2: [get_by_frame_number] answers a frame of the buffer that carries the
    number asked for, answers none exactly when no frame of the buffer
    carries it, and among several frames with that number answers the one
    added last. *)
Theorem get_by_frame_number_finds_newest :
  forall b (n : Z),
    (forall x, get_by_frame_number b n = Some x ->
               In x (_buffer b) /\ frame_number x = n)
    /\ (get_by_frame_number b n = None
        <-> forall x, In x (_buffer b) -> frame_number x <> n)
    /\ (forall older newer x,
           _buffer b = older ++ x :: newer ->
           frame_number x = n ->
           (forall y, In y newer -> frame_number y <> n) ->
           get_by_frame_number b n = Some x).
Proof.
  intros b n. unfold get_by_frame_number. split; [| split].
  - intros x Hfind. apply find_some in Hfind. destruct Hfind as [Hin Hx].
    split; [now apply in_rev in Hin | now apply Z.eqb_eq].
  - rewrite find_rev_none. split; intros Hall x Hin.
    + apply Z.eqb_neq. now apply Hall.
    + apply Z.eqb_neq. now apply Hall.
  - intros older newer x Hbuf Hx Hnewer. rewrite Hbuf.
    rewrite rev_app_distr. simpl. rewrite <- app_assoc. simpl.
    assert (Hskip : forall l : list (FrameData ndarray),
               (forall y, In y l -> frame_number y <> n) ->
                              forall rest, find (fun fd => frame_number fd =? n) (l ++ rest)
                                           = find (fun fd => frame_number fd =? n) rest).
    { induction l as [| y l IH]; intros Hl rest; [reflexivity |].
      simpl. destruct (Z.eqb_spec (frame_number y) n) as [Heq | _].
      - exfalso. apply (Hl y); [now left | exact Heq].
      - apply IH. intros z Hz. apply Hl. now right. }
    rewrite Hskip.
    + simpl. now rewrite Hx, Z.eqb_refl.
    + intros y Hy. apply Hnewer. now apply in_rev.
Qed.

Lemma add_ends_with (b : FrameRingBuffer ndarray) (x : FrameData ndarray) :
  0 < capacity b -> exists d, _buffer (add b x) = d ++ [x].
Proof.
  intros HC. cbn [add _buffer]. unfold deque_append. cbv zeta.
  destruct (Z.ltb_spec (capacity b) (len (_buffer b ++ [x]))) as [Hfull | _].
  - destruct (_buffer b) as [| y d] eqn:Hbuf.
    + unfold len in Hfull. simpl in Hfull. lia.
    + exists d. reflexivity.
  - now exists (_buffer b).
Qed.

Lemma get_latest_add (b : FrameRingBuffer ndarray) (x : FrameData ndarray) :
  0 < capacity b -> get_latest (add b x) = Some x.
Proof.
  intros HC. destruct (add_ends_with b x HC) as [d Hd].
  unfold get_latest. rewrite Hd, len_app_one.
  destruct (Z.gtb_spec (len d + 1) 0) as [_ | Hle]; [| unfold len in Hle; lia].
  rewrite map_app. simpl. apply last_last.
Qed.

(** X3: on a buffer of capacity at least 1, the frame just added is the
    one [get_latest] answers, the one at index size-1, and the one
    [get_by_frame_number] answers for its number. *)
Theorem add_then_lookup :
  forall b x,
    0 < capacity b ->
    get_latest (add b x) = Some x
    /\ get (add b x) (get_size (add b x) - 1) = Some x
    /\ get_by_frame_number (add b x) (frame_number x) = Some x.
Proof.
  intros b x HC.
  split; [now apply get_latest_add |].
  destruct (add_ends_with b x HC) as [d Hd].
  unfold get, get_size, get_by_frame_number. rewrite Hd.
  split.
  - rewrite len_app_one.
    replace (len d + 1 - 1) with (len d) by lia.
    destruct (Z.leb_spec 0 (len d)) as [_ | Hneg]; [| unfold len in Hneg; lia].
    destruct (Z.ltb_spec (len d) (len d + 1)) as [_ | Hge]; [| lia].
    simpl. unfold len. rewrite Nat2Z.id.
    rewrite nth_error_app2 by lia. now rewrite Nat.sub_diag.
  - rewrite rev_app_distr. simpl. now rewrite Z.eqb_refl.
Qed.

(** X4: adding to a full buffer of capacity at least 1 drops exactly the
    oldest frame: the size stays, every other frame moves one index down
    and the new frame takes the last index; adding to a buffer that is not
    full drops nothing and leaves every frame at its index. *)
Theorem add_evicts_only_the_oldest :
  forall b x,
    0 < capacity b ->
    (len (_buffer b) = capacity b ->
     _buffer (add b x) = tl (_buffer b) ++ [x]
     /\ get_size (add b x) = get_size b
     /\ forall i, 0 <= i < capacity b - 1 -> get (add b x) i = get b (i + 1))
    /\ (len (_buffer b) < capacity b ->
        _buffer (add b x) = _buffer b ++ [x]
        /\ get_size (add b x) = get_size b + 1
        /\ forall i, 0 <= i < get_size b -> get (add b x) i = get b i).
Proof.
  intros b x HC. split.
  - intros Hfull.
    assert (Hbuf : _buffer (add b x) = tl (_buffer b) ++ [x]).
    { cbn [add _buffer]. unfold deque_append. cbv zeta. rewrite len_app_one.
      destruct (Z.ltb_spec (capacity b) (len (_buffer b) + 1)) as [_ | Hroom]; [| lia].
      destruct (_buffer b) as [| y d]; [unfold len in Hfull; simpl in Hfull; lia |].
      reflexivity. }
    split; [exact Hbuf |].
    destruct (_buffer b) as [| y d] eqn:Hd;
      [unfold len in Hfull; simpl in Hfull; lia |].
    cbn [tl] in Hbuf.
    split.
    + unfold get_size. rewrite Hbuf, Hd, len_app_one. unfold len. simpl. lia.
    + intros i Hi. unfold get. rewrite Hbuf, Hd, len_app_one.
      unfold len in *. simpl List.length in *.
      destruct (Z.leb_spec 0 i) as [_ | ?]; [| lia].
      destruct (Z.leb_spec 0 (i + 1)) as [_ | ?]; [| lia].
      destruct (Z.ltb_spec i (Z.of_nat (List.length d) + 1)) as [_ | ?]; [| lia].
      destruct (Z.ltb_spec (i + 1) (Z.of_nat (S (List.length d)))) as [_ | ?]; [| lia].
      simpl. replace (Z.to_nat (i + 1)) with (S (Z.to_nat i)) by lia.
      simpl. apply nth_error_app1. lia.
  - intros Hroom.
    assert (Hbuf : _buffer (add b x) = _buffer b ++ [x]).
    { cbn [add _buffer]. unfold deque_append. cbv zeta. rewrite len_app_one.
      destruct (Z.ltb_spec (capacity b) (len (_buffer b) + 1)) as [Hfull | _]; [lia |].
      reflexivity. }
    split; [exact Hbuf |]. split.
    + unfold get_size. now rewrite Hbuf, len_app_one.
    + intros i Hi. unfold get, get_size in *. rewrite Hbuf, len_app_one.
      destruct (Z.leb_spec 0 i) as [_ | ?]; [| lia].
      destruct (Z.ltb_spec i (len (_buffer b) + 1)) as [_ | ?]; [| lia].
      destruct (Z.ltb_spec i (len (_buffer b))) as [_ | ?]; [| lia].
      simpl. apply nth_error_app1. unfold len in Hi. lia.
Qed.

Lemma last_any_default (A : Type) (l : list A) :
  forall y a b : A, last (y :: l) a = last (y :: l) b.
Proof.
  induction l as [| z l IH]; intros y a b; [reflexivity |].
  change (last (z :: l) a = last (z :: l) b). apply IH.
Qed.

Lemma nth_error_last (A : Type) (l : list A) :
  forall a : A, nth_error (a :: l) (List.length l) = Some (last (a :: l) a).
Proof.
  induction l as [| y l IH]; intros a; [reflexivity |].
  change (nth_error (y :: l) (List.length l) = Some (last (y :: l) a)).
  rewrite IH. f_equal. apply last_any_default.
Qed.

Lemma last_map_some (A : Type) (l : list A) :
  forall a : A, last (map Some (a :: l)) None = Some (last (a :: l) a).
Proof.
  induction l as [| y l IH]; intros a; [reflexivity |].
  change (last (map Some (y :: l)) None = Some (last (y :: l) a)).
  rewrite IH. f_equal. apply last_any_default.
Qed.

(** X5: the frame [get_latest] answers is the one at index size-1, and
    [get_frame_range] is made of the numbers of the frame at index 0 and of
    the latest frame. *)
Theorem frame_range_is_oldest_and_latest :
  forall b,
    get_latest b = get b (get_size b - 1)
    /\ get_frame_range b
       = (option_map (@frame_number ndarray) (get b 0),
          option_map (@frame_number ndarray) (get_latest b)).
Proof.
  intros [C d]. unfold get_latest, get, get_size, get_frame_range.
  cbn [_buffer]. destruct d as [| a d].
  - split; reflexivity.
  - pose proof (last_map_some d a) as Hlast.
    unfold len. cbn [List.length].
    destruct (Z.gtb_spec (Z.of_nat (S (List.length d))) 0) as [_ | ?]; [| lia].
    destruct (Z.leb_spec 0 (Z.of_nat (S (List.length d)) - 1)) as [_ | ?]; [| lia].
    destruct (Z.ltb_spec (Z.of_nat (S (List.length d)) - 1)
                (Z.of_nat (S (List.length d)))) as [_ | ?]; [| lia].
    rewrite Hlast.
    replace (Z.to_nat (Z.of_nat (S (List.length d)) - 1)) with (List.length d) by lia.
    split; [now rewrite nth_error_last |].
    reflexivity.
Qed.

Lemma fill_percentage_bounded (b : FrameRingBuffer ndarray) :
  0 < capacity b -> len (_buffer b) <= capacity b ->
  exists q, get_fill_percentage b = Ok q /\ (0 <= q)%Q /\ (q <= 100)%Q.
Proof.
  intros HC Hlen. unfold get_fill_percentage, truediv, get_size.
  destruct (Z.eqb_spec (capacity b) 0) as [Hz | _]; [lia |].
  eexists. split; [reflexivity |].
  assert (Hnum : 0 <= len (_buffer b)) by (unfold len; lia).
  destruct (capacity b) as [| c | c] eqn:Hc; try lia.
  unfold Qdiv, Qmult, Qinv, Qle, inject_Z. cbn [Qnum Qden].
  split; nia.
Qed.

(** X6: with a capacity above 0 and no more frames than the capacity, the
    fill percentage is between 0 and 100; it is so for every buffer built by
    the constructor, whatever calls it receives. *)
Theorem fill_percentage_in_range :
  (forall b,
      0 < capacity b -> len (_buffer b) <= capacity b ->
      exists q, get_fill_percentage b = Ok q /\ (0 <= q)%Q /\ (q <= 100)%Q)
  /\ (forall (C : Z) b0 (os : list (op (ndarray := ndarray))),
         0 < C -> init C = Ok b0 ->
         exists q, get_fill_percentage (apply_ops b0 os) = Ok q
                   /\ (0 <= q)%Q /\ (q <= 100)%Q).
Proof.
  split; [exact fill_percentage_bounded |].
  intros C b0 os HC Hinit. unfold init in Hinit.
  destruct (C <? 0); [discriminate |]. injection Hinit as <-.
  assert (Hempty : len (_buffer (mkBuffer C (@nil (FrameData ndarray)))) <= C)
    by (unfold len; simpl; lia).
  destruct (@apply_ops_bounded os (mkBuffer C []) (Z.lt_le_incl _ _ HC) Hempty)
    as [Hcap Hsize].
  cbn [capacity] in Hcap, Hsize. apply fill_percentage_bounded; lia.
Qed.

End RingBufferMore.

(** ** More on the recording service *)

Section RecordingMore.
Import Recording RecordingOps.
Context {ndarray : Type}.
Variable cvtColor_RGB2BGR : ndarray -> option ndarray.
Implicit Types (self : RecordingService) (disk : Disk ndarray).

Lemma mkdir_images disk (folder : Path) : images (mkdir disk folder) = images disk.
Proof.
  unfold mkdir. now destruct (in_dec path_eq_dec folder (directories disk)).
Qed.


(** X7: a whole session.  From an idle service, [start_recording] (the
    directory can be made), then one [record_frame] per frame (each frame
    accepted by OpenCV), then [stop_recording]: the stop answers the path
    the start answered together with the number of writes that succeeded,
    that many files were written, and the service is idle again with its
    counter at 0. *)
Theorem recording_session_round_trip :
  forall name clock_name (calls : list (ndarray * bool)) self disk,
    is_recording self = false ->
    (forall f w, In (f, w) calls -> cvtColor_RGB2BGR f <> None) ->
    let folder :=
      path_div (output_folder self)
        (match name with Some n => n | None => clock_name end) in
    exists self1 self2 written,
      start_recording name clock_name true self disk
      = (Ok (path_str folder), self1, mkdir disk folder)
      /\ record_all cvtColor_RGB2BGR calls self1 (mkdir disk folder)
         = (Ok (map snd calls), self2,
            mkDisk (directories (mkdir disk folder)) (images disk ++ written))
      /\ List.length written = List.length (filter snd calls)
      /\ stop_recording self2
         = ((path_str folder, len (filter snd calls)),
            mkService (output_folder self) None 0 false).
Proof.
  intros name clock_name calls self disk Hidle Hcvt folder.
  set (self1 := mkService (output_folder self) (Some folder) 0 true).
  destruct (record_all_numbering cvtColor_RGB2BGR calls self1
              (mkdir disk folder) (folder := folder) eq_refl eq_refl Hcvt)
    as (self2 & written & Hrun & Hnames & Hcount & Hactive & Hdir & Hout).
  exists self1, self2, written.
  split.
  { unfold start_recording. rewrite Hidle. reflexivity. }
  split.
  { rewrite Hrun, mkdir_images. reflexivity. }
  split.
  { apply (f_equal (@List.length _)) in Hnames.
    rewrite !length_map in Hnames. now rewrite zseq_length in Hnames. }
  unfold stop_recording. rewrite Hactive, Hdir, Hcount, Hout. reflexivity.
Qed.

(** X8: [stop_recording] on an idle service answers the empty path and 0
    and changes nothing; so a second stop in a row does, whatever the first
    one found; and after a stop [record_frame] answers failure and writes
    nothing. *)
Theorem stop_recording_idempotent :
  (forall self,
      is_recording self = false -> stop_recording self = ((EmptyString, 0), self))
  /\ (forall self,
         stop_recording (snd (stop_recording self))
         = ((EmptyString, 0), snd (stop_recording self)))
  /\ (forall self disk write_ok (frame : ndarray),
         record_frame cvtColor_RGB2BGR write_ok (snd (stop_recording self)) disk frame
         = (Ok false, snd (stop_recording self), disk)).
Proof.
  split; [| split].
  - intros self Hidle. unfold stop_recording. now rewrite Hidle.
  - intros self. unfold stop_recording.
    destruct (is_recording self) eqn:Hrec; cbn [snd is_recording];
      [reflexivity | now rewrite Hrec].
  - intros self disk write_ok frame. unfold stop_recording, record_frame.
    destruct (is_recording self) eqn:Hrec; cbn [snd is_recording];
      [reflexivity | now rewrite Hrec].
Qed.

Lemma frame_filename_inj (a b : Z) :
  0 <= a -> 0 <= b -> frame_filename a = frame_filename b -> a = b.
Proof.
  intros Ha Hb Heq. unfold frame_filename in Heq.
  cbn [append] in Heq. injection Heq as Heq.
  apply string_append_cancel_r in Heq.
  pose proof (format_06d_parse Ha) as Hpa.
  pose proof (format_06d_parse Hb) as Hpb.
  rewrite Heq, Hpb in Hpa. injection Hpa as Hpa. lia.
Qed.

Lemma session_paths_nodup (folder : Path) (n : nat) :
  forall k, 0 <= k ->
    NoDup (map (fun i => path_div folder (frame_filename i)) (zseq k n)).
Proof.
  induction n as [| n IH]; intros k Hk.
  - constructor.
  - rewrite zseq_cons. cbn [map]. constructor; [| apply IH; lia].
    intros Hin. apply in_map_iff in Hin. destruct Hin as (i & Heq & Hi).
    apply zseq_lower in Hi. unfold path_div in Heq.
    apply app_inj_tail in Heq. destruct Heq as [_ Heq].
    apply frame_filename_inj in Heq; lia.
Qed.

(** X9: two counters, none negative, never give the same file name; so the
    calls of one session write every file under a path of its own: no file
    of a session is overwritten by a later frame of that session. *)
Theorem frame_filenames_distinct :
  (forall a b : Z,
      0 <= a -> 0 <= b -> frame_filename a = frame_filename b -> a = b)
  /\ (forall (calls : list (ndarray * bool)) self disk folder self' disk' results,
         is_recording self = true ->
         current_recording_folder self = Some folder ->
         0 <= frame_counter self ->
         (forall f w, In (f, w) calls -> cvtColor_RGB2BGR f <> None) ->
         record_all cvtColor_RGB2BGR calls self disk = (results, self', disk') ->
         exists written,
           images disk' = images disk ++ written
           /\ NoDup (map fst written)).
Proof.
  split; [exact frame_filename_inj |].
  intros calls self disk folder self' disk' results Hrec Hfolder Hcount Hcvt Hrun.
  destruct (record_all_numbering cvtColor_RGB2BGR calls self disk Hrec Hfolder Hcvt)
    as (self2 & written & Hrun2 & Hnames & _).
  rewrite Hrun2 in Hrun. injection Hrun as _ _ <-.
  exists written. split; [reflexivity |].
  rewrite Hnames. now apply session_paths_nodup.
Qed.

(** X10: faults leave the session as it was.  When OpenCV rejects the frame
    [record_frame] raises with the service and the disk unchanged: the
    session stays active and the counter is not advanced.  When the
    directory cannot be made [start_recording] raises and the service stays
    idle with its counter unchanged, but it has already stored the folder:
    [get_recording_folder] answers that path although nothing is being
    recorded, and [record_frame] still answers failure. *)
Theorem recording_faults_keep_session :
  (forall write_ok self disk folder (frame : ndarray),
      is_recording self = true ->
      current_recording_folder self = Some folder ->
      cvtColor_RGB2BGR frame = None ->
      record_frame cvtColor_RGB2BGR write_ok self disk frame
      = (Raise cv2_error, self, disk))
  /\ (forall name clock_name self disk,
         is_recording self = false ->
         let folder :=
           path_div (output_folder self)
             (match name with Some n => n | None => clock_name end) in
         exists self',
           start_recording name clock_name false self disk
           = (Raise OSError, self', disk)
           /\ is_recording_active self' = false
           /\ frame_counter self' = frame_counter self
           /\ get_frame_count self' = 0
           /\ get_recording_folder self' = Some (path_str folder)
           /\ forall write_ok (frame : ndarray),
               record_frame cvtColor_RGB2BGR write_ok self' disk frame
               = (Ok false, self', disk)).
Proof.
  split.
  - intros write_ok self disk folder frame Hrec Hfolder Hcvt.
    unfold record_frame. now rewrite Hrec, Hfolder, Hcvt.
  - intros name clock_name self disk Hidle folder.
    unfold start_recording. rewrite Hidle. cbv zeta. fold folder.
    eexists. split; [reflexivity |].
    unfold is_recording_active, get_frame_count, get_recording_folder, record_frame.
    cbn [is_recording frame_counter current_recording_folder].
    repeat split.
Qed.







End RecordingMore.

(** ** More on the playback controller *)

Section PlaybackMore.
Import Playback PlaybackOps.
Implicit Types (self : PlaybackController).

Ltac run_call :=
  unfold do_call, window_step_forward, window_step_backward,
    _play_loop_iteration, _play_loop_locked, set_fps, get_current_frame,
    seek, stop, set_total_frames, set_loop, set_frame_callback,
    step_forward, step_backward, play, pause,
    with_lock, acquire, release, fire, bind, ret, read, update;
  cbn [_fps _state _current_frame _loop_enabled _total_frames _lock
       _play_thread _stop_event _frame_callback callback_calls threads_started
       set_lock set_state set_current_frame set_stop_event launch_thread
       log_call fst snd negb PlaybackState_eqb].

(** X12: in every state of the controller [seek(n)] returns with the
    current frame set to [n] clamped into the valid range, hands that frame
    to the callback when one is set (at the ends of the range too), and
    leaves the transport state alone; the new frame is never negative and,
    when at least one frame is known, never beyond the last. *)
Theorem seek_clamps_and_fires :
  forall (n : Z) self,
    _lock self = false ->
    exists self',
      seek n self = Returned tt self'
      /\ _current_frame self' = clamp (_total_frames self) n
      /\ callback_calls self'
         = callback_calls self
           ++ (if _frame_callback self then [clamp (_total_frames self) n] else [])
      /\ _state self' = _state self
      /\ _lock self' = false
      /\ 0 <= _current_frame self'
      /\ (forall t, _total_frames self = Some t -> 1 <= t ->
                    _current_frame self' <= t - 1).
Proof.
  intros n [fps st cur lp total lk th ev cb calls k] Hlock;
    simpl in Hlock; subst lk.
  run_call. unfold clamp.
  destruct cb; cbn; eexists; (split; [reflexivity |]); cbn;
    rewrite ?app_nil_r; repeat split; try reflexivity;
    destruct total as [t |]; intros; try lia; try discriminate;
    match goal with
    | H : Some _ = Some _ |- _ => injection H as ->; lia
    end.
Qed.

(** X13: the window's step buttons seek to the neighbour of the current
    frame, so unlike the controller's own step methods they always call the
    callback: on the last frame a step forward hands the last frame to the
    callback again, on frame 0 a step backward hands 0 again.  Without a
    seekable source they do nothing. *)
Theorem window_step_fires_at_boundary :
  forall self,
    _lock self = false ->
    let cur := _current_frame self in
    let total := _total_frames self in
    (exists self',
        window_step_forward true self = Returned tt self'
        /\ _current_frame self' = clamp total (cur + 1)
        /\ callback_calls self'
           = callback_calls self
             ++ (if _frame_callback self then [clamp total (cur + 1)] else [])
        /\ (forall t, total = Some t -> 1 <= t -> cur = t - 1 ->
                      _current_frame self' = cur))
    /\ (exists self',
           window_step_backward true self = Returned tt self'
           /\ _current_frame self' = clamp total (cur - 1)
           /\ callback_calls self'
              = callback_calls self
                ++ (if _frame_callback self then [clamp total (cur - 1)] else [])
           /\ (cur = 0 -> _current_frame self' = 0))
    /\ window_step_forward false self = Returned tt self
    /\ window_step_backward false self = Returned tt self.
Proof.
  intros [fps st cur lp total lk th ev cb calls k] Hlock;
    simpl in Hlock; subst lk.
  cbv zeta. cbn [_current_frame _total_frames _frame_callback callback_calls].
  split; [| split; [| split; reflexivity]].
  - run_call. unfold clamp.
    destruct cb; cbn; eexists; (split; [reflexivity |]); cbn;
      rewrite ?app_nil_r; repeat split; try reflexivity;
      intros t Ht H1 Hcur; subst total; lia.
  - run_call. unfold clamp.
    destruct cb; cbn; eexists; (split; [reflexivity |]); cbn;
      rewrite ?app_nil_r; repeat split; try reflexivity;
      intros Hcur; subst cur; destruct total; lia.
Qed.


(** X15: the transport.  In every state [play()] returns in state PLAYING,
    moves no frame, calls no callback, and launches a drive loop only when
    it was not playing and no live loop exists; a further [play()] changes
    nothing.  [pause()] turns PLAYING into PAUSED and leaves the other
    states alone; a further [pause()] changes nothing.  [stop()] returns in
    state STOPPED on frame 0 with the stop event set, and calls no callback
    although the frame may have moved; a further [stop()] changes
    nothing. *)
Theorem transport_state_machine :
  forall (alive : bool) self,
    _lock self = false ->
    (exists s1,
        play alive self = Returned tt s1
        /\ _state s1 = PLAYING
        /\ _current_frame s1 = _current_frame self
        /\ callback_calls s1 = callback_calls self
        /\ threads_started s1
           = (threads_started self
              + match _state self with
                | PLAYING => 0
                | _ => if negb (_play_thread self) || negb alive then 1 else 0
                end)%nat
        /\ forall alive', play alive' s1 = Returned tt s1)
    /\ (exists s2,
           pause self = Returned tt s2
           /\ _state s2 = match _state self with PLAYING => PAUSED | s => s end
           /\ _current_frame s2 = _current_frame self
           /\ callback_calls s2 = callback_calls self
           /\ pause s2 = Returned tt s2)
    /\ (exists s3,
           stop self = Returned tt s3
           /\ _state s3 = STOPPED
           /\ _current_frame s3 = 0
           /\ _stop_event s3 = true
           /\ callback_calls s3 = callback_calls self
           /\ stop s3 = Returned tt s3).
Proof.
  intros alive [fps st cur lp total lk th ev cb calls k] Hlock;
    simpl in Hlock; subst lk.
  split; [| split].
  - run_call. destruct st; cbn;
      try (eexists; repeat split; cbn; lia);
      destruct (negb th || negb alive); cbn;
      eexists; repeat split; cbn; lia.
  - run_call. destruct st; cbn; eexists; repeat split.
  - run_call. cbn. eexists. repeat split.
Qed.

Lemma Qle_bool_false (a b : Q) : Qle_bool a b = false -> (b < a)%Q.
Proof.
  intros Hf. apply Qnot_le_lt. intros Hle.
  apply Qle_bool_iff in Hle. congruence.
Qed.

Lemma fps_clamped (fps : Q) :
  (1 <= py_max 1 (py_min fps 120))%Q /\ (py_max 1 (py_min fps 120) <= 120)%Q.
Proof.
  unfold py_max, py_min.
  destruct (Qle_bool fps 120) eqn:Hhi.
  - apply Qle_bool_iff in Hhi.
    destruct (Qle_bool fps 1) eqn:Hlo.
    + split; [apply Qle_refl | discriminate].
    + apply Qle_bool_false in Hlo. split; [now apply Qlt_le_weak | exact Hhi].
  - destruct (Qle_bool 120 1) eqn:Hlo.
    + discriminate.
    + split; [discriminate | apply Qle_refl].
Qed.

Lemma frame_time_bounds (fps : Q) :
  (1 <= fps)%Q -> (fps <= 120)%Q -> (1 / 120 <= 1 / fps)%Q /\ (1 / fps <= 1)%Q.
Proof.
  intros Hlo Hhi.
  destruct fps as [[| a | a] b]; unfold Qle, Qdiv, Qmult, Qinv in *;
    cbn [Qnum Qden] in *; lia.
Qed.

Lemma sleep_frame_time (fps : Q) :
  ((0 < fps)%Q -> sleep (1 / fps) = it_tick (1 / fps))
  /\ ((fps < 0)%Q -> sleep (1 / fps) = it_raise ValueError).
Proof.
  destruct fps as [[| a | a] b]; unfold sleep, Qle_bool, Qlt, Qdiv, Qmult, Qinv;
    cbn [Qnum Qden]; split; intros H; try lia; try reflexivity.
Qed.


(** X17: when the stop event is set, or the state is not PLAYING, a pass of
    the drive loop leaves the loop and changes nothing.  With a frame rate
    of 0, which the constructor accepts, a pass while playing raises
    [ZeroDivisionError] and the state stays PLAYING.  [set_fps] stores a
    rate between 1 and 120 whatever it is given, so that after it no pass
    raises, and a pass that completes sleeps between 1/120 s and 1 s. *)
Theorem drive_loop_exits_and_frame_rate :
  (forall self,
      _lock self = false ->
      _stop_event self = true \/ _state self <> PLAYING ->
      _play_loop_iteration self = Returned it_break self)
  /\ (forall self,
         _lock self = false ->
         _stop_event self = false ->
         _state self = PLAYING ->
         Qeq_bool (_fps self) 0 = true ->
         _play_loop_iteration self = Returned (it_raise ZeroDivisionError) self)
  /\ (forall (fps : Q) self,
         _lock self = false ->
         exists self',
           set_fps fps self = Returned tt self'
           /\ (1 <= _fps self')%Q /\ (_fps self' <= 120)%Q
           /\ _state self' = _state self
           /\ _current_frame self' = _current_frame self
           /\ callback_calls self' = callback_calls self
           /\ forall r self'',
               _play_loop_iteration self' = Returned r self'' ->
               match r with
               | it_break => True
               | it_raise _ => False
               | it_tick frame_time =>
                   (1 / 120 <= frame_time)%Q /\ (frame_time <= 1)%Q
               end).
Proof.
  split; [| split].
  - intros [fps st cur lp total lk th ev cb calls k] Hlock Hexit;
      simpl in Hlock, Hexit; subst lk.
    run_call. destruct ev; [reflexivity |].
    destruct Hexit as [Hev | Hst]; [discriminate |].
    destruct st; try reflexivity. now elim Hst.
  - intros [fps st cur lp total lk th ev cb calls k] Hlock Hev Hst Hfps;
      simpl in Hlock, Hev, Hst, Hfps; subst lk ev st.
    run_call. now rewrite Hfps.
  - intros fps [fps0 st cur lp total lk th ev cb calls k] Hlock;
      simpl in Hlock; subst lk.
    destruct (fps_clamped fps) as [Hlo Hhi].
    run_call. cbn. eexists. split; [reflexivity |]. cbn.
    split; [exact Hlo |]. split; [exact Hhi |].
    split; [reflexivity |]. split; [reflexivity |]. split; [reflexivity |].
    intros r self'' Hrun.
    assert (Hnz : Qeq_bool (py_max 1 (py_min fps 120)) 0 = false).
    { destruct (Qeq_bool (py_max 1 (py_min fps 120)) 0) eqn:Hz; [| reflexivity].
      apply Qeq_bool_iff in Hz. rewrite Hz in Hlo.
      exfalso. apply (Qle_not_lt _ _ Hlo). reflexivity. }
    revert Hrun. run_call. cbn.
    destruct ev; cbn; [intros Hrun; inversion Hrun; exact I |].
    destruct st; cbn; try (intros Hrun; inversion Hrun; exact I).
    rewrite Hnz. cbn.
    assert (Hsleep : sleep (1 / py_max 1 (py_min fps 120))
                     = it_tick (1 / py_max 1 (py_min fps 120))).
    { apply sleep_frame_time. eapply Qlt_le_trans; [| exact Hlo]. reflexivity. }
    destruct total as [t |];
      [destruct (cur >=? t - 1); destruct lp |];
      destruct cb; cbn; rewrite ?Hsleep; intros Hrun; inversion Hrun; subst;
      try exact I; now apply frame_time_bounds.
Qed.





(** X25: the window's play/pause button does not go through the
    controller's [toggle_play_pause] and always returns: while PLAYING it
    pauses; otherwise it seeks to the position of the source (clamped, and
    handed to the callback) and plays; without a seekable source it does
    nothing. *)
Theorem window_toggle_returns :
  forall (source_position : Z) (alive : bool) self,
    _lock self = false ->
    (_state self = PLAYING ->
     exists self',
       window_toggle_play_pause true source_position alive self
       = Returned tt self'
       /\ _state self' = PAUSED
       /\ _current_frame self' = _current_frame self
       /\ callback_calls self' = callback_calls self
       /\ _lock self' = false)
    /\ (_state self <> PLAYING ->
        exists self',
          window_toggle_play_pause true source_position alive self
          = Returned tt self'
          /\ _state self' = PLAYING
          /\ _current_frame self' = clamp (_total_frames self) source_position
          /\ callback_calls self'
             = callback_calls self
               ++ (if _frame_callback self
                   then [clamp (_total_frames self) source_position] else [])
          /\ _lock self' = false)
    /\ window_toggle_play_pause false source_position alive self
       = Returned tt self.
Proof.
  intros pos alive [fps st cur lp total lk th ev cb calls k] Hlock;
    simpl in Hlock; subst lk.
  cbn [_state _current_frame _total_frames _frame_callback callback_calls].
  split; [| split; [| reflexivity]].
  - intros ->. unfold window_toggle_play_pause, get_state. run_call. cbn.
    eexists. split; [reflexivity |]. cbn. repeat split.
  - intros Hst. unfold window_toggle_play_pause, get_state, clamp. run_call.
    destruct st; try (now elim Hst);
      destruct cb; cbn; destruct (negb th || negb alive); cbn;
      eexists; (split; [reflexivity |]); cbn; rewrite ?app_nil_r;
      repeat split.
Qed.

End PlaybackMore.

(** ** More on the processing pipeline *)

Section PipelineMore.
Import RingBuffer Pipeline PipelineInvariant PipelineOps.
Context {ndarray : Type}.
Variable cvtColor_RGB2BGR : ndarray -> option ndarray.
Implicit Types (p self : ProcessingPipeline (ndarray := ndarray)).

Ltac expose :=
  cbv beta iota zeta delta
    [algorithm source_buffer processed_buffer processing_queue
     acquisition_thread processing_thread is_running on_new_frame
     recording_service frames_acquired frames_processed stopping data_source
     disk delivered history
     with_algorithm with_source_buffer with_processed_buffer
     with_processing_queue with_acquisition_thread with_processing_thread
     with_is_running with_on_new_frame with_recording with_frames_acquired
     with_frames_processed with_stopping call_source deliver note
     step start stop_flag stop_join set_algorithm acq_test acq_read
     acq_buffer_add acq_put acq_count proc_test proc_get proc_process
     proc_buffer_add proc_record proc_count proc_callback thread_gone
     snd fst negb andb] in *.

Ltac cases_of Hs :=
  repeat (match type of Hs with
          | context [if ?b then _ else _] => is_var b; destruct b eqn:?
          | context [match ?x with _ => _ end] => is_var x; destruct x eqn:?
          | context [if ?b then _ else _] => destruct b eqn:?
          | context [match ?x with _ => _ end] => destruct x eqn:?
          end; try discriminate Hs);
  injection Hs as <-.

Ltac unfold_more :=
  unfold inv, threads_inv, count_inv, numbers_inv, known_inv,
    first_session_inv, transformed_inv, bounded_inv in *;
  cbn [algorithm source_buffer processed_buffer processing_queue
       acquisition_thread processing_thread is_running on_new_frame
       recording_service frames_acquired frames_processed stopping data_source
       disk delivered history acq_created acq_pushed acq_holds proc_in_flight
       proc_uncounted proc_holds threads_idle acquired_numbers session_numbers
       sessions transformed frame_number app acq_buffered proc_pending
       add capacity _buffer] in *.

Lemma bounded_step p l p' :
  bounded_inv p -> step cvtColor_RGB2BGR p l = Some p' -> bounded_inv p'.
Proof.
  intros HB Hs.
  destruct p as [alg sb pb q acq proc rn cb svc fa fp stp ds dk dl h].
  destruct l; expose; cases_of Hs.
  all: unfold_more.
  all: destruct HB as (Hq & Hc & Hs & Hcp & Hp).
  all: repeat match goal with |- _ /\ _ => split end.
  all: try assumption.
  all: try (apply deque_append_len; assumption || lia).
  all: try (unfold len in *; rewrite ?length_app in *; cbn [List.length] in *; lia).
Qed.

Lemma sorted_skipn (k : nat) (l : list Z) :
  StronglySorted Z.lt l -> StronglySorted Z.lt (skipn k l).
Proof.
  revert l. induction k as [| k IH]; intros l Hl; [exact Hl |].
  destruct l as [| a l]; [constructor |]. simpl. apply IH.
  now inversion Hl.
Qed.

Lemma sorted_snoc (l : list Z) (x : Z) :
  StronglySorted Z.lt l -> (forall n, In n l -> n < x) ->
  StronglySorted Z.lt (l ++ [x]).
Proof.
  induction l as [| a l IH]; intros Hl Hlt; simpl.
  - constructor; constructor.
  - inversion Hl as [| ? ? Hl' Ha]; subst. constructor.
    + apply IH; [exact Hl' |]. intros n Hn. apply Hlt. now right.
    + apply Forall_app. split; [exact Ha |]. constructor; [| constructor].
      apply Hlt. now left.
Qed.

Lemma sorted_remove (l1 l2 l3 : list Z) :
  StronglySorted Z.lt (l1 ++ l2 ++ l3) -> StronglySorted Z.lt (l1 ++ l3).
Proof.
  induction l1 as [| a l1 IH]; simpl; intros Hs.
  - induction l2 as [| b l2 IH2]; simpl in Hs; [exact Hs |].
    apply IH2. now inversion Hs.
  - inversion Hs as [| ? ? Hs' Ha]; subst. constructor; [now apply IH |].
    rewrite Forall_app in Ha. destruct Ha as [Ha1 Ha23].
    rewrite Forall_app in Ha23. apply Forall_app. split; [exact Ha1 | apply Ha23].
Qed.

(** The numbers of a deque after [append]: those before, then the new one,
    less the first when the deque was full. *)
Lemma numbers_deque_append (C : Z) (d : list (FrameData ndarray))
  (x : FrameData ndarray) :
  exists k : nat,
    (k <= 1)%nat
    /\ numbers (deque_append C d x) = skipn k (numbers d ++ [frame_number x]).
Proof.
  unfold deque_append, numbers. cbv zeta.
  destruct (C <? len (d ++ [x])).
  - exists 1%nat. split; [lia |].
    destruct d as [| y d]; [reflexivity |]. simpl. now rewrite map_app.
  - exists 0%nat. split; [lia |]. now rewrite map_app.
Qed.

Lemma skipn_app_short (k : nat) (l1 l2 : list Z) :
  (k <= List.length l1)%nat -> skipn k l1 ++ l2 = skipn k (l1 ++ l2).
Proof.
  intros Hk. rewrite skipn_app.
  replace (k - List.length l1)%nat with O by lia. reflexivity.
Qed.

Lemma in_skipn (k : nat) (l : list Z) (n : Z) : In n (skipn k l) -> In n l.
Proof.
  revert l. induction k as [| k IH]; intros l Hin; [exact Hin |].
  destruct l as [| a l]; [contradiction |]. right. now apply IH.
Qed.

Lemma ordered_step p l p' :
  inv p -> ordered_inv p -> step cvtColor_RGB2BGR p l = Some p' -> ordered_inv p'.
Proof.
  intros HI HO Hs.
  destruct p as [alg sb pb q acq proc rn cb svc fa fp stp ds dk dl h].
  destruct l; expose; cases_of Hs.
  all: unfold ordered_inv in *; unfold_more.
  all: destruct HI as (Ht & _ & (Hn0 & _ & Hnh) & _ & _ & _).
  all: destruct HO as (Hsb & Hsbound & Hpath & Hpbound).
  all: try (specialize (Ht eq_refl eq_refl); destruct acq; try discriminate Ht;
            destruct proc; try discriminate Ht).
  all: unfold_more.
  all: rewrite ?Z.add_0_r in *.
  all: repeat match goal with |- _ /\ _ => split end.
  all: try assumption.
  all: try (intros n Hin; specialize (Hsbound n Hin); lia).
  all: try (intros n Hin; specialize (Hpbound n Hin); lia).
  - (* source_buffer.add: sorted *)
    destruct (numbers_deque_append (capacity sb) (_buffer sb) frame_data)
      as (k & _ & ->).
    apply sorted_skipn, sorted_snoc; [exact Hsb |].
    intros n Hin. rewrite (Hnh frame_data (or_introl eq_refl)).
    now apply Hsbound.
  - (* source_buffer.add: bound *)
    intros n Hin.
    destruct (numbers_deque_append (capacity sb) (_buffer sb) frame_data)
      as (k & _ & Heq).
    rewrite Heq in Hin. apply in_skipn, in_app_or in Hin.
    destruct Hin as [Hin | [<- | []]].
    + specialize (Hsbound n Hin). lia.
    + rewrite (Hnh frame_data (or_introl eq_refl)). lia.
  - (* queue.put: sorted *)
    unfold numbers at 2. rewrite map_app. fold (numbers q). cbn [map].
    rewrite !app_assoc. apply sorted_snoc.
    + rewrite <- app_assoc. exact Hpath.
    + intros n Hin. rewrite <- app_assoc in Hin.
      rewrite (Hnh frame_data (or_introl eq_refl)). now apply Hpbound.
  - (* queue.put: bound *)
    intros n Hin. unfold numbers at 2 in Hin. rewrite map_app in Hin.
    fold (numbers q) in Hin. cbn [map] in Hin. rewrite !app_assoc in Hin.
    apply in_app_or in Hin. destruct Hin as [Hin | [<- | []]].
    + rewrite <- app_assoc in Hin. specialize (Hpbound n Hin). lia.
    + rewrite (Hnh frame_data (or_introl eq_refl)). lia.
  - (* transform fault: sorted *)
    apply (@sorted_remove (numbers (_buffer pb)) [frame_number frame_data]
             (numbers q)).
    exact Hpath.
  - (* transform fault: bound *)
    intros n Hin. apply Hpbound. apply in_app_or in Hin.
    apply in_or_app. destruct Hin as [Hin | Hin]; [now left | right].
    now right.
  - (* processed_buffer.add: sorted *)
    destruct (numbers_deque_append (capacity pb) (_buffer pb) processed_data)
      as (k & Hk & ->).
    rewrite skipn_app_short by (rewrite length_app; simpl; lia).
    apply sorted_skipn. rewrite <- app_assoc. exact Hpath.
  - (* processed_buffer.add: bound *)
    intros n Hin.
    destruct (numbers_deque_append (capacity pb) (_buffer pb) processed_data)
      as (k & Hk & Heq).
    rewrite Heq in Hin.
    rewrite skipn_app_short in Hin by (rewrite length_app; simpl; lia).
    apply in_skipn in Hin. rewrite <- app_assoc in Hin. now apply Hpbound.
Qed.

Lemma in_deque_append (C : Z) (d : list (FrameData ndarray))
  (x y : FrameData ndarray) :
  In y (deque_append C d x) -> y = x \/ In y d.
Proof.
  unfold deque_append. cbv zeta.
  destruct (C <? len (d ++ [x])); intros Hin.
  - destruct d as [| z d]; simpl in Hin; [contradiction |].
    apply in_app_or in Hin. destruct Hin as [Hin | [<- | []]]; auto.
    right. now right.
  - apply in_app_or in Hin. destruct Hin as [Hin | [<- | []]]; auto.
Qed.

Ltac member :=
  solve [ assumption
        | left; reflexivity
        | apply in_or_app; left; member
        | apply in_or_app; right; member
        | right; member ].

Ltac split_membership :=
  repeat match goal with
         | H : In _ (_ ++ _) |- _ => apply in_app_or in H
         | H : In _ (_ :: _) |- _ => destruct H as [H | H]
         | H : In _ [] |- _ => destruct H
         | H : _ \/ _ |- _ => destruct H as [H | H]
         | H : In _ (deque_append _ _ _) |- _ => apply in_deque_append in H
         | H : (_, _) = (_, _) |- _ => injection H as <- <-
         | H : ev_processed _ _ = ev_processed _ _ |- _ => injection H as <- <-
         | H : ev_acquired _ = ev_processed _ _ |- _ => discriminate H
         | H : ev_session_start = ev_processed _ _ |- _ => discriminate H
         end.

Lemma provenance_step p l p' :
  provenance_inv p -> step cvtColor_RGB2BGR p l = Some p' -> provenance_inv p'.
Proof.
  intros HP Hs.
  destruct p as [alg sb pb q acq proc rn cb svc fa fp stp ds dk dl h].
  destruct l; expose; cases_of Hs.
  all: unfold provenance_inv, held_sources, held_pair in *; unfold_more.
  all: destruct HP as (Hsrc & Hpb & Hpair & Hev & Hdl).
  all: repeat match goal with |- _ /\ _ => split end.
  all: try assumption.
  all: try (unfold len in *; rewrite ?length_app in *; cbn [List.length] in *;
            destruct proc; lia).
  all: try (intros fd Hin; split_membership; subst;
            solve [ left; reflexivity
                  | apply Hsrc; member
                  | right; apply Hsrc; member ]).
  all: try (intros fd pd Hin; split_membership; subst;
            solve [ left; reflexivity
                  | apply Hpair; member
                  | right; apply Hpair; member ]).
  all: try (intros pd Hin; split_membership; subst;
            solve [ destruct (Hpb pd Hin) as (fd' & Hfd'); exists fd'; member
                  | eexists; apply Hpair; member
                  | eexists; right; apply Hpair; member ]).
  all: try (intros fd pd Hin; split_membership; subst;
            solve [ destruct (Hev fd pd Hin) as [Ha Hn]; split; [member | exact Hn]
                  | split; [right; apply Hsrc; member | reflexivity] ]).
Qed.

Lemma capacity_step p l p' :
  step cvtColor_RGB2BGR p l = Some p' ->
  capacity (source_buffer p') = capacity (source_buffer p)
  /\ capacity (processed_buffer p') = capacity (processed_buffer p).
Proof.
  intros Hs.
  destruct p as [alg sb pb q acq proc rn cb svc fa fp stp ds dk dl h].
  destruct l; expose; cases_of Hs; unfold_more; split; reflexivity.
Qed.

Lemma more_init (alg : IDetectionAlgorithm ndarray) (buffer_size : Z) p :
  Pipeline.init alg buffer_size = Ok p ->
  bounded_inv p /\ ordered_inv p /\ provenance_inv p
  /\ capacity (source_buffer p) = buffer_size.
Proof.
  unfold Pipeline.init, RingBuffer.init.
  destruct (Z.ltb_spec buffer_size 0) as [Hneg | Hpos]; [discriminate |].
  intros Hp. injection Hp as <-.
  unfold bounded_inv, ordered_inv, provenance_inv, held_sources, held_pair,
    numbers, maxsize, len.
  cbn. repeat split; try lia; try constructor; try contradiction;
    intros; contradiction.
Qed.

Lemma more_run ls :
  forall p p',
    inv p -> bounded_inv p -> ordered_inv p -> provenance_inv p ->
    run cvtColor_RGB2BGR p ls = Some p' ->
    inv p' /\ bounded_inv p' /\ ordered_inv p' /\ provenance_inv p'
    /\ capacity (source_buffer p') = capacity (source_buffer p).
Proof.
  induction ls as [| l ls IH]; intros p p' HI HB HO HP Hrun; simpl in Hrun.
  - injection Hrun as <-. auto 10.
  - destruct (step cvtColor_RGB2BGR p l) as [p1 |] eqn:Hstep; [| discriminate].
    destruct (@capacity_step _ _ _ Hstep) as [Hcap _].
    destruct (IH p1 p') as (HI' & HB' & HO' & HP' & Hcap'); try assumption.
    + eapply inv_step; eassumption.
    + eapply bounded_step; eassumption.
    + eapply ordered_step; eassumption.
    + eapply provenance_step; eassumption.
    + split; [exact HI' |]. split; [exact HB' |]. split; [exact HO' |].
      split; [exact HP' | congruence].
Qed.

Lemma everything_holds (alg : IDetectionAlgorithm ndarray) (buffer_size : Z)
  p0 ls p :
  Pipeline.init alg buffer_size = Ok p0 ->
  run cvtColor_RGB2BGR p0 ls = Some p ->
  inv p /\ bounded_inv p /\ ordered_inv p /\ provenance_inv p
  /\ capacity (source_buffer p) = buffer_size.
Proof.
  intros Hinit Hrun.
  destruct (@more_init _ _ _ Hinit) as (HB & HO & HP & Hcap).
  assert (HI : inv p0) by (eapply inv_init; exact Hinit).
  destruct (@more_run ls _ _ HI HB HO HP Hrun)
    as (HI' & HB' & HO' & HP' & Hcap').
  split; [exact HI' |]. split; [exact HB' |]. split; [exact HO' |].
  split; [exact HP' | congruence].
Qed.

(** X18: in every state a pipeline built with [buffer_size] can reach, the
    hand-off queue holds at most 10 items and each of the two buffers has
    capacity [buffer_size] and holds at most that many frames; with
    [buffer_size] above 0 both fill percentages are between 0 and 100, and
    with [buffer_size] 0, which the constructor accepts, asking for a fill
    percentage (as [get_buffer_info] does) raises [ZeroDivisionError]. *)
Theorem pipeline_stays_bounded :
  forall (alg : IDetectionAlgorithm ndarray) (buffer_size : Z) p0 ls p,
    Pipeline.init alg buffer_size = Ok p0 ->
    run cvtColor_RGB2BGR p0 ls = Some p ->
    len (processing_queue p) <= 10
    /\ get_capacity (source_buffer p) = buffer_size
    /\ get_capacity (processed_buffer p) = buffer_size
    /\ 0 <= get_size (source_buffer p) <= buffer_size
    /\ 0 <= get_size (processed_buffer p) <= buffer_size
    /\ (0 < buffer_size ->
        exists q1 q2,
          get_fill_percentage (source_buffer p) = Ok q1
          /\ get_fill_percentage (processed_buffer p) = Ok q2
          /\ (0 <= q1)%Q /\ (q1 <= 100)%Q /\ (0 <= q2)%Q /\ (q2 <= 100)%Q)
    /\ (buffer_size = 0 ->
        get_fill_percentage (source_buffer p) = Raise ZeroDivisionError
        /\ get_fill_percentage (processed_buffer p) = Raise ZeroDivisionError).
Proof.
  intros alg buffer_size p0 ls p Hinit Hrun.
  destruct (@everything_holds _ _ _ _ _ Hinit Hrun)
    as (_ & (Hq & Hc & Hs & Hcp & Hp) & _ & _ & Hcap).
  unfold get_capacity, get_size. rewrite Hcp, Hcap in *.
  split; [exact Hq |]. split; [reflexivity |]. split; [reflexivity |].
  split; [unfold len in *; lia |]. split; [unfold len in *; lia |].
  split.
  - intros Hpos.
    destruct (@fill_percentage_bounded _ (source_buffer p)) as (q1 & H1 & H1lo & H1hi);
      try lia.
    destruct (@fill_percentage_bounded _ (processed_buffer p)) as (q2 & H2 & H2lo & H2hi);
      try lia.
    exists q1, q2. auto 10.
  - intros Hzero. unfold get_fill_percentage, truediv.
    rewrite Hcp, Hcap, Hzero. split; reflexivity.
Qed.

(** X19: the push onto the hand-off queue.  When the queue already holds 10
    items the frame in hand is not queued and the queue stays as it was,
    but the frame has entered the source buffer, where it is the latest,
    and it is counted as acquired; when the queue has room the frame goes
    to its end. *)
Theorem full_queue_drops_from_processing_only :
  forall p fd,
    acquisition_thread p = acq_at_add fd ->
    0 < capacity (source_buffer p) ->
    exists p',
      run cvtColor_RGB2BGR p [do_acq_buffer_add; do_acq_put; do_acq_count]
      = Some p'
      /\ get_latest (source_buffer p') = Some fd
      /\ frames_acquired p' = frames_acquired p + 1
      /\ acquisition_thread p' = acq_at_test
      /\ processed_buffer p' = processed_buffer p
      /\ (10 <= len (processing_queue p) ->
          processing_queue p' = processing_queue p)
      /\ (len (processing_queue p) < 10 ->
          processing_queue p' = processing_queue p ++ [fd]).
Proof.
  intros [alg sb pb q acq proc rn cb svc fa fp stp ds dk dl h] fd Hpc Hcap.
  simpl in Hpc, Hcap. subst acq.
  cbn [run step]. expose. unfold maxsize.
  destruct (Z.ltb_spec (len q) 10) as [Hroom | Hfull];
    eexists; (split; [reflexivity |]); expose;
    (split; [now apply get_latest_add |]);
    repeat split; intros; try reflexivity; lia.
Qed.

Lemma sorted_app_l (l1 l2 : list Z) :
  StronglySorted Z.lt (l1 ++ l2) -> StronglySorted Z.lt l1.
Proof.
  induction l1 as [| a l1 IH]; simpl; intros Hs; [constructor |].
  inversion Hs as [| ? ? Hs' Ha]; subst. constructor; [now apply IH |].
  rewrite Forall_app in Ha. apply Ha.
Qed.

Lemma sorted_app_r (l1 l2 : list Z) :
  StronglySorted Z.lt (l1 ++ l2) -> StronglySorted Z.lt l2.
Proof.
  induction l1 as [| a l1 IH]; simpl; intros Hs; [exact Hs |].
  apply IH. now inversion Hs.
Qed.

Lemma sorted_app_lt (l1 l2 : list Z) :
  StronglySorted Z.lt (l1 ++ l2) ->
  forall a b, In a l1 -> In b l2 -> a < b.
Proof.
  induction l1 as [| x l1 IH]; simpl; intros Hs a b Ha Hb; [contradiction |].
  inversion Hs as [| ? ? Hs' Hx]; subst.
  destruct Ha as [<- | Ha].
  - rewrite Forall_forall in Hx. apply Hx. apply in_or_app. now right.
  - now apply (IH Hs').
Qed.

(** What holds of the pipeline of a system that was just built and in
    which no [stop()] has returned on a timeout. *)
Lemma everything_holds_joined (alg : IDetectionAlgorithm ndarray)
  (buffer_size : Z) p0 ms (s : PipelineSystem.System (ndarray := ndarray)) :
  Pipeline.init alg buffer_size = Ok p0 ->
  PipelineSystem.run cvtColor_RGB2BGR (PipelineSystem.boot p0) ms = Some s ->
  forallb (@PipelineSystem.joined ndarray) ms = true ->
  inv (PipelineSystem.pipeline s)
  /\ bounded_inv (PipelineSystem.pipeline s)
  /\ ordered_inv (PipelineSystem.pipeline s)
  /\ provenance_inv (PipelineSystem.pipeline s)
  /\ capacity (source_buffer (PipelineSystem.pipeline s)) = buffer_size.
Proof.
  intros Hinit Hrun Hms.
  eapply everything_holds; [exact Hinit |].
  eapply joined_from_init; eassumption.
Qed.

(** X20: as long as the calls on the pipeline come from one thread,
    [read_frame()] and [get_info()] return, and no [stop()] has returned on
    a timeout of [join], so that a single acquisition loop gives the
    numbers, the frame numbers grow strictly along the source buffer, along
    the processed buffer and along the hand-off queue (so no buffer holds
    two frames with one number), every processed frame is older than every
    queued one, and no number in the source buffer exceeds the acquired
    count. *)
Theorem frame_numbers_stay_ordered :
  forall (alg : IDetectionAlgorithm ndarray) (buffer_size : Z) p0 ms
         (s : PipelineSystem.System (ndarray := ndarray)),
    Pipeline.init alg buffer_size = Ok p0 ->
    PipelineSystem.run cvtColor_RGB2BGR (PipelineSystem.boot p0) ms = Some s ->
    forallb (@PipelineSystem.joined ndarray) ms = true ->
    let p := PipelineSystem.pipeline s in
    StronglySorted Z.lt (get_all_frame_numbers (source_buffer p))
    /\ StronglySorted Z.lt (get_all_frame_numbers (processed_buffer p))
    /\ StronglySorted Z.lt (numbers (processing_queue p))
    /\ (forall a b,
           In a (get_all_frame_numbers (processed_buffer p)) ->
           In b (numbers (processing_queue p)) -> a < b)
    /\ (forall n, In n (get_all_frame_numbers (source_buffer p)) ->
                  n <= frames_acquired p).
Proof.
  intros alg buffer_size p0 ms s Hinit Hrun Hms p.
  destruct (@everything_holds_joined _ _ _ _ _ Hinit Hrun Hms)
    as (_ & _ & (Hsb & Hsbound & Hpath & _) & _ & _).
  fold p in Hsb, Hsbound, Hpath.
  change (get_all_frame_numbers (source_buffer p))
    with (numbers (_buffer (source_buffer p))).
  change (get_all_frame_numbers (processed_buffer p))
    with (numbers (_buffer (processed_buffer p))).
  split; [exact Hsb |].
  split; [eapply sorted_app_l; exact Hpath |].
  split; [eapply sorted_app_r, sorted_app_r; exact Hpath |].
  split.
  - intros a b Ha Hb. eapply sorted_app_lt; [exact Hpath | exact Ha |].
    apply in_or_app. now right.
  - intros n Hn. specialize (Hsbound n Hn).
    destruct (acquisition_thread p); simpl in Hsbound; lia.
Qed.

Lemma acquired_in (h : list (event (ndarray := ndarray))) (fd : FrameData ndarray) :
  In (ev_acquired fd) h -> In (frame_number fd) (acquired_numbers h).
Proof.
  induction h as [| e h IH]; simpl; [contradiction |].
  intros [-> | Hin]; [now left |].
  destruct e; simpl; auto.
Qed.

Lemma acquired_unique (h : list (event (ndarray := ndarray))) :
  NoDup (acquired_numbers h) ->
  forall a b,
    In (ev_acquired a) h -> In (ev_acquired b) h ->
    frame_number a = frame_number b -> a = b.
Proof.
  induction h as [| e h IH]; simpl; intros Hnd a b Ha Hb Heq; [contradiction |].
  destruct e as [| fd | fd pd]; simpl in Hnd.
  - destruct Ha as [Ha | Ha]; [discriminate |].
    destruct Hb as [Hb | Hb]; [discriminate |]. now apply IH.
  - inversion Hnd as [| ? ? Hnotin Hnd']; subst.
    destruct Ha as [Ha | Ha]; destruct Hb as [Hb | Hb].
    + injection Ha as <-. now injection Hb as <-.
    + injection Ha as <-. exfalso. apply Hnotin. rewrite Heq.
      now apply acquired_in.
    + injection Hb as <-. exfalso. apply Hnotin. rewrite <- Heq.
      now apply acquired_in.
    + now apply IH.
  - destruct Ha as [Ha | Ha]; [discriminate |].
    destruct Hb as [Hb | Hb]; [discriminate |]. now apply IH.
Qed.

Lemma zseq_nodup (n : nat) : forall k, NoDup (zseq k n).
Proof.
  induction n as [| n IH]; intros k; [constructor |].
  rewrite zseq_cons. constructor; [| apply IH].
  intros Hin. apply zseq_lower in Hin. lia.
Qed.

Lemma acquired_numbers_nodup p : inv p -> NoDup (acquired_numbers (history p)).
Proof.
  intros (_ & _ & (_ & Hn & _) & _). rewrite Hn.
  apply NoDup_rev, zseq_nodup.
Qed.

Lemma sorted_numbers_unique (l : list (FrameData ndarray)) :
  StronglySorted Z.lt (numbers l) ->
  forall a b, In a l -> In b l -> frame_number a = frame_number b -> a = b.
Proof.
  induction l as [| x l IH]; simpl; intros Hs a b Ha Hb Heq; [contradiction |].
  inversion Hs as [| ? ? Hs' Hx]; subst. rewrite Forall_forall in Hx.
  destruct Ha as [<- | Ha]; destruct Hb as [<- | Hb]; try reflexivity.
  - assert (Hlt : frame_number x < frame_number b)
      by (apply Hx; now apply in_map).
    lia.
  - assert (Hlt : frame_number x < frame_number a)
      by (apply Hx; now apply in_map).
    lia.
  - now apply IH.
Qed.

(** X21: as long as the calls on the pipeline come from one thread,
    [read_frame()] and [get_info()] return, and no [stop()] has returned on
    a timeout of [join], when [get_frame_by_number(n)] answers a source
    frame and a processed frame, both carry the number [n], the processed
    frame was computed from that very source frame, and no other frame of
    either buffer carries the number [n]. *)
Theorem frames_by_number_are_matched :
  forall (alg : IDetectionAlgorithm ndarray) (buffer_size : Z) p0 ms
         (s : PipelineSystem.System (ndarray := ndarray))
         (n : Z) source processed,
    Pipeline.init alg buffer_size = Ok p0 ->
    PipelineSystem.run cvtColor_RGB2BGR (PipelineSystem.boot p0) ms = Some s ->
    forallb (@PipelineSystem.joined ndarray) ms = true ->
    let p := PipelineSystem.pipeline s in
    get_frame_by_number p n = (Some source, Some processed) ->
    frame_number source = n
    /\ frame_number processed = n
    /\ In (ev_processed source processed) (history p)
    /\ (forall x, In x (_buffer (source_buffer p)) -> frame_number x = n ->
                  x = source)
    /\ (forall x, In x (_buffer (processed_buffer p)) -> frame_number x = n ->
                  x = processed).
Proof.
  intros alg buffer_size p0 ms s n source processed Hinit Hrun Hms p Hget.
  destruct (@everything_holds_joined _ _ _ _ _ Hinit Hrun Hms)
    as (HI & _ & (Hsb & _ & Hpath & _) & (Hsrc & Hpb & _ & Hev & _) & _).
  fold p in HI, Hsb, Hpath, Hsrc, Hpb, Hev.
  unfold get_frame_by_number, get_by_frame_number in Hget.
  injection Hget as Hs Hp.
  apply find_some in Hs. destruct Hs as [Hs_in Hs_n].
  apply find_some in Hp. destruct Hp as [Hp_in Hp_n].
  apply in_rev in Hs_in. apply in_rev in Hp_in.
  apply Z.eqb_eq in Hs_n. apply Z.eqb_eq in Hp_n.
  split; [exact Hs_n |]. split; [exact Hp_n |]. split; [| split].
  - destruct (Hpb processed Hp_in) as (fd & Hfd).
    destruct (Hev fd processed Hfd) as [Hacq Hnum].
    assert (Hsame : fd = source).
    { eapply acquired_unique;
        [apply acquired_numbers_nodup; exact HI | exact Hacq | |].
      - apply Hsrc. apply in_or_app. right. apply in_or_app. now left.
      - lia. }
    now subst fd.
  - intros x Hx Hn.
    eapply sorted_numbers_unique; [exact Hsb | exact Hx | exact Hs_in | lia].
  - intros x Hx Hn.
    eapply sorted_numbers_unique;
      [eapply sorted_app_l; exact Hpath | exact Hx | exact Hp_in | lia].
Qed.

(** X24: as long as the calls on the pipeline come from one thread,
    [read_frame()] and [get_info()] return, and no [stop()] has returned on
    a timeout of [join], every pair the frame-ready callback was called
    with is a source frame created by the acquisition loop together with
    the frame a transform made of it, under one frame number; and the
    callback was called at most once per counted frame. *)
Theorem callback_gets_matched_pairs :
  forall (alg : IDetectionAlgorithm ndarray) (buffer_size : Z) p0 ms
         (s : PipelineSystem.System (ndarray := ndarray)),
    Pipeline.init alg buffer_size = Ok p0 ->
    PipelineSystem.run cvtColor_RGB2BGR (PipelineSystem.boot p0) ms = Some s ->
    forallb (@PipelineSystem.joined ndarray) ms = true ->
    let p := PipelineSystem.pipeline s in
    (forall fd pd,
        In (fd, pd) (delivered p) ->
        In (ev_processed fd pd) (history p)
        /\ In (ev_acquired fd) (history p)
        /\ frame_number pd = frame_number fd)
    /\ len (delivered p) <= frames_processed p.
Proof.
  intros alg buffer_size p0 ms s Hinit Hrun Hms p.
  destruct (@everything_holds_joined _ _ _ _ _ Hinit Hrun Hms)
    as (_ & _ & _ & (_ & _ & Hpair & Hev & Hdl) & _).
  fold p in Hpair, Hev, Hdl.
  split.
  - intros fd pd Hin.
    assert (Hproc : In (ev_processed fd pd) (history p))
      by (apply Hpair; apply in_or_app; now right).
    destruct (Hev fd pd Hproc) as [Hacq Hnum]. auto.
  - destruct (processing_thread p); lia.
Qed.


Lemma thread_step_decreases p l p' :
  is_running p = false ->
  is_thread_label l = true ->
  step cvtColor_RGB2BGR p l = Some p' ->
  is_running p' = false /\ (S (remaining p') <= remaining p)%nat.
Proof.
  intros Hstopped Hl Hs.
  destruct p as [alg sb pb q acq proc rn cb svc fa fp stp ds dk dl h].
  simpl in Hstopped. subst rn.
  destruct l; try discriminate Hl; expose; cases_of Hs;
    unfold remaining; cbn; split; try reflexivity; lia.
Qed.

Lemma thread_steps_bounded ls :
  forall p p',
    is_running p = false ->
    Forall (fun l => is_thread_label l = true) ls ->
    run cvtColor_RGB2BGR p ls = Some p' ->
    is_running p' = false
    /\ (List.length ls + remaining p' <= remaining p)%nat.
Proof.
  induction ls as [| l ls IH]; intros p p' Hstopped Hls Hrun; simpl in Hrun.
  - injection Hrun as <-. split; [exact Hstopped | simpl; lia].
  - destruct (step cvtColor_RGB2BGR p l) as [p1 |] eqn:Hstep; [| discriminate].
    inversion Hls as [| ? ? Hl Hls']; subst.
    destruct (thread_step_decreases _ _ Hstopped Hl Hstep) as [Hstopped1 Hdec].
    destruct (IH p1 p' Hstopped1 Hls' Hrun) as [Hstopped' Hbound].
    split; [exact Hstopped' | simpl; lia].
Qed.

(** X22: once the running flag is down the two loops leave within 12 of
    their own statements, however these are interleaved: every run of loop
    statements from such a state is at most 12 long, keeps the flag down,
    and uses up the statements the loops have left; as long as a loop has
    not left, one of them can make a move; and when both have left the
    waiting [stop()] can return. *)
Theorem loops_leave_after_stop :
  (forall p ls p',
      is_running p = false ->
      Forall (fun l => is_thread_label l = true) ls ->
      run cvtColor_RGB2BGR p ls = Some p' ->
      is_running p' = false
      /\ (List.length ls + remaining p' <= remaining p)%nat
      /\ (List.length ls <= 12)%nat)
  /\ (forall p,
         is_running p = false ->
         remaining p <> O ->
         exists l p',
           is_thread_label l = true /\ step cvtColor_RGB2BGR p l = Some p')
  /\ (forall p,
         stopping p = true ->
         acquisition_thread p <> acq_none ->
         processing_thread p <> proc_none ->
         remaining p = O ->
         step cvtColor_RGB2BGR p stop_returns = Some (stop_join p)).
Proof.
  split; [| split].
  - intros p ls p' Hstopped Hls Hrun.
    destruct (@thread_steps_bounded ls p p' Hstopped Hls Hrun) as [Hstopped' Hbound].
    split; [exact Hstopped' |]. split; [exact Hbound |].
    assert (Hmax : (remaining p <= 12)%nat).
    { unfold remaining.
      destruct (acquisition_thread p), (processing_thread p); simpl; lia. }
    lia.
  - intros [alg sb pb q acq proc rn cb svc fa fp stp ds dk dl h] Hstopped Hleft.
    simpl in Hstopped. subst rn. unfold remaining in Hleft. cbn in Hleft.
    destruct acq as [| | | fd | fd | |].
    2: { exists do_acq_test. eexists. split; reflexivity. }
    2: { exists (do_acq_read None 0 None). eexists. split; reflexivity. }
    2: { exists do_acq_buffer_add. eexists. split; reflexivity. }
    2: { exists do_acq_put. eexists. split; reflexivity. }
    2: { exists do_acq_count. eexists. split; reflexivity. }
    all: destruct proc as [| | | fd | fd pd | fd pd | fd pd | fd pd |];
      cbn in Hleft; try lia.
    all: try (exists do_proc_test; eexists; split; reflexivity).
    all: try (exists do_proc_get; destruct q; eexists; split; reflexivity).
    all: try (exists (do_proc_process 0); expose;
              destruct (process alg (frame fd)); eexists; split; reflexivity).
    all: try (exists do_proc_buffer_add; eexists; split; reflexivity).
    all: try (exists (do_proc_record true); expose;
              destruct (Recording.is_recording_active svc);
              [destruct (Recording.record_frame cvtColor_RGB2BGR true svc dk (frame pd))
                 as [[[b | e] svc'] dk'] |];
              eexists; split; reflexivity).
    all: try (exists do_proc_count; eexists; split; reflexivity).
    all: try (exists (do_proc_callback false); eexists; split; reflexivity).
  - intros [alg sb pb q acq proc rn cb svc fa fp stp ds dk dl h]
      Hstopping Hacq Hproc Hleft.
    simpl in Hstopping, Hacq, Hproc. subst stp.
    unfold remaining in Hleft. cbn in Hleft.
    destruct acq; try (now elim Hacq); cbn in Hleft; try lia;
      destruct proc; try (now elim Hproc); cbn in Hleft; try lia.
    reflexivity.
Qed.


Lemma transformed_by_step (alg : IDetectionAlgorithm ndarray) p l p' :
  is_set_algorithm l = false ->
  transformed_by alg p ->
  step cvtColor_RGB2BGR p l = Some p' ->
  transformed_by alg p'.
Proof.
  intros Hl HT Hs.
  destruct p as [a sb pb q acq proc rn cb svc fa fp stp ds dk dl h].
  destruct l; try discriminate Hl; expose; cases_of Hs.
  all: unfold transformed_by, held_pair in *; unfold_more.
  all: destruct HT as (Halg & Hall); subst a.
  all: split; [reflexivity |].
  all: intros fd pd Hin; split_membership; subst; cbn [frame frame_number source_info];
    try (apply Hall; auto; fail);
    try (apply Hall; left; assumption);
    try (apply Hall; right; left; reflexivity);
    try (repeat split; assumption).
Qed.

Lemma transformed_by_run (alg : IDetectionAlgorithm ndarray) ls :
  forall p p',
    Forall (fun l => is_set_algorithm l = false) ls ->
    transformed_by alg p ->
    run cvtColor_RGB2BGR p ls = Some p' ->
    transformed_by alg p'.
Proof.
  induction ls as [| l ls IH]; intros p p' Hls HT Hrun; simpl in Hrun.
  - now injection Hrun as <-.
  - destruct (step cvtColor_RGB2BGR p l) as [p1 |] eqn:Hstep; [| discriminate].
    inversion Hls as [| ? ? Hl Hls']; subst.
    apply (IH p1 p' Hls'); [| exact Hrun].
    eapply transformed_by_step; eassumption.
Qed.

Lemma keeps_algorithm_label (ms : list (PipelineSystem.move (ndarray := ndarray))) :
  forallb (@PipelineSystem.keeps_algorithm ndarray) ms = true ->
  Forall (fun l => is_set_algorithm l = false)
    (map (@PipelineSystem.as_label ndarray) ms).
Proof.
  induction ms as [| m ms IH]; intros Hms; [constructor |].
  cbn [forallb] in Hms. apply andb_prop in Hms. destruct Hms as [Hm Hms].
  cbn [map]. constructor; [| now apply IH].
  destruct m as [l | | i l | i l | alg]; try reflexivity; try discriminate Hm.
  destruct l; try reflexivity; discriminate Hm.
Qed.

(** X26: as long as the algorithm object of the pipeline is neither
    replaced by [set_algorithm] nor set up anew in place by [configure],
    the calls on the pipeline come from one thread, [read_frame()] and
    [get_info()] return, and no [stop()] has returned on a timeout of
    [join], every frame in the processed buffer is what the algorithm makes
    of a frame the acquisition loop created, with the same frame number and
    the algorithm's name as source tag; with the pass-through algorithm
    [NoProcessingAlgorithm] it has the very pixels of that source frame. *)
Theorem processed_frames_are_transforms :
  (forall (alg : IDetectionAlgorithm ndarray) (buffer_size : Z) p0 ms
          (s : PipelineSystem.System (ndarray := ndarray)) pd,
      Pipeline.init alg buffer_size = Ok p0 ->
      PipelineSystem.run cvtColor_RGB2BGR (PipelineSystem.boot p0) ms = Some s ->
      forallb (@PipelineSystem.joined ndarray) ms = true ->
      forallb (@PipelineSystem.keeps_algorithm ndarray) ms = true ->
      In pd (_buffer (processed_buffer (PipelineSystem.pipeline s))) ->
      exists fd,
        In (ev_acquired fd) (history (PipelineSystem.pipeline s))
        /\ process alg (frame fd) = Some (frame pd)
        /\ frame_number pd = frame_number fd
        /\ source_info pd = Some (get_name alg))
  /\ (forall (buffer_size : Z) p0 ms
             (s : PipelineSystem.System (ndarray := ndarray)) pd,
         Pipeline.init NoProcessingAlgorithm buffer_size = Ok p0 ->
         PipelineSystem.run cvtColor_RGB2BGR (PipelineSystem.boot p0) ms = Some s ->
         forallb (@PipelineSystem.joined ndarray) ms = true ->
         forallb (@PipelineSystem.keeps_algorithm ndarray) ms = true ->
         In pd (_buffer (processed_buffer (PipelineSystem.pipeline s))) ->
         exists fd,
           In (ev_acquired fd) (history (PipelineSystem.pipeline s))
           /\ frame pd = frame fd
           /\ frame_number pd = frame_number fd).
Proof.
  assert (Hgen : forall (alg : IDetectionAlgorithm ndarray) (buffer_size : Z)
                        p0 ms (s : PipelineSystem.System (ndarray := ndarray)) pd,
             Pipeline.init alg buffer_size = Ok p0 ->
             PipelineSystem.run cvtColor_RGB2BGR (PipelineSystem.boot p0) ms = Some s ->
             forallb (@PipelineSystem.joined ndarray) ms = true ->
             forallb (@PipelineSystem.keeps_algorithm ndarray) ms = true ->
             In pd (_buffer (processed_buffer (PipelineSystem.pipeline s))) ->
             exists fd,
               In (ev_acquired fd) (history (PipelineSystem.pipeline s))
               /\ process alg (frame fd) = Some (frame pd)
               /\ frame_number pd = frame_number fd
               /\ source_info pd = Some (get_name alg)).
  { intros alg buffer_size p0 ms s pd Hinit Hrun Hms Hkeep Hpd.
    pose proof (@joined_from_init _ cvtColor_RGB2BGR _ _ _ _ _ Hinit Hrun Hms)
      as Hplain.
    destruct (@everything_holds _ _ _ _ _ Hinit Hplain)
      as (_ & _ & _ & (_ & Hpb & _ & Hev & _) & _).
    assert (HT0 : transformed_by alg p0).
    { unfold Pipeline.init in Hinit.
      destruct (RingBuffer.init buffer_size); [| discriminate].
      injection Hinit as <-. split; [reflexivity |].
      intros fd0 pd0 [[] | []]. }
    destruct (@transformed_by_run alg _ p0 _ (keeps_algorithm_label ms Hkeep)
                HT0 Hplain) as [_ Hall].
    destruct (Hpb pd Hpd) as (fd & Hfd).
    destruct (Hev fd pd Hfd) as [Hacq _].
    destruct (Hall fd pd (or_introl Hfd)) as (Hproc & Hnum & Htag).
    exists fd. auto. }
  split; [exact Hgen |].
  intros buffer_size p0 ms s pd Hinit Hrun Hms Hkeep Hpd.
  destruct (Hgen _ _ _ _ _ _ Hinit Hrun Hms Hkeep Hpd)
    as (fd & Hacq & Hproc & Hnum & _).
  exists fd. cbn in Hproc. injection Hproc as Hproc. auto.
Qed.

End PipelineMore.

(** ** The image sequence source *)

Section ImageSequenceMore.
Import ImageSequence.
Context {ndarray : Type}.
Variable imread : string -> option ndarray.
Variable cvtColor_BGR2RGB : ndarray -> option ndarray.
Implicit Types (self : ImageSequenceSource) (folder : Folder).

Lemma getitem_in_range (A : Type) (l : list A) (i : Z) :
  0 <= i < len l -> exists a, getitem l i = Some a /\ nth_error l (Z.to_nat i) = Some a.
Proof.
  intros Hi. unfold getitem.
  destruct (Z.ltb_spec i 0) as [Hneg | _]; [lia |].
  destruct (nth_error l (Z.to_nat i)) as [a |] eqn:Hnth.
  - now exists a.
  - apply nth_error_None in Hnth. unfold len in Hi. lia.
Qed.

Lemma source_call_ok folder self (c : call) :
  let listing :=
    if len (png folder) =? 0 then jpg folder ++ jpeg folder else png folder in
  (0 <= current_position self
   /\ (_is_opened self = true ->
       image_files self = listing /\ current_position self < len listing)
   /\ (_is_opened self = false -> current_position self = 0)) ->
  0 <= current_position (after_call folder self c)
  /\ (_is_opened (after_call folder self c) = true ->
      image_files (after_call folder self c) = listing
      /\ current_position (after_call folder self c) < len listing)
  /\ (_is_opened (after_call folder self c) = false ->
      current_position (after_call folder self c) = 0).
Proof.
  intros listing (Hpos & Hopen & Hclosed).
  destruct self as [name files pos opened].
  cbn [current_position _is_opened image_files] in *.
  destruct c as [| k |]; cbn [after_call].
  - unfold open. cbn [folder_path current_position _is_opened image_files].
    destruct (is_dir folder); cbn [negb snd current_position _is_opened image_files].
    + fold listing. split; [exact Hpos |]. split.
      * intros Hnow. split; [reflexivity |].
        destruct opened.
        -- now destruct (Hopen eq_refl).
        -- rewrite (Hclosed eq_refl).
           rewrite Z.gtb_ltb in Hnow. now apply Z.ltb_lt in Hnow.
      * intros Hnow. destruct opened; [| now apply Hclosed].
        destruct (Hopen eq_refl) as [_ Hlt].
        rewrite Z.gtb_ltb in Hnow. apply Z.ltb_ge in Hnow. lia.
    + auto.
  - unfold seek. cbn [folder_path current_position _is_opened image_files].
    destruct opened; cbn [negb]; [| cbn; auto].
    destruct (Z.leb_spec 0 k); destruct (Z.ltb_spec k (len files));
      cbn [andb snd current_position _is_opened image_files]; auto.
    split; [assumption |]. split; [| discriminate].
    intros _. destruct (Hopen eq_refl) as [Hfiles _].
    split; [exact Hfiles | now rewrite <- Hfiles].
  - cbn. split; [lia |]. split; [discriminate | reflexivity].
Qed.

(** X27: while the folder stays as it is, whatever [open], [seek] and
    [close] calls a source receives, its position is never negative and is
    0 when the source is closed; when it is open, its files are the sorted
    PNG files of the folder (the JPG and JPEG files when there is no PNG
    file), the position is that of one of them, and [read_frame] never
    fails on the indexing: it answers no frame only when the file cannot
    be read. *)
Theorem image_source_position_valid :
  forall folder (name : string) (cs : list call),
    let listing :=
      if len (png folder) =? 0 then jpg folder ++ jpeg folder else png folder in
    let self := after_calls folder (init name) cs in
    0 <= get_current_position self
    /\ (_is_opened self = false ->
        get_current_position self = 0
        /\ get_total_frames self = None
        /\ read_frame imread cvtColor_BGR2RGB self = no_frame)
    /\ (_is_opened self = true ->
        image_files self = listing
        /\ get_total_frames self = Some (len listing)
        /\ get_current_position self < len listing
        /\ exists image_path,
            nth_error listing (Z.to_nat (get_current_position self))
            = Some image_path
            /\ read_frame imread cvtColor_BGR2RGB self
               = match imread image_path with
                 | Some frame =>
                     match cvtColor_BGR2RGB frame with
                     | Some rgb => frame_read rgb
                     | None => raises_cv2_error
                     end
                 | None => no_frame
                 end).
Proof.
  intros folder name cs listing self.
  assert (Hinv : 0 <= current_position self
                 /\ (_is_opened self = true ->
                     image_files self = listing
                     /\ current_position self < len listing)
                 /\ (_is_opened self = false -> current_position self = 0)).
  { subst self.
    assert (Hstart : forall s0 : ImageSequenceSource,
               (0 <= current_position s0
                /\ (_is_opened s0 = true ->
                    image_files s0 = listing /\ current_position s0 < len listing)
                /\ (_is_opened s0 = false -> current_position s0 = 0)) ->
               0 <= current_position (after_calls folder s0 cs)
               /\ (_is_opened (after_calls folder s0 cs) = true ->
                   image_files (after_calls folder s0 cs) = listing
                   /\ current_position (after_calls folder s0 cs) < len listing)
               /\ (_is_opened (after_calls folder s0 cs) = false ->
                   current_position (after_calls folder s0 cs) = 0)).
    { induction cs as [| c cs IH]; intros s0 H0; [exact H0 |].
      change (after_calls folder s0 (c :: cs))
        with (after_calls folder (after_call folder s0 c) cs).
      apply IH. now apply source_call_ok. }
    apply Hstart. cbn. split; [lia |]. split; [discriminate | reflexivity]. }
  clear - Hinv. destruct Hinv as (Hpos & Hopen & Hclosed).
  unfold get_current_position, get_total_frames, read_frame.
  split; [exact Hpos |]. split.
  - intros Hc. rewrite Hc. cbn [negb orb]. auto.
  - intros Ho. destruct (Hopen Ho) as [Hfiles Hlt]. rewrite Ho, Hfiles.
    split; [reflexivity |]. split; [reflexivity |]. split; [exact Hlt |].
    destruct (@getitem_in_range _ listing (current_position self))
      as (image_path & Hget & Hnth); [lia |].
    exists image_path. split; [exact Hnth |].
    cbn [negb orb]. rewrite Z.geb_leb.
    destruct (Z.leb_spec (len listing) (current_position self)) as [? | _]; [lia |].
    now rewrite Hget.
Qed.

End ImageSequenceMore.

(** ** The parts together *)

Section AcrossModules.
Context {ndarray : Type}.
Implicit Types (src : ImageSequence.ImageSequenceSource)
  (folder : ImageSequence.Folder)
  (p : Pipeline.ProcessingPipeline (ndarray := ndarray))
  (self : Playback.PlaybackController).

(** X28: starting a pipeline on an image sequence source.  [open()]
    succeeds exactly when the folder is a directory with at least one image
    file, and then [start()] of the source succeeds too; so the pipeline's
    [start()] either fails after the one [open()] call, or succeeds after
    [open()] and [start()] and launches both loops: with this source it
    never has to close the source again. *)
Theorem pipeline_start_on_image_sequence :
  forall folder src p,
    Pipeline.is_running p = false ->
    let opened := fst (ImageSequence.open folder src) in
    let started := ImageSequence.start (snd (ImageSequence.open folder src)) in
    (opened = true
     <-> ImageSequence.is_dir folder = true
         /\ (ImageSequence.png folder <> []
             \/ ImageSequence.jpg folder ++ ImageSequence.jpeg folder <> []))
    /\ (opened = true ->
        started = true
        /\ fst (Pipeline.start opened started p) = true
        /\ Pipeline.is_running (snd (Pipeline.start opened started p)) = true
        /\ Pipeline.acquisition_thread (snd (Pipeline.start opened started p))
           = Pipeline.acq_at_test
        /\ Pipeline.processing_thread (snd (Pipeline.start opened started p))
           = Pipeline.proc_at_test
        /\ Pipeline.data_source (snd (Pipeline.start opened started p))
           = Pipeline.data_source p ++ [Pipeline.src_open; Pipeline.src_start])
    /\ (opened = false ->
        Pipeline.start opened started p
        = (false, Pipeline.call_source Pipeline.src_open p)).
Proof.
  intros folder src p Hstopped opened started.
  subst opened started. unfold ImageSequence.open, ImageSequence.start.
  destruct (ImageSequence.is_dir folder); cbn [negb fst snd].
  2:{ split; [split; [discriminate | intros [H _]; discriminate] |].
      split; [discriminate |]. intros _. unfold Pipeline.start.
      now rewrite Hstopped. }
  cbn [ImageSequence._is_opened].
  set (files := if len (ImageSequence.png folder) =? 0
                then ImageSequence.jpg folder ++ ImageSequence.jpeg folder
                else ImageSequence.png folder).
  split; [| split].
  - rewrite Z.gtb_ltb, Z.ltb_lt. subst files. unfold len.
    destruct (ImageSequence.png folder) as [| f fs]; cbn.
    + split.
      * intros Hlen. split; [reflexivity |]. right. intros Heq.
        rewrite Heq in Hlen. simpl in Hlen. lia.
      * intros [_ [Hpng | Hjpg]]; [now elim Hpng |].
        destruct (ImageSequence.jpg folder ++ ImageSequence.jpeg folder);
          [now elim Hjpg | simpl; lia].
    + split; [| lia]. intros _. split; [reflexivity |]. left. discriminate.
  - intros Hopen. rewrite Hopen. split; [reflexivity |].
    unfold Pipeline.start. rewrite Hstopped. cbn.
    rewrite <- app_assoc. repeat split.
  - intros Hopen. rewrite Hopen. unfold Pipeline.start. now rewrite Hstopped.
Qed.

(** X29: the window hands every frame number of the drive loop to
    [seek()] of the source.  With the total taken from an opened image
    sequence source of at least two files, every frame number a pass of the
    drive loop produces is a position the source accepts; with a single
    file and looping enabled the pass produces frame 1, which the source
    refuses. *)
Theorem drive_loop_frames_are_positions :
  forall self src (frame_time : Q) self',
    Playback._lock self = false ->
    0 <= Playback._current_frame self ->
    ImageSequence._is_opened src = true ->
    Playback._total_frames self = ImageSequence.get_total_frames src ->
    PlaybackOps._play_loop_iteration self
    = Playback.Returned (PlaybackOps.it_tick frame_time) self' ->
    (2 <= len (ImageSequence.image_files src) ->
     ImageSequence.seek (Playback._current_frame self') src
     = (true,
        ImageSequence.mkSource (ImageSequence.folder_path src)
          (ImageSequence.image_files src) (Playback._current_frame self') true))
    /\ (len (ImageSequence.image_files src) = 1 ->
        Playback._current_frame self' = 1
        /\ ImageSequence.seek (Playback._current_frame self') src = (false, src)).
Proof.
  intros [fps st cur lp total lk th ev cb calls k] [name files pos opened]
    frame_time self' Hlock Hcur Hopened Htotal Hrun.
  simpl in Hlock, Hcur, Hopened, Htotal. subst lk opened.
  unfold ImageSequence.get_total_frames in Htotal. cbn in Htotal. subst total.
  cbn [ImageSequence.image_files].
  assert (Hframe :
            Playback._current_frame self'
            = if cur >=? len files - 1 then 1 else cur + 1).
  { revert Hrun.
    unfold PlaybackOps._play_loop_iteration, PlaybackOps._play_loop_locked,
      Playback.with_lock, Playback.acquire, Playback.release, Playback.fire,
      Playback.bind, Playback.ret, Playback.read, Playback.update.
    cbn. destruct ev; cbn; [discriminate |].
    destruct st; cbn; try discriminate.
    destruct (Qeq_bool fps 0); cbn; [discriminate |].
    destruct (cur >=? len files - 1); destruct lp; destruct cb; cbn;
      intros Hrun; inversion Hrun; reflexivity. }
  unfold ImageSequence.seek.
  cbn [ImageSequence._is_opened ImageSequence.image_files negb
       ImageSequence.folder_path].
  rewrite Hframe.
  destruct (cur >=? len files - 1) eqn:Hend; rewrite Z.geb_leb in Hend.
  - apply Z.leb_le in Hend. split.
    + intros Htwo.
      destruct (Z.leb_spec 0 1); destruct (Z.ltb_spec 1 (len files)); try lia.
      reflexivity.
    + intros Hone. split; [reflexivity |].
      destruct (Z.leb_spec 0 1); destruct (Z.ltb_spec 1 (len files)); try lia.
      reflexivity.
  - apply Z.leb_gt in Hend. split.
    + intros Htwo.
      destruct (Z.leb_spec 0 (cur + 1));
        destruct (Z.ltb_spec (cur + 1) (len files)); try lia.
      reflexivity.
    + intros Hone. lia.
Qed.

End AcrossModules.

(** ** The further properties at the sample data *)

Lemma overtaking_runs :
  Pipeline.run Samples.sample_cvt Samples.fresh Samples.overtaking
  = Some (Samples.run_from Samples.fresh Samples.overtaking).
Proof. vm_compute. reflexivity. Defined.

Lemma buffer_never_exceeds_capacity_witness :
  RingBuffer.get_capacity (RingBufferOps.apply_ops Samples.empty3 MoreSamples.some_ops) = 3
  /\ 0 <= RingBuffer.get_size (RingBufferOps.apply_ops Samples.empty3 MoreSamples.some_ops) <= 3.
Proof.
  exact (@buffer_never_exceeds_capacity Z 3 Samples.empty3 MoreSamples.some_ops eq_refl).
Defined.

Lemma get_by_frame_number_finds_newest_witness :
  RingBuffer.get_by_frame_number MoreSamples.seven_twice 7
  = Some (mkFrameData 21 21 7 None).
Proof.
  refine (proj2 (proj2 (@get_by_frame_number_finds_newest Z MoreSamples.seven_twice 7))
            [Samples.numbered 1; mkFrameData 20 20 7 None] [Samples.numbered 9]
            (mkFrameData 21 21 7 None) eq_refl eq_refl _).
  intros y [<- | []]. discriminate.
Defined.

Lemma add_then_lookup_witness :
  RingBuffer.get_latest (RingBuffer.add MoreSamples.full3 (Samples.numbered 5))
  = Some (Samples.numbered 5).
Proof.
  refine (proj1 (@add_then_lookup Z MoreSamples.full3 (Samples.numbered 5) _)).
  reflexivity.
Defined.

Lemma add_evicts_only_the_oldest_witness :
  RingBuffer._buffer (RingBuffer.add MoreSamples.full3 (Samples.numbered 5))
  = tl (RingBuffer._buffer MoreSamples.full3) ++ [Samples.numbered 5].
Proof.
  refine (proj1 (proj1 (@add_evicts_only_the_oldest Z MoreSamples.full3
                          (Samples.numbered 5) _) _));
    reflexivity.
Defined.

Lemma fill_percentage_in_range_witness :
  exists q,
    RingBuffer.get_fill_percentage MoreSamples.full3 = Ok q
    /\ (0 <= q)%Q /\ (q <= 100)%Q.
Proof.
  refine (proj1 (@fill_percentage_in_range Z) MoreSamples.full3 _ _).
  - reflexivity.
  - discriminate.
Defined.

Lemma sample_calls_accepted :
  forall f w, In (f, w) Samples.three_calls -> Samples.sample_cvt f <> None.
Proof.
  intros f w [Hin | [Hin | [Hin | []]]]; injection Hin as <- _; discriminate.
Defined.

Lemma recording_session_round_trip_witness :
  exists self1 self2 written,
    Recording.start_recording (Some "take1"%string) "clock" true
      Samples.idle_service Samples.empty_disk
    = (Ok (Recording.path_str Samples.take1), self1,
       Recording.mkdir Samples.empty_disk Samples.take1)
    /\ Recording.record_all Samples.sample_cvt Samples.three_calls self1
         (Recording.mkdir Samples.empty_disk Samples.take1)
       = (Ok [true; false; true], self2,
          Recording.mkDisk
            (Recording.directories (Recording.mkdir Samples.empty_disk Samples.take1))
            ([] ++ written))
    /\ List.length written = 2%nat
    /\ Recording.stop_recording self2
       = ((Recording.path_str Samples.take1, 2),
          Recording.mkService ["recordings"%string] None 0 false).
Proof.
  exact (@recording_session_round_trip Z Samples.sample_cvt (Some "take1"%string)
           "clock"%string Samples.three_calls Samples.idle_service
           Samples.empty_disk eq_refl sample_calls_accepted).
Defined.

Lemma stop_recording_idempotent_witness :
  Recording.stop_recording Samples.idle_service
  = ((EmptyString, 0), Samples.idle_service).
Proof.
  exact (proj1 (@stop_recording_idempotent Z Samples.sample_cvt)
           Samples.idle_service eq_refl).
Defined.

Lemma frame_filenames_distinct_witness :
  exists written,
    Recording.images
      (snd (Recording.record_all Samples.sample_cvt Samples.three_calls
              Samples.active_service Samples.empty_disk))
    = Recording.images Samples.empty_disk ++ written
    /\ NoDup (map fst written).
Proof.
  pose (x := Recording.record_all Samples.sample_cvt Samples.three_calls
               Samples.active_service Samples.empty_disk).
  refine (proj2 (@frame_filenames_distinct Z Samples.sample_cvt)
            Samples.three_calls Samples.active_service Samples.empty_disk
            Samples.take1 (snd (fst x)) (snd x) (fst (fst x))
            eq_refl eq_refl _ sample_calls_accepted _).
  - discriminate.
  - fold x. destruct x as [[results self'] disk']. reflexivity.
Defined.

Lemma recording_faults_keep_session_witness :
  Recording.record_frame Samples.sample_cvt true Samples.active_service
    Samples.empty_disk (-1)
  = (Raise cv2_error, Samples.active_service, Samples.empty_disk).
Proof.
  exact (proj1 (@recording_faults_keep_session Z Samples.sample_cvt) true
           Samples.active_service Samples.empty_disk Samples.take1 (-1)
           eq_refl eq_refl eq_refl).
Defined.

Lemma seek_clamps_and_fires_witness :
  exists self',
    Playback.seek 9 Samples.at_first_frame = Playback.Returned tt self'
    /\ Playback._current_frame self' = 2
    /\ Playback.callback_calls self' = [2].
Proof.
  destruct (seek_clamps_and_fires 9 Samples.at_first_frame eq_refl)
    as (self' & Hcall & Hframe & Hfired & _).
  exists self'. split; [exact Hcall |]. split; [exact Hframe | exact Hfired].
Defined.

Lemma window_step_fires_at_boundary_witness :
  exists self',
    PlaybackOps.window_step_forward true Samples.at_last_frame
    = Playback.Returned tt self'
    /\ Playback._current_frame self' = 2
    /\ Playback.callback_calls self' = [2].
Proof.
  destruct (proj1 (window_step_fires_at_boundary Samples.at_last_frame eq_refl))
    as (self' & Hcall & Hframe & Hfired & _).
  exists self'. split; [exact Hcall |]. split; [exact Hframe | exact Hfired].
Defined.


Lemma transport_state_machine_witness :
  exists s3,
    Playback.stop Samples.in_the_middle = Playback.Returned tt s3
    /\ Playback._state s3 = Playback.STOPPED
    /\ Playback._current_frame s3 = 0
    /\ Playback.callback_calls s3 = [].
Proof.
  destruct (proj2 (proj2 (transport_state_machine true Samples.in_the_middle eq_refl)))
    as (s3 & Hcall & Hstate & Hframe & _ & Hfired & _).
  exists s3. auto.
Defined.


Lemma drive_loop_exits_and_frame_rate_witness :
  PlaybackOps._play_loop_iteration MoreSamples.zero_rate
  = Playback.Returned (PlaybackOps.it_raise ZeroDivisionError) MoreSamples.zero_rate.
Proof.
  exact (proj1 (proj2 drive_loop_exits_and_frame_rate) MoreSamples.zero_rate
           eq_refl eq_refl eq_refl eq_refl).
Defined.

Lemma window_toggle_returns_witness :
  exists self',
    PlaybackOps.window_toggle_play_pause true 7 true Samples.in_the_middle
    = Playback.Returned tt self'
    /\ Playback._state self' = Playback.PAUSED.
Proof.
  destruct (proj1 (window_toggle_returns 7 true Samples.in_the_middle eq_refl) eq_refl)
    as (self' & Hcall & Hstate & _).
  exists self'. auto.
Defined.

Lemma pipeline_stays_bounded_witness :
  len (Pipeline.processing_queue (Samples.run_from Samples.fresh Samples.overtaking)) <= 10.
Proof.
  exact (proj1 (@pipeline_stays_bounded Z Samples.sample_cvt _ _ _ _ _
                  fresh_is_initial overtaking_runs)).
Defined.

Lemma full_queue_drops_from_processing_only_witness :
  exists p',
    Pipeline.run Samples.sample_cvt MoreSamples.queue_is_full
      [Pipeline.do_acq_buffer_add; Pipeline.do_acq_put; Pipeline.do_acq_count]
    = Some p'
    /\ RingBuffer.get_latest (Pipeline.source_buffer p') = Some (Samples.numbered 10)
    /\ Pipeline.frames_acquired p' = 11
    /\ Pipeline.processing_queue p' = Pipeline.processing_queue MoreSamples.queue_is_full.
Proof.
  destruct (@full_queue_drops_from_processing_only Z Samples.sample_cvt
              MoreSamples.queue_is_full (Samples.numbered 10) eq_refl eq_refl)
    as (p' & Hrun & Hlatest & Hcount & _ & _ & Hfull & _).
  exists p'. split; [exact Hrun |]. split; [exact Hlatest |].
  split; [exact Hcount |]. apply Hfull. discriminate.
Defined.

Lemma frame_numbers_stay_ordered_witness :
  StronglySorted Z.lt
    (RingBuffer.get_all_frame_numbers
       (Pipeline.source_buffer
          (PipelineSystem.pipeline
             (MoreSamples.moved_from MoreSamples.booted
                MoreSamples.overtaking_moves)))).
Proof.
  exact (proj1 (@frame_numbers_stay_ordered Z Samples.sample_cvt _ _ _ _ _
                  fresh_is_initial overtaking_moves_run eq_refl)).
Defined.

Lemma frames_by_number_are_matched_witness :
  In (Pipeline.ev_processed MoreSamples.acquired0 MoreSamples.processed0)
    (Pipeline.history
       (PipelineSystem.pipeline
          (MoreSamples.moved_from MoreSamples.booted
             MoreSamples.overtaking_moves))).
Proof.
  refine (proj1 (proj2 (proj2
            (@frames_by_number_are_matched Z Samples.sample_cvt _ _ _ _ _ 0
               MoreSamples.acquired0 MoreSamples.processed0
               fresh_is_initial overtaking_moves_run eq_refl _)))).
  vm_compute. reflexivity.
Defined.

Lemma stopping_midway_stopped :
  Pipeline.is_running (Samples.run_from Samples.fresh MoreSamples.stopping_midway)
  = false.
Proof. vm_compute. reflexivity. Defined.

Lemma leaving_runs :
  Pipeline.run Samples.sample_cvt
    (Samples.run_from Samples.fresh MoreSamples.stopping_midway) MoreSamples.leaving
  = Some (Samples.run_from
            (Samples.run_from Samples.fresh MoreSamples.stopping_midway)
            MoreSamples.leaving).
Proof. vm_compute. reflexivity. Defined.

Lemma loops_leave_after_stop_witness :
  (List.length MoreSamples.leaving
   + PipelineOps.remaining
       (Samples.run_from
          (Samples.run_from Samples.fresh MoreSamples.stopping_midway)
          MoreSamples.leaving)
   <= PipelineOps.remaining
        (Samples.run_from Samples.fresh MoreSamples.stopping_midway))%nat.
Proof.
  refine (proj1 (proj2 (proj1 (@loops_leave_after_stop Z Samples.sample_cvt)
                          _ MoreSamples.leaving _ stopping_midway_stopped _ leaving_runs))).
  repeat constructor.
Defined.


Lemma callback_gets_matched_pairs_witness :
  len (Pipeline.delivered
         (PipelineSystem.pipeline
            (MoreSamples.moved_from MoreSamples.booted
               MoreSamples.overtaking_moves)))
  <= Pipeline.frames_processed
       (PipelineSystem.pipeline
          (MoreSamples.moved_from MoreSamples.booted
             MoreSamples.overtaking_moves)).
Proof.
  exact (proj2 (@callback_gets_matched_pairs Z Samples.sample_cvt _ _ _ _ _
                  fresh_is_initial overtaking_moves_run eq_refl)).
Defined.

Lemma processed_frames_are_transforms_witness :
  exists fd,
    In (Pipeline.ev_acquired fd)
      (Pipeline.history
         (PipelineSystem.pipeline
            (MoreSamples.moved_from MoreSamples.booted
               MoreSamples.overtaking_moves)))
    /\ Pipeline.process Samples.sample_algorithm (frame fd)
       = Some (frame MoreSamples.processed0)
    /\ frame_number MoreSamples.processed0 = frame_number fd
    /\ source_info MoreSamples.processed0
       = Some (Pipeline.get_name Samples.sample_algorithm).
Proof.
  refine (proj1 (@processed_frames_are_transforms Z Samples.sample_cvt)
            _ _ _ MoreSamples.overtaking_moves _ MoreSamples.processed0
            fresh_is_initial overtaking_moves_run eq_refl eq_refl _).
  vm_compute. left. reflexivity.
Defined.

(** ** What the conditions above keep out *)

(** After a [stop()] that returned on a timeout and a second [start()],
    two acquisition loops give numbers from one counter.  At the end of
    [MoreSamples.outliving] one loop of the first session is still alive,
    two frames are counted as processed and none as acquired, and each
    buffer holds two frames numbered 0; after [MoreSamples.outliving_on]
    the second session has given the numbers 0, 2 and 2. *)
Lemma loops_outlive_a_timed_out_join :
  option_map
    (fun s =>
       let p := PipelineSystem.pipeline s in
       (List.length (PipelineSystem.earlier_acquisition s),
        Pipeline.frames_processed p, Pipeline.frames_acquired p,
        RingBuffer.get_all_frame_numbers (Pipeline.source_buffer p),
        RingBuffer.get_all_frame_numbers (Pipeline.processed_buffer p)))
    (PipelineSystem.run Samples.sample_cvt MoreSamples.booted
       MoreSamples.outliving)
  = Some (1%nat, 2, 0, [0; 0], [0; 0])
  /\ option_map
       (fun s =>
          rev (Pipeline.session_numbers
                 (Pipeline.history (PipelineSystem.pipeline s))))
       (PipelineSystem.run Samples.sample_cvt MoreSamples.booted
          (MoreSamples.outliving ++ MoreSamples.outliving_on))
     = Some [0; 2; 2].
Proof. split; vm_compute; reflexivity. Qed.

(** After [configure] on the algorithm object the pipeline holds, a frame
    in the processed buffer need not be what the algorithm now makes of its
    source frame: at the end of [MoreSamples.reconfiguring] the processed
    buffer holds the payload 105, made of the payload 5, of which the
    algorithm makes 205. *)
Lemma configure_changes_the_transform :
  option_map
    (fun s =>
       let p := PipelineSystem.pipeline s in
       (map (@frame Z) (RingBuffer._buffer (Pipeline.source_buffer p)),
        map (@frame Z) (RingBuffer._buffer (Pipeline.processed_buffer p)),
        Pipeline.process (Pipeline.algorithm p) 5))
    (PipelineSystem.run Samples.sample_cvt MoreSamples.booted
       MoreSamples.reconfiguring)
  = Some ([5], [105], Some 205).
Proof. vm_compute. reflexivity. Qed.

Lemma image_source_position_valid_witness :
  0 <= ImageSequence.get_current_position
         (ImageSequence.after_calls MoreSamples.three_pngs
            (ImageSequence.init "frames") MoreSamples.some_source_calls).
Proof.
  exact (proj1 (@image_source_position_valid Z MoreSamples.sample_imread
                  Samples.sample_cvt MoreSamples.three_pngs "frames"%string
                  MoreSamples.some_source_calls)).
Defined.

Lemma pipeline_start_on_image_sequence_witness :
  fst (Pipeline.start
         (fst (ImageSequence.open MoreSamples.three_pngs (ImageSequence.init "frames")))
         (ImageSequence.start
            (snd (ImageSequence.open MoreSamples.three_pngs (ImageSequence.init "frames"))))
         Samples.fresh)
  = true.
Proof.
  destruct (proj1 (proj2 (@pipeline_start_on_image_sequence Z MoreSamples.three_pngs
                            (ImageSequence.init "frames") Samples.fresh eq_refl))
              eq_refl)
    as (_ & Hok & _).
  exact Hok.
Defined.

Lemma drive_loop_frames_are_positions_witness :
  ImageSequence.seek (Playback._current_frame MoreSamples.after_wrap)
    (snd (ImageSequence.open MoreSamples.three_pngs (ImageSequence.init "frames")))
  = (true,
     ImageSequence.mkSource "frames" ["a.png"; "b.png"; "c.png"]%string
       (Playback._current_frame MoreSamples.after_wrap) true).
Proof.
  refine (proj1 (@drive_loop_frames_are_positions MoreSamples.looping_at_end
                   (snd (ImageSequence.open MoreSamples.three_pngs
                           (ImageSequence.init "frames")))
                   (1 / 30)%Q MoreSamples.after_wrap eq_refl _ eq_refl eq_refl
                   eq_refl) _);
    discriminate.
Defined.

